(** * syrup: the default gulp tasks

    A shallow embedding of the watch-mode machinery registered by [init]:
    the [runningTasks] table with [runOrQueue], the shared [bundlerInstance]
    with [bundler] and its watchify [update] handler, the [gulp.watch]
    wiring of the [watch] task and the port selection of the [serve] task.

    The code is callback driven.  A callback that the Node event loop
    invokes later is an [Event] here, and handling it is one [step] on the
    [State] that holds the variables the closures of [init] share.

    The callbacks given to [gulp.start] are called by gulp, and when it
    calls which is part of the model: gulp 3 runs what it is asked to start
    as one orchestration and keeps one callback, that of the latest
    [gulp.start]; it calls it when the orchestration stops, after the last
    task or at the first failure. *)

From Stdlib Require Import ZArith Lia String Ascii List Bool.
From stdpp Require Import base option list gmap strings.

Local Open Scope string_scope.
Local Open Scope Z_scope.
Local Open Scope list_scope.

(** ** JavaScript values *)

(** The values that reach [options.port], [options.silent] and the parsed
    command line [gutil.env]: numbers are integer valued there (a number is
    written [VNum n], the not-a-number value [VNaN]). *)
Inductive value : Type :=
  | VUndefined
  | VNull
  | VBool (b : bool)
  | VNum (n : Z)
  | VNaN
  | VStr (s : string).

(** ECMAScript [ToBoolean]. *)
Definition truthy (v : value) : bool :=
  match v with
  | VUndefined | VNull | VNaN => false
  | VBool b => b
  | VNum n => negb (n =? 0)
  | VStr s => negb (String.eqb s "")
  end.

(** [a || b]: the left operand when it is truthy, the right one otherwise. *)
Definition js_or (a b : value) : value := if truthy a then a else b.

(** [v === true]. *)
Definition is_true_value (v : value) : bool :=
  match v with VBool true => true | _ => false end.

(** ** Strings and paths *)

(** [s.indexOf(needle) !== -1]. *)
Definition contains (needle s : string) : bool :=
  match String.index 0 needle s with Some _ => true | None => false end.

(** [s.split(c)] for a one-character separator: never empty, the parts are
    the maximal runs without [c]. *)
Fixpoint split_on (c : ascii) (s : string) : list string :=
  match s with
  | EmptyString => [EmptyString]
  | String a s' =>
      if Ascii.eqb a c then EmptyString :: split_on c s'
      else match split_on c s' with
           | [] => [String a EmptyString]
           | h :: t => String a h :: t
           end
  end.

Definition nonempty (s : string) : bool := negb (String.eqb s "").

(** Node's POSIX [path.basename(p)]: trailing separators are ignored and the
    last component that is left is returned, the empty string when there is
    none. *)
Definition basename (p : string) : string :=
  List.last (List.filter nonempty (split_on "/" p)) "".

(** [a[i]] on an array of strings, for an index in range. *)
Definition part (i : nat) (parts : list string) : string := nth i parts "".

(** ** White space

    A string is kept as the bytes of its UTF-8 encoding.  Every character
    that the code looks for ([/], [.], [*] and the line feed) is a single
    byte that occurs in no longer encoding, so that splitting and searching
    go byte by byte; [trim] has to know the longer encodings. *)

(** The characters that [String.prototype.trim] removes, ECMAScript's
    WhiteSpace and LineTerminator, each as the bytes of its encoding:
    U+0009 to U+000D, U+0020, U+00A0, U+1680, U+2000 to U+200A, U+2028,
    U+2029, U+202F, U+205F, U+3000 and U+FEFF. *)
Definition whiteSpaceCodes : list (list Z) :=
  [ [9]; [10]; [11]; [12]; [13]; [32];
    [194; 160];
    [225; 154; 128];
    [226; 128; 128]; [226; 128; 129]; [226; 128; 130]; [226; 128; 131];
    [226; 128; 132]; [226; 128; 133]; [226; 128; 134]; [226; 128; 135];
    [226; 128; 136]; [226; 128; 137]; [226; 128; 138];
    [226; 128; 168]; [226; 128; 169]; [226; 128; 175];
    [226; 129; 159];
    [227; 128; 128];
    [239; 187; 191] ].

Definition whiteSpace : list (list ascii) :=
  List.map (List.map (fun c => ascii_of_nat (Z.to_nat c))) whiteSpaceCodes.

(** What is left of [l] after its prefix [p], if [l] begins with [p]. *)
Fixpoint stripPrefix (p l : list ascii) : option (list ascii) :=
  match p, l with
  | [], _ => Some l
  | a :: p', b :: l' => if Ascii.eqb a b then stripPrefix p' l' else None
  | _ :: _, [] => None
  end.

(** What is left of [l] after the first of [ps] that it begins with. *)
Fixpoint stripAny (ps : list (list ascii)) (l : list ascii) : option (list ascii) :=
  match ps with
  | [] => None
  | p :: ps' =>
      match stripPrefix p l with
      | Some r => Some r
      | None => stripAny ps' l
      end
  end.

(** [l] without the members of [ps] it begins with, one after another;
    [fuel] bounds their number. *)
Fixpoint stripAll (ps : list (list ascii)) (fuel : nat) (l : list ascii) : list ascii :=
  match fuel with
  | O => l
  | S n =>
      match stripAny ps l with
      | Some r => stripAll ps n r
      | None => l
      end
  end.

(** [l] without the white space it begins with. *)
Definition trim_left (l : list ascii) : list ascii :=
  stripAll whiteSpace (length l) l.

(** [l] without the white space it ends with. *)
Definition trim_right (l : list ascii) : list ascii :=
  rev (stripAll (List.map (@rev ascii) whiteSpace) (length l) (rev l)).

(** [s.trim()]. *)
Definition trim (s : string) : string :=
  string_of_list_ascii (trim_right (trim_left (list_ascii_of_string s))).

(** ** The [update] handler's tests on a changed file *)

(** The first filter of the handler: [f.indexOf('/node_modules/') !== -1]. *)
Definition inNodeModules (f : string) : bool := contains "/node_modules/" f.

(** The second filter of the handler, the callback of [packageJsonChanges]. *)
Definition isPackageJson (f : string) : bool :=
  let fileParts := split_on "." f in
  if (1 <? length fileParts)%nat then
    (String.eqb (basename (part (length fileParts - 2) fileParts)) "package"
     && String.eqb (part (length fileParts - 1) fileParts) "json")%bool
  else false.

(** ** The [serve] task *)

Record Options : Type := {
  opt_silent : value;
  opt_port : value;
  opt_enableStringify : value;
  opt_disableBabel : value
}.

(** [var port = options.port || gutil.env.port || 4040;] *)
Definition servePort (options : Options) (envPort : value) : value :=
  js_or (js_or (opt_port options) envPort) (VNum 4040).


Record Paths : Type := {
  paths_base : string;
  paths_html : string;
  paths_allLess : string;
  paths_js : string;
  paths_assets : string
}.

(** ** Output *)

Inductive Color : Type := Plain | Red | Green | Yellow | Cyan | Magenta | Gray.

(** What [formattedTimeDiff] prints for a difference of [ms] milliseconds:
    the number with its unit.  [Seconds ms] stands for [ms / 1000] followed
    by [s], [Minutes ms] for [ms / 1000 / 60] followed by [m]; the quotient
    is kept symbolic. *)
Inductive Duration : Type :=
  | Millis (ms : Z)
  | Seconds (ms : Z)
  | Minutes (ms : Z).

(** A fragment of a log line: text in a colour, or a formatted duration. *)
Inductive Piece : Type :=
  | Txt (c : Color) (s : string)
  | Elapsed (c : Color) (d : Duration).

(** The arguments of one [gutil.log] call, in order. *)
Definition LogLine : Type := list Piece.

(** What the closures of [init] do to the outside world, in order. *)
Inductive Effect : Type :=
  | ELog (line : LogLine)          (* a line written by [gutil.log] *)
  | ERequest (name : string)       (* [runOrQueue(name)] was called *)
  | EStart (name : string)         (* [gulp.start(name, ...)] was called *)
  | EBundle (sid : nat)            (* the [js] task called [bundle()] on session [sid] *)
  | EReset (sid : nat)             (* [reset()] on session [sid] *)
  | EClose (sid : nat)             (* [close()] on session [sid] *)
  | EExec (cmd : string).          (* [childProcess.exec(cmd, ...)] *)

(** ** State *)

Inductive Transform : Type := Stringify | Babelify.

(** A browserify instance made by [bundler].  Each one is built with fresh
    [cache] and [packageCache] objects, so these are shared exactly by
    the uses of one instance; the instance is identified by its position
    in [sessions]. *)
Record Session : Type := {
  ses_watchify : bool;              (* wrapped by watchify, [update] handler attached *)
  ses_transforms : list Transform;
  ses_entry : string * string;      (* [path.resolve(paths.base, paths.js)] *)
  ses_closed : bool                 (* [close()] was called *)
}.

(** A run that [runOrQueue] started: the task given to [gulp.start] and
    the [start] that the callback given with it captured. *)
Record Run : Type := {
  run_name : string;
  run_start : Z
}.

(** The two callbacks that the code gives to [gulp.start]: the one of the
    [watch] task, given with [build], and the one of [runOrQueue]. *)
Inductive Callback : Type :=
  | CbBuild
  | CbRun (r : Run).

(** The variables that the closures of [init] share, and what they see of
    the process around them.  [runningTasks] is a plain object used as a
    map; its keys are the task names given to [runOrQueue], which are
    [html-js], [html-less], [html-assets] and [html-only], none of them a
    property that objects inherit.

    Of gulp the state holds the orchestration in progress, as gulp 3 (the
    orchestrator module behind [gulp.start]) keeps it.  There is one
    orchestration at a time: a [gulp.start] during it adds its tasks to it.
    There is one [doneCallback]: each [gulp.start] that is given a callback
    replaces it, and gulp calls what it holds when the orchestration
    stops, which is when all of its tasks are over or when one of them
    fails.  [inflight] lists the runs started by [runOrQueue] that are in
    the orchestration, oldest first, and [building] tells whether the
    [build] of the [watch] task is in it.

    [logMuted] tells whether [gutil.log], which all of the process shares,
    was replaced by [gutil.noop] by another call of [init]. *)
Record State : Type := {
  runningTasks : gmap string bool;
  inflight : list Run;
  doneCallback : option Callback;
  building : bool;
  bundlerInstance : option nat;
  sessions : list Session;
  watchJs : bool;
  pendingPrune : nat;               (* [npm prune] children not yet called back *)
  pendingInstall : nat;             (* [npm install] children not yet called back *)
  logMuted : bool;
  trace : list Effect
}.

Definition initial : State :=
  {| runningTasks := ∅; inflight := []; doneCallback := None; building := false;
     bundlerInstance := None; sessions := []; watchJs := false;
     pendingPrune := 0; pendingInstall := 0; logMuted := false; trace := [] |}.

Definition set_runningTasks (m : gmap string bool) (st : State) : State :=
  {| runningTasks := m; inflight := inflight st; doneCallback := doneCallback st;
     building := building st; bundlerInstance := bundlerInstance st;
     sessions := sessions st; watchJs := watchJs st; pendingPrune := pendingPrune st;
     pendingInstall := pendingInstall st; logMuted := logMuted st;
     trace := trace st |}.

Definition set_inflight (l : list Run) (st : State) : State :=
  {| runningTasks := runningTasks st; inflight := l; doneCallback := doneCallback st;
     building := building st; bundlerInstance := bundlerInstance st;
     sessions := sessions st; watchJs := watchJs st; pendingPrune := pendingPrune st;
     pendingInstall := pendingInstall st; logMuted := logMuted st;
     trace := trace st |}.

Definition set_doneCallback (c : option Callback) (st : State) : State :=
  {| runningTasks := runningTasks st; inflight := inflight st; doneCallback := c;
     building := building st; bundlerInstance := bundlerInstance st;
     sessions := sessions st; watchJs := watchJs st; pendingPrune := pendingPrune st;
     pendingInstall := pendingInstall st; logMuted := logMuted st;
     trace := trace st |}.

Definition set_building (b : bool) (st : State) : State :=
  {| runningTasks := runningTasks st; inflight := inflight st;
     doneCallback := doneCallback st; building := b;
     bundlerInstance := bundlerInstance st; sessions := sessions st;
     watchJs := watchJs st; pendingPrune := pendingPrune st;
     pendingInstall := pendingInstall st; logMuted := logMuted st;
     trace := trace st |}.

Definition set_bundlerInstance (b : option nat) (st : State) : State :=
  {| runningTasks := runningTasks st; inflight := inflight st;
     doneCallback := doneCallback st; building := building st; bundlerInstance := b;
     sessions := sessions st; watchJs := watchJs st; pendingPrune := pendingPrune st;
     pendingInstall := pendingInstall st; logMuted := logMuted st;
     trace := trace st |}.

Definition set_sessions (l : list Session) (st : State) : State :=
  {| runningTasks := runningTasks st; inflight := inflight st;
     doneCallback := doneCallback st; building := building st;
     bundlerInstance := bundlerInstance st; sessions := l; watchJs := watchJs st;
     pendingPrune := pendingPrune st; pendingInstall := pendingInstall st;
     logMuted := logMuted st; trace := trace st |}.

Definition set_watchJs (b : bool) (st : State) : State :=
  {| runningTasks := runningTasks st; inflight := inflight st;
     doneCallback := doneCallback st; building := building st;
     bundlerInstance := bundlerInstance st; sessions := sessions st; watchJs := b;
     pendingPrune := pendingPrune st; pendingInstall := pendingInstall st;
     logMuted := logMuted st; trace := trace st |}.

Definition set_pending (p i : nat) (st : State) : State :=
  {| runningTasks := runningTasks st; inflight := inflight st;
     doneCallback := doneCallback st; building := building st;
     bundlerInstance := bundlerInstance st; sessions := sessions st;
     watchJs := watchJs st; pendingPrune := p; pendingInstall := i;
     logMuted := logMuted st; trace := trace st |}.

Definition set_logMuted (b : bool) (st : State) : State :=
  {| runningTasks := runningTasks st; inflight := inflight st;
     doneCallback := doneCallback st; building := building st;
     bundlerInstance := bundlerInstance st; sessions := sessions st;
     watchJs := watchJs st; pendingPrune := pendingPrune st;
     pendingInstall := pendingInstall st; logMuted := b; trace := trace st |}.

Definition emit (e : Effect) (st : State) : State :=
  {| runningTasks := runningTasks st; inflight := inflight st;
     doneCallback := doneCallback st; building := building st;
     bundlerInstance := bundlerInstance st; sessions := sessions st;
     watchJs := watchJs st; pendingPrune := pendingPrune st;
     pendingInstall := pendingInstall st; logMuted := logMuted st;
     trace := trace st ++ [e] |}.

(** ** The task table *)

(** The dependency arrays given to [gulp.task]. *)
Definition taskTable : list (string * list string) :=
  [ ("assets", ["user-assets"]);
    ("html-js", ["jslint"; "js"]);
    ("html-less", ["less"]);
    ("html-assets", ["assets"]);
    ("html", ["js"; "less"; "assets"]);
    ("serve", ["build"]);
    ("wserve", ["watch"; "serve"]);
    ("watch-and-serve", ["wserve"]);
    ("default", ["build"]) ].

Fixpoint assoc (name : string) (t : list (string * list string)) : list string :=
  match t with
  | [] => []
  | (n, ds) :: t' => if String.eqb n name then ds else assoc name t'
  end.

Definition taskDeps (name : string) : list string := assoc name taskTable.

(** The tasks gulp runs for [gulp.start(name)]: the dependencies first, then
    the task.  The table is four levels deep. *)
Fixpoint sequence (depth : nat) (name : string) : list string :=
  match depth with
  | O => [name]
  | S d => List.flat_map (sequence d) (taskDeps name) ++ [name]
  end.

Definition memb (x : string) (l : list string) : bool := List.existsb (String.eqb x) l.

(** Does [gulp.start(name)] run the [js] task, whose body calls
    [bundler().bundle()]? *)
Definition runsJs (name : string) : bool := memb "js" (sequence 4 name).

Section Init.

(** The arguments of [init] after their defaults are filled in. *)
Variable options : Options.
Variable paths : Paths.

(** Is [gutil.log] the function [gutil.noop]?  [init] replaces it when
    [options.silent === true], for all of the process and for good, so it
    is muted as well when another call of [init] did so. *)
Definition muted (st : State) : bool :=
  (logMuted st || is_true_value (opt_silent options))%bool.

(** [gutil.log(...)]. *)
Definition gutil_log (line : LogLine) (st : State) : State :=
  if muted st then st else emit (ELog line) st.

(** [formattedTimeDiff(start)] when [Date.now()] returns [now]. *)
Definition formattedTimeDiff (start now : Z) : Piece :=
  let diff := now - start in
  if diff <? 1000 then Elapsed Yellow (Millis diff)
  else if 60000 <? diff then Elapsed Yellow (Minutes diff)
  else Elapsed Yellow (Seconds diff).

Definition buildCompleteLine (start now : Z) : LogLine :=
  [Txt Green "Build finished successfully in "; formattedTimeDiff start now].

Definition outputBuildCompleteMessage (start now : Z) (st : State) : State :=
  gutil_log (buildCompleteLine start now) st.

Definition newline : ascii := ascii_of_nat 10.

(** [stdoutToLog(gutil, stdout)]. *)
Definition stdoutToLog (stdout : string) (st : State) : State :=
  fold_left
    (fun st o =>
       let trimmed := trim o in
       if (0 <? String.length trimmed)%nat then gutil_log [Txt Plain (trim o)] st else st)
    (split_on newline stdout) st.

(** *** The shared bundler *)

Definition transforms : list Transform :=
  (if truthy (opt_enableStringify options) then [Stringify] else [])
  ++ (if truthy (opt_disableBabel options) then [] else [Babelify]).

(** [bundler()]: the instance in [bundlerInstance] when there is one,
    otherwise a new one, which is stored there. *)
Definition bundler (st : State) : nat * State :=
  match bundlerInstance st with
  | Some sid => (sid, st)
  | None =>
      let sid := length (sessions st) in
      let b := {| ses_watchify := watchJs st; ses_transforms := transforms;
                  ses_entry := (paths_base paths, paths_js paths);
                  ses_closed := false |} in
      (sid, set_bundlerInstance (Some sid) (set_sessions (sessions st ++ [b]) st))
  end.

(** The body of the [js] task up to the call of [bundle()]. *)
Definition taskJs (st : State) : State :=
  let '(sid, st1) := bundler st in emit (EBundle sid) st1.

(** *** runOrQueue *)

(** [gulp.start(name, callback)] as [runOrQueue] calls it: [callback],
    which holds [start], takes the place of the callback gulp held, and the
    tasks of [name] join the orchestration.  Of the bodies of the tasks
    only the call of [bundler] is followed, the one place where a task
    touches the shared variables. *)
Definition gulpStart (name : string) (start : Z) (st : State) : State :=
  let r := {| run_name := name; run_start := start |} in
  let st1 := set_doneCallback (Some (CbRun r)) (emit (EStart name) st) in
  let st2 := if runsJs name then taskJs st1 else st1 in
  set_inflight (inflight st2 ++ [r]) st2.

(** [runOrQueue(name)] when [Date.now()] returns [now]. *)
Definition runOrQueue (name : string) (now : Z) (st : State) : State :=
  let st := emit (ERequest name) st in
  match runningTasks st !! name with
  | None =>
      gulpStart name now (set_runningTasks (<[name := false]> (runningTasks st)) st)
  | Some _ =>
      set_runningTasks (<[name := true]> (runningTasks st)) st
  end.

(** The callback [runOrQueue] gave to [gulp.start], for the run [r].  It
    takes no argument: the error gulp passes when a task failed is not
    looked at.  [now] is the clock read by [formattedTimeDiff], [now2] the
    one read by the nested [runOrQueue]. *)
Definition onTaskDone (r : Run) (err : option string) (now now2 : Z) (st : State) : State :=
  let name := run_name r in
  let st1 := outputBuildCompleteMessage (run_start r) now st in
  let shouldRunAgain := runningTasks st1 !! name in
  let st2 := set_runningTasks (delete name (runningTasks st1)) st1 in
  match shouldRunAgain with
  | Some true => runOrQueue name now2 st2
  | _ => st2
  end.

Definition rebundleJs (now : Z) (st : State) : State :=
  runOrQueue "html-js" now (gutil_log [Txt Yellow "Rebundling javascript"] st).

(** *** The update handler *)

Definition closeSession (sid : nat) (st : State) : State :=
  match sessions st !! sid with
  | Some s =>
      set_sessions (<[sid := {| ses_watchify := ses_watchify s;
                                ses_transforms := ses_transforms s;
                                ses_entry := ses_entry s;
                                ses_closed := true |}]> (sessions st)) st
  | None => st
  end.

Definition execPrune (st : State) : State :=
  set_pending (S (pendingPrune st)) (pendingInstall st) (emit (EExec "npm prune") st).

Definition execInstall (st : State) : State :=
  set_pending (pendingPrune st) (S (pendingInstall st)) (emit (EExec "npm install") st).

(** The listener of the [update] event.  [None] stands for the TypeError of
    calling [reset] on an undefined [bundlerInstance]. *)
Definition onUpdate (changedFiles : list string) (now : Z) (st : State) : option State :=
  let nodeModuleChanges := List.filter inNodeModules changedFiles in
  if (length nodeModuleChanges =? length changedFiles)%nat then Some st
  else
    let packageJsonChanges := List.filter isPackageJson changedFiles in
    if (0 <? length packageJsonChanges)%nat then
      match bundlerInstance st with
      | None => None
      | Some sid =>
          let st1 := emit (EReset sid) st in
          let st2 := closeSession sid (emit (EClose sid) st1) in
          let st3 := set_bundlerInstance None st2 in
          let st4 :=
            gutil_log [Txt Yellow "package.json change detected, running npm prune"] st3 in
          Some (execPrune st4)
      end
    else
      Some (rebundleJs now (gutil_log [Txt Yellow "Javascript changed detected"] st)).

(** The callback of [npm install]. *)
Definition onInstallDone (err : option string) (stdout : string) (now : Z)
    (st : State) : State :=
  match err with
  | Some e =>
      rebundleJs now (gutil_log [Txt Red "Error installing dependencies:"; Txt Plain e] st)
  | None =>
      let st1 := if nonempty stdout then stdoutToLog stdout st else st in
      rebundleJs now (gutil_log [Txt Yellow "Dependencies installed successfully"] st1)
  end.

(** The callback of [npm prune]. *)
Definition onPruneDone (err : option string) (stdout : string) (now : Z)
    (st : State) : State :=
  match err with
  | Some e =>
      rebundleJs now (gutil_log [Txt Red "Error running npm prune:"; Txt Plain e] st)
  | None =>
      let st1 := if nonempty stdout then stdoutToLog stdout st else st in
      execInstall (gutil_log [Txt Yellow "running npm install"] st1)
  end.

(** *** The watch task *)

Inductive Watcher : Type := WLess | WAssets | WHtml.

Definition watcherPattern (w : Watcher) : string :=
  match w with
  | WLess => paths_allLess paths
  | WAssets => paths_assets paths
  | WHtml => paths_html paths
  end.

Definition watcherTask (w : Watcher) : string :=
  match w with
  | WLess => "html-less"
  | WAssets => "html-assets"
  | WHtml => "html-only"
  end.

Definition watcherMessage (w : Watcher) : string :=
  match w with
  | WLess => "Less change detected"
  | WAssets => "Asset change detected"
  | WHtml => "HTML change detected"
  end.

(** The callback given to [gulp.watch] for the pattern of [w]. *)
Definition onWatch (w : Watcher) (now : Z) (st : State) : State :=
  runOrQueue (watcherTask w) now (gutil_log [Txt Yellow (watcherMessage w)] st).

(** The body of the [watch] task: the [build] it starts joins the
    orchestration, and its callback, which registers the three watchers,
    takes the place of the callback gulp held.  The task also sets
    [options.handleExceptions], which only the pipelines of the tasks
    read. *)
Definition taskWatch (st : State) : State :=
  let st1 := set_watchJs true st in
  let '(_, st2) := bundler st1 in
  set_building true (set_doneCallback (Some CbBuild) (emit (EStart "build") st2)).

(** *** The end of an orchestration *)

(** Is nothing left in the orchestration? *)
Definition orchestrationOver (st : State) : bool :=
  (match inflight st with [] => true | _ => false end && negb (building st))%bool.

(** gulp stops and calls the callback it holds, with [err] when a task
    failed.  The callback of the [watch] task registers the watchers, which
    changes none of the shared variables. *)
Definition gulpStop (err : option string) (now now2 : Z) (st : State) : State :=
  match doneCallback st with
  | Some (CbRun r) => onTaskDone r err now now2 st
  | Some CbBuild | None => st
  end.

(** gulp when what is left of the orchestration is [st]: it stops when a
    task failed and when nothing is left.  After a failure gulp starts
    nothing further for the other runs of the orchestration: they are
    given up, and what their tasks still do is not followed. *)
Definition gulpGoOn (err : option string) (now now2 : Z) (st : State) : State :=
  match err with
  | Some _ => gulpStop err now now2 (set_building false (set_inflight [] st))
  | None => if orchestrationOver st then gulpStop None now now2 st else st
  end.

(** *** Events *)

(** What the event loop can run next.  The three watchers are registered by
    the callback of the build that the [watch] task starts; their callbacks
    may fire at any time here, which only adds behaviours.

    [EvTaskDone i err now now2] is the end of the run [inflight !! i]: its
    last task is over, or one of its tasks failed with [err].
    [EvBuildDone] is the same for the [build] of the [watch] task.  [now]
    and [now2] are the clock readings of the callback, should gulp call
    it. *)
Inductive Event : Type :=
  | EvTaskJs                                         (* the [js] task of a build *)
  | EvTaskWatch                                      (* the [watch] task *)
  | EvWatch (w : Watcher) (now : Z)                  (* a [gulp.watch] callback *)
  | EvUpdate (changedFiles : list string) (now : Z)  (* watchify's [update] *)
  | EvPruneDone (err : option string) (stdout : string) (now : Z)
  | EvInstallDone (err : option string) (stdout : string) (now : Z)
  | EvTaskDone (i : nat) (err : option string) (now now2 : Z)
  | EvBuildDone (err : option string) (now now2 : Z)
  | EvMute.                       (* another [init] was given [silent: true] *)

(** Is session [sid] a watchify instance that was not closed?  Only such an
    instance emits [update]. *)
Definition liveWatchify (sid : nat) (st : State) : bool :=
  match sessions st !! sid with
  | Some s => (ses_watchify s && negb (ses_closed s))%bool
  | None => false
  end.

(** One turn of the event loop; [None] when the event cannot happen in [st]
    or its handler throws. *)
Definition step (st : State) (ev : Event) : option State :=
  match ev with
  | EvTaskJs => Some (taskJs st)
  | EvTaskWatch => Some (taskWatch st)
  | EvWatch w now => Some (onWatch w now st)
  | EvUpdate changedFiles now =>
      match bundlerInstance st with
      | Some sid => if liveWatchify sid st then onUpdate changedFiles now st else None
      | None => None
      end
  | EvPruneDone err stdout now =>
      match pendingPrune st with
      | O => None
      | S n => Some (onPruneDone err stdout now (set_pending n (pendingInstall st) st))
      end
  | EvInstallDone err stdout now =>
      match pendingInstall st with
      | O => None
      | S n => Some (onInstallDone err stdout now (set_pending (pendingPrune st) n st))
      end
  | EvTaskDone i err now now2 =>
      match inflight st !! i with
      | Some _ => Some (gulpGoOn err now now2 (set_inflight (delete i (inflight st)) st))
      | None => None
      end
  | EvBuildDone err now now2 =>
      if building st then Some (gulpGoOn err now now2 (set_building false st)) else None
  | EvMute => Some (set_logMuted true st)
  end.

Fixpoint run (st : State) (evs : list Event) : option State :=
  match evs with
  | [] => Some st
  | ev :: evs' =>
      match step st ev with
      | Some st' => run st' evs'
      | None => None
      end
  end.

End Init.


(** ** Defaults *)

(** [default-paths.js], with [cwd] for [process.cwd()]. *)
Definition defaultPaths (cwd : string) : Paths :=
  {| paths_base := cwd;
     paths_html := "app/index.html";
     paths_allLess := "app/**/*.less";
     paths_js := "app/main.jsx";
     paths_assets := "app/assets/**/*" |}.

(** [options] when the caller gave none, or an empty object. *)
Definition noOptions : Options :=
  {| opt_silent := VUndefined; opt_port := VUndefined;
     opt_enableStringify := VUndefined; opt_disableBabel := VUndefined |}.

(** ** Observations on a state or a trace *)

(** The runs of [name] in the orchestration that gulp is executing. *)
Definition activeRuns (name : string) (st : State) : nat :=
  length (List.filter (fun r => String.eqb (run_name r) name) (inflight st)).

Definition isStart (name : string) (e : Effect) : bool :=
  match e with EStart n => String.eqb n name | _ => false end.

Definition isRequest (name : string) (e : Effect) : bool :=
  match e with ERequest n => String.eqb n name | _ => false end.

(** How many times [gulp.start(name)] was called. *)
Definition starts (name : string) (tr : list Effect) : nat :=
  length (List.filter (isStart name) tr).

(** How many times [runOrQueue(name)] was called. *)
Definition requestsOf (name : string) (tr : list Effect) : nat :=
  length (List.filter (isRequest name) tr).

(** The lines written to the log. *)
Fixpoint logs (tr : list Effect) : list LogLine :=
  match tr with
  | [] => []
  | ELog l :: tr' => l :: logs tr'
  | _ :: tr' => logs tr'
  end.

(** The sessions [bundle()] was called on. *)
Fixpoint bundles (tr : list Effect) : list nat :=
  match tr with
  | [] => []
  | EBundle sid :: tr' => sid :: bundles tr'
  | _ :: tr' => bundles tr'
  end.

(** [runOrQueue(name)] called once for each clock reading of [nows]. *)
Definition burst (options : Options) (paths : Paths) (name : string)
    (nows : list Z) (st : State) : State :=
  fold_left (fun st now => runOrQueue options paths name now st) nows st.

(** The table covers the orchestration: no two of its runs have the same
    name, and the task of each has an entry in [runningTasks]. *)
Definition coherent (st : State) : Prop :=
  NoDup (run_name <$> inflight st)
  ∧ ∀ name, name ∈ (run_name <$> inflight st) → is_Some (runningTasks st !! name).

(** Two states with the same table and the same runs in the
    orchestration. *)
Definition sameTasks (st st' : State) : Prop :=
  runningTasks st' = runningTasks st ∧ inflight st' = inflight st.

(** What one call of [runOrQueue(name)] adds to the trace. *)
Definition requestEffects (options : Options) (paths : Paths) (name : string)
    (st : State) : list Effect :=
  match runningTasks st !! name with
  | None =>
      [ERequest name; EStart name]
      ++ (if runsJs name then [EBundle (bundler options paths st).1] else [])
  | Some _ => [ERequest name]
  end.


(** ** File system changes *)

(** A pattern segment against a path segment: [*] stands for any run of
    characters, every other character for itself. *)
Fixpoint segMatch (pat : string) : string → bool :=
  match pat with
  | EmptyString => fun s => match s with EmptyString => true | _ => false end
  | String c pat' =>
      if Ascii.eqb c "*" then
        fix star (s : string) : bool :=
          (segMatch pat' s
           || match s with String _ s' => star s' | EmptyString => false end)%bool
      else
        fun s =>
          match s with
          | String a s' => (Ascii.eqb a c && segMatch pat' s')%bool
          | EmptyString => false
          end
  end.

(** Pattern segments against path segments: [**] stands for any number of
    directories. *)
Fixpoint segsMatch (pats : list string) : list string → bool :=
  match pats with
  | [] => fun ss => match ss with [] => true | _ => false end
  | pat :: pats' =>
      if String.eqb pat "**" then
        fix skip (ss : list string) : bool :=
          (segsMatch pats' ss
           || match ss with _ :: ss' => skip ss' | [] => false end)%bool
      else
        fun ss =>
          match ss with
          | s :: ss' => (segMatch pat s && segsMatch pats' ss')%bool
          | [] => false
          end
  end.

(** The glob matching of [gulp.watch] for patterns made of plain
    characters, [*] and [**], the kind [default-paths.js] has. *)
Definition globLite (pat p : string) : bool :=
  segsMatch (split_on "/" pat) (split_on "/" p).

(** A pattern is resolved against the working directory. *)
Definition globFrom (cwd pat p : string) : bool :=
  globLite (cwd +:+ "/" +:+ pat) p.

(** The three [gulp.watch] calls of the [watch] task, in order. *)
Definition watchers : list Watcher := [WLess; WAssets; WHtml].

(** The callbacks that a change of the file [p] sets off.  [globMatch]
    is the matching done by [gulp.watch], and [inBundle] tells which files
    the watchify instance watches: the modules of the bundle.  Every
    listener decides on its own. *)
Definition fsChange (paths : Paths) (globMatch : string → string → bool)
    (inBundle : string → bool) (p : string) (now : Z) : list Event :=
  (if inBundle p then [EvUpdate [p] now] else [])
  ++ List.flat_map
       (fun w => if globMatch (watcherPattern paths w) p then [EvWatch w now] else [])
       watchers.

(** How the two child processes of a manifest change end: [npm prune]
    fails, or it succeeds and [npm install] is run.  Each callback gets the
    error, if any, the captured output and reads the clock once. *)
Inductive Reconcile : Type :=
  | PruneFailed (e : string) (stdout : string) (now : Z)
  | PruneDone (stdout : string) (now : Z)
      (installErr : option string) (installStdout : string) (now' : Z).

(** The callbacks that follow the handler of a manifest change. *)
Definition callbacks (rc : Reconcile) : list Event :=
  match rc with
  | PruneFailed e stdout now => [EvPruneDone (Some e) stdout now]
  | PruneDone stdout now installErr installStdout now' =>
      [EvPruneDone None stdout now; EvInstallDone installErr installStdout now']
  end.

(** The handler of a batch followed by the callbacks it leaves behind: none
    unless [npm prune] was spawned. *)
Definition batch (options : Options) (paths : Paths) (changedFiles : list string)
    (now : Z) (rc : Reconcile) (st : State) : option State :=
  match step options paths st (EvUpdate changedFiles now) with
  | Some st1 =>
      if (pendingPrune st1 =? pendingPrune st)%nat then Some st1
      else run options paths st1 (callbacks rc)
  | None => None
  end.

(** A change of state that touches neither [bundlerInstance] nor the
    sessions and calls no [bundle()]. *)
Definition quiet (st st' : State) : Prop :=
  bundlerInstance st' = bundlerInstance st
  ∧ sessions st' = sessions st
  ∧ ∃ tl, trace st' = trace st ++ tl ∧ bundles tl = [].

(** What a turn of the event loop can do to the shared bundler: leave it,
    make a new instance when there was none, or release the current one.
    Every [bundle()] of the turn is called on the instance that
    [bundlerInstance] holds afterwards. *)
Definition bundlerStep (st st' : State) : Prop :=
  ((bundlerInstance st' = bundlerInstance st ∧ sessions st' = sessions st)
   ∨ (bundlerInstance st = None
      ∧ bundlerInstance st' = Some (length (sessions st))
      ∧ ∃ b, sessions st' = sessions st ++ [b])
   ∨ (bundlerInstance st' = None ∧ length (sessions st') = length (sessions st)))
  ∧ ∃ tl, trace st' = trace st ++ tl
      ∧ Forall (fun sid => bundlerInstance st' = Some sid) (bundles tl).

(** [bundlerInstance], when set, is one of the sessions made so far. *)
Definition bundlerBound (st : State) : Prop :=
  ∀ sid, bundlerInstance st = Some sid → (sid < length (sessions st))%nat.

(** The sessions before the [n]-th are out of use: the current instance, if
    any, was made later. *)
Definition madeAfter (n : nat) (st : State) : Prop :=
  (n ≤ length (sessions st))%nat
  ∧ ∀ sid, bundlerInstance st = Some sid → (n ≤ sid)%nat.


(** ** Helpers of the tasks *)

(** Does the character [c] occur in [s]? *)
Fixpoint hasChar (c : ascii) (s : string) : bool :=
  match s with
  | EmptyString => false
  | String a s' => (Ascii.eqb a c || hasChar c s')%bool
  end.

(** The callback of the filter in [topDirectory], negated:
    [part.indexOf('*') !== -1]. *)
Definition hasStar (part : string) : bool := contains "*" part.

(** [topDirectory(p)]: the parts of [p] between separators, without those
    that hold a [*], and of these the last; [None] is the [undefined] that
    [pop] returns on an empty array. *)
Definition topDirectory (p : string) : option string :=
  last (List.filter (fun part => negb (hasStar part)) (split_on "/" p)).

(** [s] ends with [suffix]. *)
Fixpoint endsWith (suffix s : string) : bool :=
  (String.eqb s suffix
   || match s with String _ s' => endsWith suffix s' | EmptyString => false end)%bool.

(** [s.replace(/\.jsx$/, '.js')]: the pattern can only match at the end of
    [s]. *)
Fixpoint replaceJsx (s : string) : string :=
  match s with
  | EmptyString => EmptyString
  | String a s' => if String.eqb s ".jsx" then ".js" else String a (replaceJsx s')
  end.

(** The file name of the bundle in the [js] task:
    [options.jsOut || path.basename(paths.js).replace(/\.jsx$/, '.js')]. *)
Definition jsFileName (jsOut : value) (paths : Paths) : value :=
  js_or jsOut (VStr (replaceJsx (basename (paths_js paths)))).

(** ** Requests waiting for a run *)

(** An effect other than a request or a start of a task. *)
Definition internal (e : Effect) : bool :=
  match e with
  | ERequest _ | EStart _ => false
  | _ => true
  end.

(** A change of state that leaves the table and the executing runs alone
    and neither requests nor starts a task. *)
Definition neutral (st st' : State) : Prop :=
  runningTasks st' = runningTasks st
  ∧ inflight st' = inflight st
  ∧ ∃ tl, trace st' = trace st ++ tl ∧ forallb internal tl = true.

(** Reading a trace from its beginning: a request of [name] is waiting
    after [runOrQueue(name)] was called, until [gulp.start(name)] is. *)
Definition servedStep (name : string) (waiting : bool) (e : Effect) : bool :=
  match e with
  | ERequest n => if String.eqb n name then true else waiting
  | EStart n => if String.eqb n name then false else waiting
  | _ => waiting
  end.

(** Is the last request of [name] still waiting for a run to start? *)
Definition unserved (name : string) (tr : list Effect) : bool :=
  fold_left (servedStep name) tr false.

(** A request of [name] that is waiting has set the flag of [name]. *)
Definition kept (name : string) (st : State) : Prop :=
  unserved name (trace st) = true → runningTasks st !! name = Some true.

(** ** A callback that gulp dropped *)

(** The task [name] has an entry, and the callback that gulp holds is not
    the one that would remove it. *)
Definition orphaned (name : string) (st : State) : Prop :=
  is_Some (runningTasks st !! name)
  ∧ ∀ r, doneCallback st = Some (CbRun r) → run_name r ≠ name.

(** A change of state that leaves the table and the callback that gulp
    holds alone and starts no task. *)
Definition settled (st st' : State) : Prop :=
  runningTasks st' = runningTasks st
  ∧ doneCallback st' = doneCallback st
  ∧ ∀ name, starts name (trace st') = starts name (trace st).

(** ** Sessions in use *)

(** What a turn of the event loop can do to the sessions: nothing, add an
    open one and make it current when there was no current one, or close
    the current one and leave none. *)
Definition bundlerMove (st st' : State) : Prop :=
  (bundlerInstance st' = bundlerInstance st ∧ sessions st' = sessions st)
  ∨ (bundlerInstance st = None
     ∧ bundlerInstance st' = Some (length (sessions st))
     ∧ ∃ b, ses_closed b = false ∧ sessions st' = sessions st ++ [b])
  ∨ (∃ sid, bundlerInstance st = Some sid
       ∧ bundlerInstance st' = None
       ∧ sessions st' = sessions (closeSession sid st)).

(** The open sessions are the current one, if any. *)
Definition openIsCurrent (st : State) : Prop :=
  (∀ i s, sessions st !! i = Some s → ses_closed s = false → bundlerInstance st = Some i)
  ∧ (∀ i, bundlerInstance st = Some i →
       ∃ s, sessions st !! i = Some s ∧ ses_closed s = false).

(** The tasks that the three watchers request. *)
Definition watcherTasks : list string := ["html-less"; "html-assets"; "html-only"].

(** The state of a process whose first bundler was made before the [watch]
    task ran: that plain instance is the current and only one, no child
    process is pending, no rebuild of the scripts was ever requested, only
    tasks of the watchers are in the orchestration and the callback that
    gulp holds, if it is one of [runOrQueue], is for such a task. *)
Definition plainBundler (options : Options) (paths : Paths) (st : State) : Prop :=
  bundlerInstance st = Some 0%nat
  ∧ sessions st
    = [{| ses_watchify := false; ses_transforms := transforms options;
          ses_entry := (paths_base paths, paths_js paths); ses_closed := false |}]
  ∧ pendingPrune st = 0%nat
  ∧ pendingInstall st = 0%nat
  ∧ requestsOf "html-js" (trace st) = 0%nat
  ∧ (∀ r, r ∈ inflight st → run_name r ∈ watcherTasks)
  ∧ (∀ r, doneCallback st = Some (CbRun r) → run_name r ∈ watcherTasks).

(** ** Counting effects *)

(** How many effects of a trace satisfy [q]. *)
Definition count (q : Effect → bool) (tr : list Effect) : nat :=
  length (List.filter q tr).

Definition isExec (cmd : string) (e : Effect) : bool :=
  match e with EExec c => String.eqb c cmd | _ => false end.

(** How many times [childProcess.exec(cmd)] was called. *)
Definition execs (cmd : string) (tr : list Effect) : nat := count (isExec cmd) tr.

(** ** The arguments of [init] *)

(** A JavaScript value as [init] looks at its arguments: a primitive, or a
    function or an object with its properties. *)
Inductive jsArg : Type :=
  | APrim (v : value)
  | AFunction (props : jsProps)
  | AObject (props : jsProps)
with jsProps : Type :=
  | PNil
  | PCons (k : string) (v : jsArg) (rest : jsProps).

(** [typeof a]. *)
Definition typeOf (a : jsArg) : string :=
  match a with
  | APrim VUndefined => "undefined"
  | APrim VNull => "object"
  | APrim (VBool _) => "boolean"
  | APrim (VNum _) | APrim VNaN => "number"
  | APrim (VStr _) => "string"
  | AFunction _ => "function"
  | AObject _ => "object"
  end.

Definition truthyArg (a : jsArg) : bool :=
  match a with
  | APrim v => truthy v
  | AFunction _ | AObject _ => true
  end.

Fixpoint lookupProp (k : string) (props : jsProps) : jsArg :=
  match props with
  | PNil => APrim VUndefined
  | PCons n v props' => if String.eqb n k then v else lookupProp k props'
  end.

(** [a.k] for the two properties [init] reads, [silent] and [task], which
    no primitive has: [None] is the TypeError of reading a property of
    [undefined] or [null]. *)
Definition getProp (a : jsArg) (k : string) : option jsArg :=
  match a with
  | APrim VUndefined | APrim VNull => None
  | APrim _ => Some (APrim VUndefined)
  | AFunction props | AObject props => Some (lookupProp k props)
  end.

(** [a === true]. *)
Definition isTrueArg (a : jsArg) : bool :=
  match a with APrim (VBool true) => true | _ => false end.

(** What [init] can throw: what [merge] threw, the TypeError of reading a
    property of [null], and its own two messages. *)
Inductive InitError : Type := MergeError | TypeError | InvalidGulp | InvalidPaths.

Inductive InitOutcome : Type :=
  | Thrown (e : InitError)
  | Registered.

(** [!gulp || typeof gulp.task !== 'function'], negated. *)
Definition gulpValid (gulp : jsArg) : bool :=
  (truthyArg gulp
   && match getProp gulp "task" with
      | Some t => String.eqb (typeOf t) "function"
      | None => false
      end)%bool.

(** [!paths || typeof paths !== 'object'], negated. *)
Definition pathsValid (merged : jsArg) : bool :=
  (truthyArg merged && String.eqb (typeOf merged) "object")%bool.

(** The head of [init], up to the registration of the tasks.  Its first
    statement is [paths = merge(defaultPaths, paths)], a function of
    another module: [merged] is what that call returned, [None] when it
    threw, which ends [init] before anything else is done.  [muted] tells
    whether [gutil.log], which all of the process shares, is [gutil.noop]
    already.  The result is the new [muted] and how [init] goes on. *)
Definition initCheck (muted : bool) (gulp options : jsArg) (merged : option jsArg)
    : bool * InitOutcome :=
  match merged with
  | None => (muted, Thrown MergeError)
  | Some merged =>
      let options := if String.eqb (typeOf options) "object" then options else AObject PNil in
      match getProp options "silent" with
      | None => (muted, Thrown TypeError)
      | Some silent =>
          let muted := (muted || isTrueArg silent)%bool in
          if negb (gulpValid gulp) then (muted, Thrown InvalidGulp)
          else if negb (pathsValid merged) then (muted, Thrown InvalidPaths)
          else (muted, Registered)
      end
  end.

(** Calls of [init] one after another, each with its [gulp], its [options]
    and what its [merge] returned: whether the log is muted afterwards. *)
Definition initAll (calls : list (jsArg * jsArg * option jsArg)) (muted : bool) : bool :=
  fold_left (fun m c => (initCheck m c.1.1 c.1.2 c.2).1) calls muted.

(** Do the options ask for silence: an object whose [silent] is [true]? *)
Definition asksSilence (options : jsArg) : bool :=
  match options with
  | AObject props => isTrueArg (lookupProp "silent" props)
  | _ => false
  end.

(** Does the call get as far as its options, and do these ask for
    silence? *)
Definition reachesSilence (call : jsArg * jsArg * option jsArg) : bool :=
  match call.2 with
  | Some _ => asksSilence call.1.2
  | None => false
  end.

(** * Properties *)

Example split_ex : split_on "." "/a/b.c/package.json" = ["/a/b"; "c/package"; "json"].
Proof. reflexivity. Qed.

Example basename_ex1 : basename "/a/b/package" = "package".
Proof. reflexivity. Qed.

Example basename_ex2 : basename "b/package//" = "package".
Proof. reflexivity. Qed.

Example trim_ex : trim "  a b  " = "a b".
Proof. reflexivity. Qed.

Example isPackageJson_ex1 : isPackageJson "/proj/package.json" = true.
Proof. reflexivity. Qed.

Example isPackageJson_ex2 : isPackageJson "/proj/settings.json" = false.
Proof. reflexivity. Qed.

Example isPackageJson_ex3 : isPackageJson "/proj/foo.package.json" = true.
Proof. reflexivity. Qed.

Example inNodeModules_ex : inNodeModules "/proj/node_modules/x/index.js" = true.
Proof. reflexivity. Qed.

Section Coalescer.

Variable options : Options.
Variable paths : Paths.

Abbreviation runOrQueue := (runOrQueue options paths).
Abbreviation onTaskDone := (onTaskDone options paths).
Abbreviation step := (step options paths).
Abbreviation run := (run options paths).
Abbreviation burst := (burst options paths).
Abbreviation requestEffects := (requestEffects options paths).

(** ** What each helper leaves alone *)

Lemma sameTasks_refl st : sameTasks st st.
Proof. by split. Qed.

Lemma sameTasks_trans st1 st2 st3 :
  sameTasks st1 st2 → sameTasks st2 st3 → sameTasks st1 st3.
Proof. intros [H1 H2] [H3 H4]. split; congruence. Qed.

Lemma sameTasks_emit e st : sameTasks st (emit e st).
Proof. by split. Qed.

Lemma sameTasks_log l st : sameTasks st (gutil_log options l st).
Proof. unfold gutil_log. destruct (muted _ _); by split. Qed.

Lemma sameTasks_stdoutToLog out st : sameTasks st (stdoutToLog options out st).
Proof.
  unfold stdoutToLog. generalize (split_on newline out) as parts.
  intros parts. revert st. induction parts as [|o parts IH]; intros st; simpl.
  - apply sameTasks_refl.
  - eapply sameTasks_trans; [|apply IH].
    destruct (0 <? String.length (trim o))%nat; [apply sameTasks_log|apply sameTasks_refl].
Qed.

Lemma sameTasks_bundler st : sameTasks st (bundler options paths st).2.
Proof. unfold bundler. destruct (bundlerInstance st); by split. Qed.

Lemma sameTasks_taskJs st : sameTasks st (taskJs options paths st).
Proof.
  unfold taskJs. pose proof (sameTasks_bundler st) as H.
  destruct (bundler options paths st) as [sid st1]. simpl in H.
  eapply sameTasks_trans; [exact H|apply sameTasks_emit].
Qed.

Lemma sameTasks_closeSession sid st : sameTasks st (closeSession sid st).
Proof. unfold closeSession. destruct (sessions st !! sid); by split. Qed.

Lemma coherent_sameTasks st st' : sameTasks st st' → coherent st → coherent st'.
Proof. intros [H1 H2] [Hnd Hdom]. unfold coherent. rewrite H1, H2. by split. Qed.

(** ** runOrQueue on the table and the executing runs *)

Lemma runOrQueue_idle name now st :
  runningTasks st !! name = None →
  runningTasks (runOrQueue name now st) = <[name := false]> (runningTasks st)
  ∧ inflight (runOrQueue name now st)
    = inflight st ++ [{| run_name := name; run_start := now |}].
Proof.
  intros Hnone. unfold runOrQueue. cbn [runningTasks emit]. rewrite Hnone.
  unfold gulpStart.
  set (st0 := set_doneCallback _ _).
  assert (sameTasks st0 (if runsJs name then taskJs options paths st0 else st0)) as [H1 H2].
  { destruct (runsJs name); [apply sameTasks_taskJs|apply sameTasks_refl]. }
  cbn [runningTasks inflight set_inflight]. by rewrite H1, H2.
Qed.

Lemma runOrQueue_running name now st :
  is_Some (runningTasks st !! name) →
  runOrQueue name now st
  = set_runningTasks (<[name := true]> (runningTasks st)) (emit (ERequest name) st).
Proof. intros [b Hb]. unfold runOrQueue. cbn [runningTasks emit]. by rewrite Hb. Qed.

Lemma runOrQueue_other name other now st :
  other ≠ name → runningTasks (runOrQueue name now st) !! other = runningTasks st !! other.
Proof.
  intros Hne. destruct (runningTasks st !! name) as [b|] eqn:Hl.
  - rewrite runOrQueue_running by eauto. cbn. by rewrite lookup_insert_ne.
  - destruct (runOrQueue_idle name now st Hl) as [-> _]. by rewrite lookup_insert_ne.
Qed.

Lemma doneCallback_runOrQueue n now st r :
  doneCallback (runOrQueue n now st) = Some (CbRun r) →
  doneCallback st = Some (CbRun r) ∨ run_name r = n.
Proof.
  unfold runOrQueue. cbn [runningTasks emit]. destruct (runningTasks st !! n); [by left|].
  unfold gulpStart. destruct (runsJs n).
  - unfold taskJs, bundler. cbn [bundlerInstance set_doneCallback emit set_runningTasks].
    destruct (bundlerInstance st); cbn; intros [= <-]; by right.
  - cbn. intros [= <-]. by right.
Qed.

Lemma coherent_runOrQueue name now st : coherent st → coherent (runOrQueue name now st).
Proof.
  intros [Hnd Hdom]. destruct (runningTasks st !! name) as [b|] eqn:Hl.
  - rewrite runOrQueue_running by eauto. split; cbn; [done|].
    intros n Hn. destruct (decide (n = name)) as [->|Hne].
    + rewrite lookup_insert_eq. eauto.
    + rewrite lookup_insert_ne by done. by apply Hdom.
  - destruct (runOrQueue_idle name now st Hl) as [Hrt Hin]. unfold coherent.
    rewrite Hrt, Hin, fmap_app. cbn [fmap list_fmap run_name]. split.
    + apply NoDup_app. split; [done|]. split; [|apply NoDup_singleton].
      intros n Hn Hn'. apply list_elem_of_singleton in Hn'. subst n.
      apply Hdom in Hn. rewrite Hl in Hn. by destruct Hn.
    + intros n. rewrite elem_of_app, list_elem_of_singleton.
      destruct (decide (n = name)) as [->|Hne].
      * rewrite lookup_insert_eq. eauto.
      * rewrite lookup_insert_ne by done. intros [?|?]; [by apply Hdom|done].
Qed.

(** When gulp calls the callback, nothing is left in the orchestration. *)
Lemma coherent_onTaskDone r err now now2 st :
  inflight st = [] → coherent (onTaskDone r err now now2 st).
Proof.
  intros Hnil. unfold onTaskDone, outputBuildCompleteMessage.
  destruct (sameTasks_log (buildCompleteLine (run_start r) now) st) as [H1 H2].
  set (st1 := gutil_log _ _ st) in *.
  assert (coherent (set_runningTasks (delete (run_name r) (runningTasks st1)) st1)) as Hc1.
  { split; cbn; rewrite H2, Hnil; cbn; [apply NoDup_nil_2|by intros n ?%elem_of_nil]. }
  destruct (runningTasks st1 !! run_name r) as [[|]|]; [|done..].
  by apply coherent_runOrQueue.
Qed.

Lemma coherent_gulpStop err now now2 st :
  inflight st = [] → coherent st → coherent (gulpStop options paths err now now2 st).
Proof.
  intros Hnil Hc. unfold gulpStop. destruct (doneCallback st) as [[|r]|]; [done| |done].
  by apply coherent_onTaskDone.
Qed.

Lemma coherent_gulpGoOn err now now2 st :
  coherent st → coherent (gulpGoOn options paths err now now2 st).
Proof.
  intros Hc. unfold gulpGoOn. destruct err as [e|].
  - apply coherent_gulpStop; [done|].
    split; cbn; [apply NoDup_nil_2|by intros n ?%elem_of_nil].
  - unfold orchestrationOver. destruct (inflight st) as [|r l] eqn:Hin; [|done].
    destruct (building st); cbn; [done|]. by apply coherent_gulpStop.
Qed.

Lemma coherent_delete i st : coherent st → coherent (set_inflight (delete i (inflight st)) st).
Proof.
  intros [Hnd Hdom]. unfold coherent. cbn [inflight runningTasks set_inflight].
  assert (sublist (run_name <$> delete i (inflight st)) (run_name <$> inflight st)) as Hsub.
  { apply fmap_sublist, sublist_delete. }
  split.
  - eapply sublist_NoDup; [exact Hnd|exact Hsub].
  - intros n Hn. apply Hdom. eapply elem_of_sublist; [exact Hn|exact Hsub].
Qed.

Lemma coherent_rebundleJs now st : coherent st → coherent (rebundleJs options paths now st).
Proof.
  intros Hc. apply coherent_runOrQueue.
  eapply coherent_sameTasks; [apply sameTasks_log|done].
Qed.

Lemma coherent_step st ev st' : coherent st → step st ev = Some st' → coherent st'.
Proof.
  intros Hc Hstep. destruct ev; simpl in Hstep.
  - injection Hstep as <-. eapply coherent_sameTasks; [apply sameTasks_taskJs|done].
  - injection Hstep as <-. unfold taskWatch.
    pose proof (sameTasks_bundler (set_watchJs true st)) as H.
    destruct (bundler _ _ _) as [sid st2]. simpl in H.
    eapply coherent_sameTasks; [|exact Hc].
    eapply sameTasks_trans; [exact H|]. by split.
  - injection Hstep as <-. apply coherent_runOrQueue.
    eapply coherent_sameTasks; [apply sameTasks_log|done].
  - destruct (bundlerInstance st) as [sid|] eqn:Hb; [|done].
    destruct (liveWatchify sid st); [|done].
    unfold onUpdate in Hstep. rewrite Hb in Hstep.
    destruct (_ =? _)%nat; [by injection Hstep as <-|].
    destruct (0 <? _)%nat; injection Hstep as <-.
    + unfold execPrune.
      eapply coherent_sameTasks; [|exact Hc].
      eapply sameTasks_trans; [|split; reflexivity].
      eapply sameTasks_trans; [|apply sameTasks_emit].
      eapply sameTasks_trans; [|apply sameTasks_log].
      eapply sameTasks_trans; [|split; reflexivity].
      eapply sameTasks_trans; [|apply sameTasks_closeSession].
      by split.
    + apply coherent_rebundleJs.
      eapply coherent_sameTasks; [apply sameTasks_log|done].
  - destruct (pendingPrune st) as [|n]; [done|]. injection Hstep as <-.
    unfold onPruneDone. set (st0 := set_pending _ _ st).
    assert (coherent st0) as Hc0 by (eapply coherent_sameTasks; [|exact Hc]; by split).
    destruct err as [e|].
    + apply coherent_rebundleJs. eapply coherent_sameTasks; [apply sameTasks_log|done].
    + eapply coherent_sameTasks; [|exact Hc0]. unfold execInstall.
      eapply sameTasks_trans; [|split; reflexivity].
      eapply sameTasks_trans; [|apply sameTasks_emit].
      eapply sameTasks_trans; [|apply sameTasks_log].
      destruct (nonempty stdout); [apply sameTasks_stdoutToLog|apply sameTasks_refl].
  - destruct (pendingInstall st) as [|n]; [done|]. injection Hstep as <-.
    unfold onInstallDone. set (st0 := set_pending _ _ st).
    assert (coherent st0) as Hc0 by (eapply coherent_sameTasks; [|exact Hc]; by split).
    destruct err as [e|]; apply coherent_rebundleJs.
    + eapply coherent_sameTasks; [apply sameTasks_log|done].
    + eapply coherent_sameTasks; [apply sameTasks_log|].
      eapply coherent_sameTasks; [|exact Hc0].
      destruct (nonempty stdout); [apply sameTasks_stdoutToLog|apply sameTasks_refl].
  - destruct (inflight st !! i) as [r|] eqn:Hi; [|done]. injection Hstep as <-.
    by apply coherent_gulpGoOn, coherent_delete.
  - destruct (building st); [|done]. injection Hstep as <-.
    apply coherent_gulpGoOn. eapply coherent_sameTasks; [|exact Hc]. by split.
  - injection Hstep as <-. eapply coherent_sameTasks; [|exact Hc]. by split.
Qed.

Lemma coherent_initial : coherent initial.
Proof. split; cbn; [apply NoDup_nil_2|by intros n ?%elem_of_nil]. Qed.

Lemma coherent_run evs : ∀ st st', coherent st → run st evs = Some st' → coherent st'.
Proof.
  induction evs as [|ev evs IH]; intros st st' Hc Hrun; simpl in Hrun.
  - by injection Hrun as <-.
  - destruct (step st ev) as [st1|] eqn:Hstep; [|done].
    eapply IH; [|exact Hrun]. by eapply coherent_step.
Qed.

(** ** Traces *)

Lemma trace_runOrQueue name now st :
  trace (runOrQueue name now st) = trace st ++ requestEffects name st.
Proof.
  unfold runOrQueue, requestEffects. cbn [runningTasks emit].
  destruct (runningTasks st !! name); [done|].
  unfold gulpStart. destruct (runsJs name); cbn [set_inflight trace].
  - unfold taskJs, bundler.
    cbn [bundlerInstance emit set_runningTasks set_doneCallback sessions].
    destruct (bundlerInstance st); cbn; by rewrite <- !app_assoc.
  - cbn. by rewrite <- !app_assoc.
Qed.

Lemma starts_app name tr1 tr2 : starts name (tr1 ++ tr2) = (starts name tr1 + starts name tr2)%nat.
Proof. unfold starts. by rewrite List.filter_app, length_app. Qed.

Lemma requestsOf_app name tr1 tr2 :
  requestsOf name (tr1 ++ tr2) = (requestsOf name tr1 + requestsOf name tr2)%nat.
Proof. unfold requestsOf. by rewrite List.filter_app, length_app. Qed.


Lemma bundles_app tr1 tr2 : bundles (tr1 ++ tr2) = bundles tr1 ++ bundles tr2.
Proof.
  induction tr1 as [|e tr1 IH]; [done|].
  destruct e; simpl; by rewrite IH.
Qed.

Lemma eqb_refl_true name : String.eqb name name = true.
Proof. apply String.eqb_refl. Qed.

Lemma starts_requestEffects name st :
  starts name (requestEffects name st)
  = match runningTasks st !! name with None => 1%nat | Some _ => 0%nat end.
Proof.
  unfold requestEffects, starts. destruct (runningTasks st !! name); [done|].
  destruct (runsJs name); cbn; by rewrite eqb_refl_true.
Qed.

Lemma requestsOf_requestEffects name st : requestsOf name (requestEffects name st) = 1%nat.
Proof.
  unfold requestEffects, requestsOf. destruct (runningTasks st !! name);
    [|destruct (runsJs name)]; cbn; by rewrite eqb_refl_true.
Qed.


Lemma trace_log l st :
  trace (gutil_log options l st)
  = trace st ++ (if muted options st then [] else [ELog l]).
Proof. unfold gutil_log. destruct (muted _ _); cbn; by rewrite ?app_nil_r. Qed.

(** ** At most one executing run per task *)

Lemma filter_name_absent name (l : list Run) :
  name ∉ (run_name <$> l) →
  List.filter (fun r => String.eqb (run_name r) name) l = [].
Proof.
  induction l as [|r l IH]; [done|]. rewrite fmap_cons, not_elem_of_cons.
  intros [Hne Hl]. simpl. destruct (String.eqb_spec (run_name r) name) as [Heq|_].
  - by destruct Hne.
  - by apply IH.
Qed.


Lemma activeRuns_coherent name st : coherent st → (activeRuns name st ≤ 1)%nat.
Proof.
  intros [Hnd _]. unfold activeRuns. induction (inflight st) as [|r l IH]; [simpl; lia|].
  rewrite fmap_cons in Hnd. apply NoDup_cons in Hnd as [Hnotin Hnd]. simpl.
  destruct (String.eqb_spec (run_name r) name) as [Heq|Hne]; [|by apply IH].
  subst name. rewrite filter_name_absent by done. simpl. lia.
Qed.



(** ** The completion callback *)

Lemma onTaskDone_pending r err now now2 st :
  runningTasks st !! run_name r = Some true →
  onTaskDone r err now now2 st
  = runOrQueue (run_name r) now2
      (set_runningTasks (delete (run_name r) (runningTasks st))
         (gutil_log options (buildCompleteLine (run_start r) now) st)).
Proof.
  intros Hp. unfold onTaskDone, outputBuildCompleteMessage.
  destruct (sameTasks_log (buildCompleteLine (run_start r) now) st) as [-> _].
  by rewrite Hp.
Qed.

Lemma onTaskDone_clear r err now now2 st :
  runningTasks st !! run_name r = Some false →
  onTaskDone r err now now2 st
  = set_runningTasks (delete (run_name r) (runningTasks st))
      (gutil_log options (buildCompleteLine (run_start r) now) st).
Proof.
  intros Hp. unfold onTaskDone, outputBuildCompleteMessage.
  destruct (sameTasks_log (buildCompleteLine (run_start r) now) st) as [-> _].
  by rewrite Hp.
Qed.

Lemma starts_log name l st :
  starts name (trace (gutil_log options l st)) = starts name (trace st).
Proof.
  rewrite trace_log, starts_app. destruct (muted _ _); cbn; lia.
Qed.

Lemma requestsOf_log name l st :
  requestsOf name (trace (gutil_log options l st)) = requestsOf name (trace st).
Proof.
  rewrite trace_log, requestsOf_app. destruct (muted _ _); cbn; lia.
Qed.

Lemma step_taskDone i r err now now2 st :
  inflight st !! i = Some r →
  step st (EvTaskDone i err now now2)
  = Some (gulpGoOn options paths err now now2 (set_inflight (delete i (inflight st)) st)).
Proof. intros Hi. simpl. by rewrite Hi. Qed.

(** ** A burst of requests during a run *)

Lemma burst_running name rest : ∀ now st,
  is_Some (runningTasks st !! name) →
  inflight (burst name (now :: rest) st) = inflight st
  ∧ runningTasks (burst name (now :: rest) st) = <[name := true]> (runningTasks st)
  ∧ trace (burst name (now :: rest) st)
    = trace st ++ replicate (length (now :: rest)) (ERequest name).
Proof.
  induction rest as [|now' rest IH]; intros now st Hsome.
  - unfold burst. cbn [fold_left].
    rewrite runOrQueue_running by done. by cbn.
  - unfold burst in *. cbn [fold_left] in *.
    pose proof (runOrQueue_running name now st Hsome) as Hq.
    destruct (IH now' (runOrQueue name now st)) as (H1 & H2 & H3).
    { rewrite Hq. cbn. rewrite lookup_insert_eq. eauto. }
    rewrite H1, H2, H3, Hq. cbn. rewrite insert_insert_eq, <- app_assoc. done.
Qed.

Lemma starts_replicate_request name n m : starts name (replicate n (ERequest m)) = 0%nat.
Proof. unfold starts. induction n as [|n IH]; [done|]. simpl. exact IH. Qed.

Lemma requestsOf_replicate name n : requestsOf name (replicate n (ERequest name)) = n.
Proof.
  unfold requestsOf. induction n as [|n IH]; [done|].
  simpl. rewrite eqb_refl_true. simpl. by rewrite IH.
Qed.

Lemma burst_gulp name nows : ∀ st,
  is_Some (runningTasks st !! name) →
  doneCallback (burst name nows st) = doneCallback st
  ∧ building (burst name nows st) = building st.
Proof.
  induction nows as [|now nows IH]; intros st Hsome; [done|].
  unfold burst in *. cbn [fold_left].
  pose proof (runOrQueue_running name now st Hsome) as Hq.
  destruct (IH (runOrQueue name now st)) as [H1 H2].
  { rewrite Hq. cbn. rewrite lookup_insert_eq. eauto. }
  rewrite H1, H2, Hq. done.
Qed.

(** ** A run that has the orchestration to itself *)


Lemma step_last_run r err now now2 st :
  inflight st = [r] → building st = false → doneCallback st = Some (CbRun r) →
  step st (EvTaskDone 0 err now now2)
  = Some (onTaskDone r err now now2 (set_inflight [] st)).
Proof.
  intros Hin Hb Hcb. rewrite (step_taskDone 0 r) by (by rewrite Hin). rewrite Hin.
  cbn [delete list_delete]. unfold gulpGoOn, orchestrationOver, gulpStop.
  destruct err as [e|]; cbn [inflight building doneCallback set_inflight set_building];
    rewrite ?Hb, Hcb; cbn [andb negb]; [|done].
  f_equal. f_equal. destruct st; cbn in *; by subst.
Qed.

(** When the run of a task is the only one in the orchestration and gulp
    holds its callback, requests during the run are coalesced: however many
    they are, none starts a run; when the run is over, failed or not, one
    run of the task is started, after all of them; and when that run is
    over and no request came in meanwhile, nothing more is started and the
    task has no entry left. *)
Theorem solitary_run_coalesces (evs : list Event) (st : State) (r : Run)
    (nows : list Z) (err err' : option string) (now now2 now' now2' : Z) :
  run initial evs = Some st →
  inflight st = [r] →
  building st = false →
  doneCallback st = Some (CbRun r) →
  nows ≠ [] →
  let name := run_name r in
  let st1 := burst name nows st in
  inflight st1 = [r]
  ∧ starts name (trace st1) = starts name (trace st)
  ∧ requestsOf name (trace st1) = (requestsOf name (trace st) + length nows)%nat
  ∧ runningTasks st1 !! name = Some true
  ∧ ∃ st2, step st1 (EvTaskDone 0 err now now2) = Some st2
      ∧ starts name (trace st2) = (starts name (trace st1) + 1)%nat
      ∧ requestsOf name (trace st2) = (requestsOf name (trace st1) + 1)%nat
      ∧ inflight st2 = [{| run_name := name; run_start := now2 |}]
      ∧ runningTasks st2 !! name = Some false
      ∧ ∃ st3, step st2 (EvTaskDone 0 err' now' now2') = Some st3
          ∧ starts name (trace st3) = starts name (trace st2)
          ∧ inflight st3 = []
          ∧ runningTasks st3 !! name = None.
Proof.
  intros Hrun Hin Hbuild Hcb Hne name st1.
  assert (coherent st) as Hc.
  { eapply coherent_run; [apply coherent_initial|exact Hrun]. }
  assert (is_Some (runningTasks st !! name)) as Hsome.
  { apply Hc. rewrite Hin. cbn. by left. }
  destruct nows as [|n0 rest]; [done|].
  destruct (burst_running name rest n0 st Hsome) as (Hb1 & Hb2 & Hb3).
  destruct (burst_gulp name (n0 :: rest) st Hsome) as [Hb4 Hb5].
  fold st1 in Hb1, Hb2, Hb3, Hb4, Hb5.
  assert (runningTasks st1 !! name = Some true) as Hflag.
  { rewrite Hb2. apply lookup_insert_eq. }
  split; [by rewrite Hb1|]. split.
  { rewrite Hb3, starts_app, starts_replicate_request. lia. }
  split.
  { rewrite Hb3, requestsOf_app, requestsOf_replicate. done. }
  split; [done|].
  (* the run is over *)
  set (st0 := set_inflight [] st1).
  set (stc := set_runningTasks (delete name (runningTasks st0))
                (gutil_log options (buildCompleteLine (run_start r) now) st0)).
  assert (step st1 (EvTaskDone 0 err now now2) = Some (runOrQueue name now2 stc)) as Hstep.
  { rewrite (step_last_run r) by congruence. f_equal.
    fold st0. by rewrite onTaskDone_pending. }
  assert (runningTasks stc !! name = None) as Hidle.
  { subst stc. cbn. apply lookup_delete_eq. }
  destruct (runOrQueue_idle name now2 stc Hidle) as [Hrt Hin2].
  assert (inflight stc = []) as Hin0.
  { subst stc st0. cbn [inflight set_runningTasks].
    by destruct (sameTasks_log (buildCompleteLine (run_start r) now)
                   (set_inflight [] st1)) as [_ ->]. }
  exists (runOrQueue name now2 stc). split; [exact Hstep|].
  assert (trace stc = trace (gutil_log options (buildCompleteLine (run_start r) now) st0))
    as Htr by done.
  split.
  { rewrite trace_runOrQueue, starts_app, starts_requestEffects, Hidle, Htr, starts_log.
    done. }
  split.
  { rewrite trace_runOrQueue, requestsOf_app, requestsOf_requestEffects, Htr,
      requestsOf_log. done. }
  split; [by rewrite Hin2, Hin0|].
  split; [rewrite Hrt; apply lookup_insert_eq|].
  (* the second run is over *)
  set (st2 := runOrQueue name now2 stc) in *.
  set (rr := {| run_name := name; run_start := now2 |}).
  assert (runningTasks st2 !! run_name rr = Some false) as Hf.
  { rewrite Hrt. apply lookup_insert_eq. }
  assert (building st2 = false ∧ doneCallback st2 = Some (CbRun rr)) as [Hb2' Hcb2].
  { assert (building stc = false) as Hbc.
    { subst stc st0. cbn [building set_runningTasks]. unfold gutil_log.
      destruct (muted _ _); change (building st1 = false); by rewrite Hb5. }
    subst st2. unfold runOrQueue. cbn [runningTasks emit]. rewrite Hidle.
    unfold gulpStart. destruct (runsJs name); [|by split].
    unfold taskJs, bundler. cbn [bundlerInstance set_doneCallback emit set_runningTasks].
    destruct (bundlerInstance stc); by split. }
  assert (step st2 (EvTaskDone 0 err' now' now2')
          = Some (onTaskDone rr err' now' now2' (set_inflight [] st2))) as Hstep3.
  { apply step_last_run; [by rewrite Hin2, Hin0|done..]. }
  eexists. split; [exact Hstep3|].
  rewrite onTaskDone_clear by exact Hf.
  split; [cbn [trace set_runningTasks]; by rewrite starts_log|].
  split; [|cbn; apply lookup_delete_eq].
  cbn [inflight set_runningTasks].
  by destruct (sameTasks_log (buildCompleteLine (run_start rr) now')
                 (set_inflight [] st2)) as [_ ->].
Qed.
(** ** Completion of a failed run *)

Lemma activeRuns_delete_other name i r (st st' : State) :
  inflight st !! i = Some r → run_name r ≠ name →
  inflight st' = delete i (inflight st) →
  activeRuns name st' = activeRuns name st.
Proof.
  intros Hi Hne Hin. unfold activeRuns. rewrite Hin.
  rewrite <- (take_drop_middle _ _ _ Hi) at 2. rewrite delete_take_drop.
  rewrite !List.filter_app. simpl.
  destruct (String.eqb_spec (run_name r) name); done.
Qed.


(** ** The completion line *)


End Coalescer.

(** *** Concrete runs *)

(** A request of [html-less] at time 0 on a fresh process, with the default
    paths and no options. *)
Example one_request :
  trace (runOrQueue noOptions (defaultPaths "/proj") "html-less" 0 initial)
  = [ERequest "html-less"; EStart "html-less"].
Proof. vm_compute. reflexivity. Qed.

(** Five requests during a run give two runs in all. *)
Example five_requests_two_runs :
  let st1 := burst noOptions (defaultPaths "/proj") "html-less" [1; 2; 3; 4; 5]
               (runOrQueue noOptions (defaultPaths "/proj") "html-less" 0 initial) in
  (starts "html-less" ∘ trace) <$> run noOptions (defaultPaths "/proj") st1
     [EvTaskDone 0 None 100 100; EvTaskDone 0 None 200 200]
  = Some 2%nat.
Proof. vm_compute. reflexivity. Qed.

(** C1, against the code.  A change of a stylesheet starts [html-less]; a
    change of an asset during that run starts [html-assets], whose callback
    takes the place of the one of [html-less]; a second change of a
    stylesheet is requested during the run and sets the flag.  Both runs
    come to their end and gulp calls the one callback it holds.  The
    request is lost: [html-less] was started once for two requests, gulp
    is idle, one line tells of a finished build, and the entry of
    [html-less] stays, so that no later request starts a run of it. *)
Theorem request_during_overlap_is_dropped :
  let opts := noOptions in
  let dp := defaultPaths "/proj" in
  ∃ st,
    run opts dp initial
      [EvWatch WLess 0; EvWatch WAssets 1; EvWatch WLess 2;
       EvTaskDone 0 None 10 10; EvTaskDone 0 None 20 20]
    = Some st
    ∧ requestsOf "html-less" (trace st) = 2%nat
    ∧ starts "html-less" (trace st) = 1%nat
    ∧ inflight st = []
    ∧ building st = false
    ∧ runningTasks st !! "html-less" = Some true
    ∧ runningTasks st !! "html-assets" = None
    ∧ logs (trace st)
      = [ [Txt Yellow "Less change detected"];
          [Txt Yellow "Asset change detected"];
          [Txt Yellow "Less change detected"];
          [Txt Green "Build finished successfully in "; Elapsed Yellow (Millis 19)] ]
    ∧ ∀ nows, starts "html-less" (trace (burst opts dp "html-less" nows st)) = 1%nat.
Proof.
  intros opts dp. eexists. split; [vm_compute; reflexivity|].
  do 7 (split; [vm_compute; reflexivity|]).
  intros [|now rest]; [vm_compute; reflexivity|].
  match goal with |- context [burst _ _ _ _ ?s] => set (st := s) end.
  destruct (burst_running opts dp "html-less" rest now st) as (_ & _ & ->).
  { exists true. vm_compute. reflexivity. }
  rewrite starts_app, starts_replicate_request. vm_compute. reflexivity.
Qed.

(** C3, against the code.  [html-assets] and then [html-less] are started,
    so that gulp holds the callback of [html-less].  When the run of
    [html-assets] fails, gulp stops and calls that callback: the entry of
    [html-less] is removed although its run had not come to an end, the
    line of a finished build is written with the time since the start of
    [html-less], and the entry of [html-assets], the task that failed,
    stays.  When the run of [html-assets] succeeds instead, nothing of
    this happens: the run leaves the orchestration and no callback is
    called. *)
Theorem failure_calls_the_held_callback :
  let opts := noOptions in
  let dp := defaultPaths "/proj" in
  ∃ st stF stS,
    run opts dp initial [EvWatch WAssets 0; EvWatch WLess 1] = Some st
    ∧ step opts dp st (EvTaskDone 0 (Some "Error: ENOENT") 10 10) = Some stF
    ∧ step opts dp st (EvTaskDone 0 None 10 10) = Some stS
    ∧ inflight st
      = [ {| run_name := "html-assets"; run_start := 0 |};
          {| run_name := "html-less"; run_start := 1 |} ]
    ∧ (runningTasks stF !! "html-assets" = Some false
       ∧ runningTasks stF !! "html-less" = None
       ∧ inflight stF = []
       ∧ logs (trace stF)
         = logs (trace st)
           ++ [[Txt Green "Build finished successfully in "; Elapsed Yellow (Millis 9)]])
    ∧ (runningTasks stS !! "html-assets" = Some false
       ∧ runningTasks stS !! "html-less" = Some false
       ∧ inflight stS = [{| run_name := "html-less"; run_start := 1 |}]
       ∧ logs (trace stS) = logs (trace st)).
Proof.
  intros opts dp. eexists _, _, _.
  split; [vm_compute; reflexivity|].
  split; [vm_compute; reflexivity|].
  split; [vm_compute; reflexivity|].
  vm_compute. repeat split.
Qed.


Section Bundler.

Variable options : Options.
Variable paths : Paths.

Abbreviation bundler := (bundler options paths).
Abbreviation taskJs := (taskJs options paths).
Abbreviation runOrQueue := (runOrQueue options paths).
Abbreviation rebundleJs := (rebundleJs options paths).
Abbreviation onUpdate := (onUpdate options paths).
Abbreviation step := (step options paths).
Abbreviation run := (run options paths).
Abbreviation batch := (batch options paths).

(** ** Changes that leave the bundler alone *)

Lemma quiet_refl st : quiet st st.
Proof. split; [done|]. split; [done|]. exists []. by rewrite app_nil_r. Qed.

Lemma quiet_trans st1 st2 st3 : quiet st1 st2 → quiet st2 st3 → quiet st1 st3.
Proof.
  intros (Hb1 & Hs1 & tl1 & Ht1 & Hn1) (Hb2 & Hs2 & tl2 & Ht2 & Hn2).
  split; [congruence|]. split; [congruence|]. exists (tl1 ++ tl2).
  split; [by rewrite Ht2, Ht1, app_assoc|]. by rewrite bundles_app, Hn1, Hn2.
Qed.

Lemma quiet_emit e st : bundles [e] = [] → quiet st (emit e st).
Proof. intros He. split; [done|]. split; [done|]. by exists [e]. Qed.

Lemma quiet_log l st : quiet st (gutil_log options l st).
Proof. unfold gutil_log. destruct (muted _ _); [apply quiet_refl|by apply quiet_emit]. Qed.

Lemma quiet_stdoutToLog out st : quiet st (stdoutToLog options out st).
Proof.
  unfold stdoutToLog. generalize (split_on newline out) as parts.
  intros parts. revert st. induction parts as [|o parts IH]; intros st; simpl.
  - apply quiet_refl.
  - eapply quiet_trans; [|apply IH].
    destruct (0 <? String.length (trim o))%nat; [apply quiet_log|apply quiet_refl].
Qed.

Lemma quiet_same st st' :
  bundlerInstance st' = bundlerInstance st → sessions st' = sessions st →
  trace st' = trace st → quiet st st'.
Proof. intros Hb Hs Ht. split; [done|]. split; [done|]. exists []. by rewrite app_nil_r. Qed.

(** ** One turn of the event loop and the bundler *)

Lemma bundlerStep_quiet st st' : quiet st st' → bundlerStep st st'.
Proof.
  intros (Hb & Hs & tl & Ht & Hn). split; [by left|].
  exists tl. split; [done|]. rewrite Hn. apply Forall_nil_2.
Qed.

Lemma bundlerStep_quiet_l st st1 st2 : quiet st st1 → bundlerStep st1 st2 → bundlerStep st st2.
Proof.
  intros (Hb & Hs & tl & Ht & Hn) (Hcase & tl2 & Ht2 & Hall). split.
  - rewrite <- Hb, <- Hs. exact Hcase.
  - exists (tl ++ tl2). split; [by rewrite Ht2, Ht, app_assoc|].
    by rewrite bundles_app, Hn.
Qed.

Lemma bundlerStep_quiet_r st st1 st2 : bundlerStep st st1 → quiet st1 st2 → bundlerStep st st2.
Proof.
  intros (Hcase & tl & Ht & Hall) (Hb & Hs & tl2 & Ht2 & Hn). split.
  - rewrite Hb, Hs. exact Hcase.
  - exists (tl ++ tl2). split; [by rewrite Ht2, Ht, app_assoc|].
    rewrite bundles_app, Hn, app_nil_r, Hb. exact Hall.
Qed.

Lemma bundlerStep_taskJs st : bundlerStep st (taskJs st).
Proof.
  unfold taskJs, bundler. destruct (bundlerInstance st) as [sid|] eqn:Hb.
  - split; [by left|]. exists [EBundle sid]. split; [done|].
    cbn. apply Forall_singleton. exact Hb.
  - split.
    + right. left. split; [done|]. split; [done|]. by eexists.
    + exists [EBundle (length (sessions st))]. split; [done|].
      cbn. by apply Forall_singleton.
Qed.

Lemma bundlerStep_runOrQueue name now st : bundlerStep st (runOrQueue name now st).
Proof.
  unfold runOrQueue. cbn [runningTasks emit].
  destruct (runningTasks st !! name).
  - apply bundlerStep_quiet. split; [done|]. split; [done|]. by exists [ERequest name].
  - unfold gulpStart. set (st0 := set_doneCallback _ _).
    assert (quiet st st0) as Hq.
    { split; [done|]. split; [done|]. exists [ERequest name; EStart name].
      split; [|done]. subst st0. cbn. by rewrite <- app_assoc. }
    eapply bundlerStep_quiet_l; [exact Hq|].
    destruct (runsJs name).
    + eapply bundlerStep_quiet_r; [apply bundlerStep_taskJs|by apply quiet_same].
    + apply bundlerStep_quiet. by apply quiet_same.
Qed.

Lemma bundlerStep_onTaskDone r err now now2 st :
  bundlerStep st (onTaskDone options paths r err now now2 st).
Proof.
  unfold onTaskDone, outputBuildCompleteMessage. set (st1 := gutil_log _ _ st).
  assert (quiet st (set_runningTasks (delete (run_name r) (runningTasks st1)) st1)) as Hq.
  { eapply quiet_trans; [apply quiet_log|]. by apply quiet_same. }
  destruct (runningTasks st1 !! run_name r) as [[|]|].
  - eapply bundlerStep_quiet_l; [exact Hq|]. apply bundlerStep_runOrQueue.
  - by apply bundlerStep_quiet.
  - by apply bundlerStep_quiet.
Qed.

Lemma bundlerStep_gulpStop err now now2 st :
  bundlerStep st (gulpStop options paths err now now2 st).
Proof.
  unfold gulpStop. destruct (doneCallback st) as [[|r]|];
    [apply bundlerStep_quiet, quiet_refl|apply bundlerStep_onTaskDone|
     apply bundlerStep_quiet, quiet_refl].
Qed.

Lemma bundlerStep_gulpGoOn err now now2 st :
  bundlerStep st (gulpGoOn options paths err now now2 st).
Proof.
  unfold gulpGoOn. destruct err as [e|].
  - eapply bundlerStep_quiet_l; [|apply bundlerStep_gulpStop]. by apply quiet_same.
  - destruct (orchestrationOver st);
      [apply bundlerStep_gulpStop|apply bundlerStep_quiet, quiet_refl].
Qed.

Lemma bundlerStep_rebundleJs now st : bundlerStep st (rebundleJs now st).
Proof. eapply bundlerStep_quiet_l; [apply quiet_log|apply bundlerStep_runOrQueue]. Qed.

Lemma bundlerStep_taskWatch st : bundlerStep st (taskWatch options paths st).
Proof.
  unfold taskWatch, bundler. cbn [bundlerInstance set_watchJs].
  destruct (bundlerInstance st) as [sid|] eqn:Hb.
  - apply bundlerStep_quiet. split; [done|]. split; [done|]. by exists [EStart "build"].
  - split.
    + right. left. split; [done|]. split; [done|]. by eexists.
    + exists [EStart "build"]. split; [done|]. cbn. apply Forall_nil_2.
Qed.

Lemma length_sessions_closeSession sid st :
  length (sessions (closeSession sid st)) = length (sessions st).
Proof.
  unfold closeSession. destruct (sessions st !! sid); [|done].
  cbn. apply length_insert.
Qed.

Lemma trace_closeSession sid st : trace (closeSession sid st) = trace st.
Proof. unfold closeSession. by destruct (sessions st !! sid). Qed.

Lemma bundlerStep_onUpdate files now st st' :
  onUpdate files now st = Some st' → bundlerStep st st'.
Proof.
  unfold onUpdate. destruct (_ =? _)%nat.
  { intros [= <-]. apply bundlerStep_quiet, quiet_refl. }
  destruct (0 <? _)%nat.
  - destruct (bundlerInstance st) as [sid|] eqn:Hb; [|done]. intros [= <-].
    set (st3 := set_bundlerInstance None _).
    assert (bundlerStep st st3) as H3.
    { split.
      - right. right. split; [done|]. subst st3. cbn [sessions set_bundlerInstance].
        by rewrite length_sessions_closeSession.
      - exists [EReset sid; EClose sid]. split; [|apply Forall_nil_2].
        subst st3. cbn [trace set_bundlerInstance]. rewrite trace_closeSession. cbn.
        by rewrite <- app_assoc. }
    eapply bundlerStep_quiet_r; [exact H3|].
    eapply quiet_trans; [apply quiet_log|].
    unfold execPrune. eapply quiet_trans; [by apply (quiet_emit (EExec "npm prune"))|].
    by apply quiet_same.
  - intros [= <-]. eapply bundlerStep_quiet_l; [apply quiet_log|].
    apply bundlerStep_rebundleJs.
Qed.

Lemma bundlerStep_step st ev st' : step st ev = Some st' → bundlerStep st st'.
Proof.
  destruct ev; simpl.
  - intros [= <-]. apply bundlerStep_taskJs.
  - intros [= <-]. apply bundlerStep_taskWatch.
  - intros [= <-]. eapply bundlerStep_quiet_l; [apply quiet_log|].
    apply bundlerStep_runOrQueue.
  - destruct (bundlerInstance st) as [sid|]; [|done].
    destruct (liveWatchify sid st); [|done]. apply bundlerStep_onUpdate.
  - destruct (pendingPrune st) as [|n]; [done|]. intros [= <-].
    eapply bundlerStep_quiet_l; [by apply (quiet_same st (set_pending n (pendingInstall st) st))|].
    unfold onPruneDone. destruct err as [e|].
    + eapply bundlerStep_quiet_l; [apply quiet_log|]. apply bundlerStep_rebundleJs.
    + apply bundlerStep_quiet. unfold execInstall.
      set (st0 := set_pending n (pendingInstall st) st).
      set (st1 := if nonempty stdout then stdoutToLog options stdout st0 else st0).
      assert (quiet st0 st1) as Hq.
      { subst st1. destruct (nonempty stdout); [apply quiet_stdoutToLog|apply quiet_refl]. }
      eapply quiet_trans; [exact Hq|]. eapply quiet_trans; [apply quiet_log|].
      eapply quiet_trans; [by apply (quiet_emit (EExec "npm install"))|].
      by apply quiet_same.
  - destruct (pendingInstall st) as [|n]; [done|]. intros [= <-].
    eapply bundlerStep_quiet_l; [by apply (quiet_same st (set_pending (pendingPrune st) n st))|].
    unfold onInstallDone. destruct err as [e|].
    + eapply bundlerStep_quiet_l; [apply quiet_log|]. apply bundlerStep_rebundleJs.
    + eapply bundlerStep_quiet_l; [|apply bundlerStep_rebundleJs].
      eapply quiet_trans; [|apply quiet_log].
      destruct (nonempty stdout); [apply quiet_stdoutToLog|apply quiet_refl].
  - destruct (inflight st !! i) as [r|]; [|done]. intros [= <-].
    eapply bundlerStep_quiet_l; [|apply bundlerStep_gulpGoOn]. by apply quiet_same.
  - destruct (building st); [|done]. intros [= <-].
    eapply bundlerStep_quiet_l; [|apply bundlerStep_gulpGoOn]. by apply quiet_same.
  - intros [= <-]. apply bundlerStep_quiet. by apply quiet_same.
Qed.

(** ** Invariants of the bundler *)

Lemma bundlerBound_step st st' : bundlerBound st → bundlerStep st st' → bundlerBound st'.
Proof.
  intros Hbd [[[Hb Hs]|[(Hb & Hb' & b & Hs)|[Hb Hs]]] _] sid Hsid.
  - rewrite Hs. apply Hbd. congruence.
  - rewrite Hs, length_app. simpl. rewrite Hb' in Hsid. injection Hsid as <-. lia.
  - congruence.
Qed.

Lemma bundlerBound_run evs : ∀ st st', bundlerBound st → run st evs = Some st' → bundlerBound st'.
Proof.
  induction evs as [|ev evs IH]; intros st st' Hbd Hrun; simpl in Hrun.
  - by injection Hrun as <-.
  - destruct (step st ev) as [st1|] eqn:Hstep; [|done].
    eapply IH; [|exact Hrun]. eapply bundlerBound_step; [exact Hbd|].
    by eapply bundlerStep_step.
Qed.

Lemma bundlerBound_initial : bundlerBound initial.
Proof. intros sid Hsid. done. Qed.

Lemma madeAfter_step n st st' :
  madeAfter n st → bundlerStep st st' →
  madeAfter n st'
  ∧ ∃ tl, trace st' = trace st ++ tl ∧ Forall (fun sid => (n ≤ sid)%nat) (bundles tl).
Proof.
  intros [Hlen Hcur] [Hcase (tl & Ht & Hall)].
  assert (madeAfter n st') as Hm.
  { destruct Hcase as [[Hb Hs]|[(Hb & Hb' & b & Hs)|[Hb Hs]]]; split.
    - by rewrite Hs.
    - intros sid Hsid. apply Hcur. congruence.
    - rewrite Hs, length_app. lia.
    - intros sid Hsid. rewrite Hb' in Hsid. by injection Hsid as <-.
    - by rewrite Hs.
    - intros sid Hsid. congruence. }
  split; [exact Hm|]. exists tl. split; [done|].
  eapply Forall_impl; [exact Hall|]. intros sid Hsid. by apply Hm.
Qed.

Lemma madeAfter_run n evs : ∀ st st',
  madeAfter n st → run st evs = Some st' →
  madeAfter n st'
  ∧ ∃ tl, trace st' = trace st ++ tl ∧ Forall (fun sid => (n ≤ sid)%nat) (bundles tl).
Proof.
  induction evs as [|ev evs IH]; intros st st' Hm Hrun; simpl in Hrun.
  - injection Hrun as <-. split; [done|]. exists []. split; [by rewrite app_nil_r|].
    apply Forall_nil_2.
  - destruct (step st ev) as [st1|] eqn:Hstep; [|done].
    destruct (madeAfter_step n st st1 Hm (bundlerStep_step _ _ _ Hstep))
      as (Hm1 & tl1 & Ht1 & Hall1).
    destruct (IH st1 st' Hm1 Hrun) as (Hm' & tl2 & Ht2 & Hall2).
    split; [exact Hm'|]. exists (tl1 ++ tl2). split; [by rewrite Ht2, Ht1, app_assoc|].
    rewrite bundles_app. by apply Forall_app.
Qed.

(** ** The filters of the update handler *)

Lemma filter_length_le {A} (p : A → bool) (l : list A) :
  (length (List.filter p l) ≤ length l)%nat.
Proof. induction l as [|x l IH]; simpl; [lia|]. destruct (p x); simpl; lia. Qed.

Lemma filter_all {A} (p : A → bool) (l : list A) :
  (length (List.filter p l) =? length l)%nat = true ↔ ∀ x, x ∈ l → p x = true.
Proof.
  rewrite Nat.eqb_eq. induction l as [|x l IH]; simpl.
  - split; [by intros _ x ?%elem_of_nil|done].
  - pose proof (filter_length_le p l) as Hle. destruct (p x) eqn:Hx; simpl.
    + split.
      * intros Hlen y [->|Hy]%elem_of_cons; [done|]. apply IH; [lia|done].
      * intros Hall. f_equal. apply IH. intros y Hy. apply Hall. by right.
    + split; [lia|]. intros Hall. specialize (Hall x). rewrite Hx in Hall.
      discriminate Hall. by left.
Qed.

Lemma filter_some {A} (p : A → bool) (l : list A) :
  (0 <? length (List.filter p l))%nat = true ↔ ∃ x, x ∈ l ∧ p x = true.
Proof.
  rewrite Nat.ltb_lt. induction l as [|x l IH]; simpl.
  - split; [lia|]. by intros (x & ?%elem_of_nil & _).
  - destruct (p x) eqn:Hx; simpl.
    + split; [|lia]. intros _. exists x. split; [by left|done].
    + rewrite IH. split.
      * intros (y & Hy & Hpy). exists y. split; [by right|done].
      * intros (y & [->|Hy]%elem_of_cons & Hpy); [congruence|by exists y].
Qed.

Lemma filter_not_all {A} (p : A → bool) (l : list A) :
  (length (List.filter p l) =? length l)%nat = false ↔ ∃ x, x ∈ l ∧ p x = false.
Proof.
  split.
  - intros Hneq. induction l as [|x l IH]; [done|]. simpl in Hneq.
    destruct (p x) eqn:Hx.
    + destruct IH as (y & Hy & Hpy); [exact Hneq|]. exists y. split; [by right|done].
    + exists x. split; [by left|done].
  - intros (x & Hx & Hpx). destruct (_ =? _)%nat eqn:Heq; [|done].
    rewrite filter_all in Heq. rewrite (Heq x Hx) in Hpx. done.
Qed.

(** ** What the handlers leave pending *)

Lemma pending_log l st :
  pendingPrune (gutil_log options l st) = pendingPrune st
  ∧ pendingInstall (gutil_log options l st) = pendingInstall st.
Proof. unfold gutil_log. by destruct (muted _ _). Qed.

Lemma pending_runOrQueue name now st :
  pendingPrune (runOrQueue name now st) = pendingPrune st
  ∧ pendingInstall (runOrQueue name now st) = pendingInstall st.
Proof.
  unfold runOrQueue. cbn [runningTasks emit]. destruct (runningTasks st !! name); [done|].
  unfold gulpStart. destruct (runsJs name); [|done].
  unfold taskJs, bundler. cbn [bundlerInstance emit set_runningTasks set_doneCallback].
  by destruct (bundlerInstance st).
Qed.

Lemma pending_rebundleJs now st :
  pendingPrune (rebundleJs now st) = pendingPrune st
  ∧ pendingInstall (rebundleJs now st) = pendingInstall st.
Proof.
  unfold rebundleJs. destruct (pending_runOrQueue "html-js" now
    (gutil_log options [Txt Yellow "Rebundling javascript"] st)) as [-> ->].
  apply pending_log.
Qed.

Lemma pending_stdoutToLog out st :
  pendingPrune (stdoutToLog options out st) = pendingPrune st
  ∧ pendingInstall (stdoutToLog options out st) = pendingInstall st
  ∧ requestsOf "html-js" (trace (stdoutToLog options out st))
    = requestsOf "html-js" (trace st).
Proof.
  unfold stdoutToLog. generalize (split_on newline out) as parts.
  intros parts. revert st. induction parts as [|o parts IH]; intros st; simpl; [done|].
  destruct (0 <? String.length (trim o))%nat; [|apply IH].
  destruct (IH (gutil_log options [Txt Plain (trim o)] st)) as (-> & -> & ->).
  rewrite (requestsOf_log options). split; [|split]; [apply pending_log..|done].
Qed.

Lemma requestsOf_rebundleJs now st :
  requestsOf "html-js" (trace (rebundleJs now st))
  = (requestsOf "html-js" (trace st) + 1)%nat.
Proof.
  unfold rebundleJs.
  by rewrite trace_runOrQueue, requestsOf_app, requestsOf_requestEffects, requestsOf_log.
Qed.

(** ** The three ways of the update handler *)

Lemma step_update sid files now st :
  bundlerInstance st = Some sid → liveWatchify sid st = true →
  step st (EvUpdate files now) = onUpdate files now st.
Proof. intros Hb Hl. simpl. by rewrite Hb, Hl. Qed.

Lemma onUpdate_noise files now st :
  (∀ f, f ∈ files → inNodeModules f = true) → onUpdate files now st = Some st.
Proof. intros Hall. unfold onUpdate. apply filter_all in Hall. by rewrite Hall. Qed.

Lemma onUpdate_script files now st :
  (∃ f, f ∈ files ∧ inNodeModules f = false) →
  (0 <? length (List.filter isPackageJson files))%nat = false →
  onUpdate files now st
  = Some (rebundleJs now (gutil_log options [Txt Yellow "Javascript changed detected"] st)).
Proof.
  intros Hout Hpkg. unfold onUpdate. apply filter_not_all in Hout. by rewrite Hout, Hpkg.
Qed.

Lemma onUpdate_manifest files now st sid :
  (∃ f, f ∈ files ∧ inNodeModules f = false) →
  (∃ f, f ∈ files ∧ isPackageJson f = true) →
  bundlerInstance st = Some sid →
  onUpdate files now st
  = Some (execPrune
            (gutil_log options
               [Txt Yellow "package.json change detected, running npm prune"]
               (set_bundlerInstance None
                  (closeSession sid (emit (EClose sid) (emit (EReset sid) st)))))).
Proof.
  intros Hout Hpkg Hb. unfold onUpdate.
  apply filter_not_all in Hout. apply filter_some in Hpkg. by rewrite Hout, Hpkg, Hb.
Qed.

(** What the manifest way leaves behind. *)
Lemma manifest_state l sid st :
  let st1 := execPrune (gutil_log options l
               (set_bundlerInstance None
                  (closeSession sid (emit (EClose sid) (emit (EReset sid) st))))) in
  bundlerInstance st1 = None
  ∧ sessions st1 = sessions (closeSession sid st)
  ∧ pendingPrune st1 = S (pendingPrune st)
  ∧ pendingInstall st1 = pendingInstall st
  ∧ requestsOf "html-js" (trace st1) = requestsOf "html-js" (trace st).
Proof.
  intros st1. subst st1.
  set (st3 := set_bundlerInstance None _).
  set (st4 := gutil_log options l st3).
  destruct (quiet_log l st3) as (Hb & Hs & _).
  destruct (pending_log l st3) as [Hp Hi].
  pose proof (requestsOf_log options "html-js" l st3) as Hr.
  fold st4 in Hb, Hs, Hp, Hi, Hr.
  assert (trace st3 = trace st ++ [EReset sid; EClose sid]) as Ht.
  { subst st3. cbn [trace set_bundlerInstance]. rewrite trace_closeSession. cbn.
    by rewrite <- app_assoc. }
  split; [exact Hb|]. split.
  { change (sessions st4 = sessions (closeSession sid st)). rewrite Hs.
    subst st3. unfold closeSession. cbn. by destruct (sessions st !! sid). }
  split.
  { change (S (pendingPrune st4) = S (pendingPrune st)). rewrite Hp.
    subst st3. unfold closeSession. cbn. by destruct (sessions st !! sid). }
  split.
  { change (pendingInstall st4 = pendingInstall st). rewrite Hi.
    subst st3. unfold closeSession. cbn. by destruct (sessions st !! sid). }
  change (requestsOf "html-js" (trace st4 ++ [EExec "npm prune"])
          = requestsOf "html-js" (trace st)).
  rewrite requestsOf_app, Hr, Ht, requestsOf_app. cbn. lia.
Qed.

(** ** Paths named package.json *)

Lemma split_on_cons c s : ∃ h t, split_on c s = h :: t.
Proof.
  induction s as [|a s (h & t & IH)]; simpl; [by eexists _, _|].
  destruct (Ascii.eqb a c); [by eexists _, _|]. rewrite IH. by eexists _, _.
Qed.

Lemma split_on_app_sep c s t :
  split_on c (s +:+ String c t) = split_on c s ++ split_on c t.
Proof.
  induction s as [|a s IH]; simpl.
  - by rewrite Ascii.eqb_refl.
  - rewrite IH. destruct (Ascii.eqb a c); [done|].
    by destruct (split_on_cons c s) as (h & tl & ->).
Qed.

Lemma append_nil_l (t : string) : ("" +:+ t)%string = t.
Proof. reflexivity. Qed.

Lemma append_cons a (s t : string) : (String a s +:+ t)%string = String a (s +:+ t).
Proof. reflexivity. Qed.

Lemma split_on_app_nosep c s t :
  split_on c t = [t] →
  ∃ init l, split_on c s = init ++ [l] ∧ split_on c (s +:+ t) = init ++ [l +:+ t].
Proof.
  intros Ht. induction s as [|a s (init & l & Hs & Hst)].
  - exists [], "". by rewrite !append_nil_l, Ht.
  - rewrite append_cons. cbn [split_on]. rewrite Hs, Hst. destruct (Ascii.eqb a c).
    + by exists ("" :: init), l.
    + destruct init as [|h init].
      * by exists [], (String a l).
      * by exists (String a h :: init), l.
Qed.

Lemma append_assoc (s t u : string) : ((s +:+ t) +:+ u = s +:+ (t +:+ u))%string.
Proof. induction s as [|a s IH]; [done|]. by rewrite !append_cons, IH. Qed.

Lemma basename_package x : basename (x +:+ "/package") = "package".
Proof.
  unfold basename. change (x +:+ "/package") with (x +:+ String "/" "package").
  rewrite split_on_app_sep, List.filter_app. cbn [split_on List.filter nonempty].
  simpl. apply List.last_last.
Qed.

Lemma isPackageJson_named dir : isPackageJson (dir +:+ "/package.json") = true.
Proof.
  unfold isPackageJson.
  change (dir +:+ "/package.json") with (dir +:+ ("/package" +:+ String "." "json")).
  rewrite <- append_assoc, split_on_app_sep.
  destruct (split_on_app_nosep "." dir "/package" eq_refl) as (init & l & _ & ->).
  change (split_on "." "json") with ["json"].
  set (parts := (init ++ [l +:+ "/package"]) ++ ["json"]).
  assert (length parts = S (S (length init))) as Hlen.
  { subst parts. rewrite !length_app. simpl. lia. }
  assert (part (length init) parts = (l +:+ "/package")%string) as Hp.
  { subst parts. unfold part. rewrite <- app_assoc, app_nth2 by lia.
    by rewrite Nat.sub_diag. }
  assert (part (S (length init)) parts = "json") as Hj.
  { subst parts. unfold part. rewrite app_nth2 by (rewrite length_app; simpl; lia).
    rewrite length_app. simpl.
    by replace (S (length init) - (length init + 1))%nat with 0%nat by lia. }
  rewrite Hlen.
  replace (S (S (length init)) - 2)%nat with (length init) by lia.
  replace (S (S (length init)) - 1)%nat with (S (length init)) by lia.
  rewrite Hp, Hj, basename_package. done.
Qed.

(** ** Batches of changed files *)

Lemma step_pruneDone n err stdout now st :
  pendingPrune st = S n →
  step st (EvPruneDone err stdout now)
  = Some (onPruneDone options paths err stdout now (set_pending n (pendingInstall st) st)).
Proof. intros Hp. simpl. by rewrite Hp. Qed.

Lemma step_installDone n err stdout now st :
  pendingInstall st = S n →
  step st (EvInstallDone err stdout now)
  = Some (onInstallDone options paths err stdout now (set_pending (pendingPrune st) n st)).
Proof. intros Hp. simpl. by rewrite Hp. Qed.

(** The callback of [npm install] requests one rebuild, however the install
    ended. *)
Lemma onInstallDone_requests err stdout now st :
  let st' := onInstallDone options paths err stdout now st in
  requestsOf "html-js" (trace st') = (requestsOf "html-js" (trace st) + 1)%nat
  ∧ pendingPrune st' = pendingPrune st
  ∧ pendingInstall st' = pendingInstall st.
Proof.
  intros st'. subst st'. unfold onInstallDone. destruct err as [e|].
  - rewrite requestsOf_rebundleJs, (requestsOf_log options).
    destruct (pending_rebundleJs now (gutil_log options
      [Txt Red "Error installing dependencies:"; Txt Plain e] st)) as [-> ->].
    split; [done|]. apply pending_log.
  - set (st1 := if nonempty stdout then stdoutToLog options stdout st else st).
    assert (pendingPrune st1 = pendingPrune st ∧ pendingInstall st1 = pendingInstall st
            ∧ requestsOf "html-js" (trace st1) = requestsOf "html-js" (trace st))
      as (Hp & Hi & Hr).
    { subst st1. destruct (nonempty stdout); [apply pending_stdoutToLog|done]. }
    rewrite requestsOf_rebundleJs, (requestsOf_log options), Hr.
    destruct (pending_rebundleJs now (gutil_log options
      [Txt Yellow "Dependencies installed successfully"] st1)) as [-> ->].
    destruct (pending_log [Txt Yellow "Dependencies installed successfully"] st1)
      as [-> ->].
    done.
Qed.

(** C4: a batch whose files are all under [/node_modules/] changes nothing:
    not a line is logged and no rebuild is requested.  A batch with a file
    elsewhere leads to exactly one rebuild request: at once when no
    package.json is among the files, and otherwise from the callback of
    [npm prune] when it failed or from the callback of [npm install],
    however that ended. *)
Theorem spurious_changes_filtered (st : State) (sid : nat) (files : list string)
    (now : Z) (rc : Reconcile) :
  bundlerInstance st = Some sid →
  liveWatchify sid st = true →
  ((∀ f, f ∈ files → inNodeModules f = true) →
     step st (EvUpdate files now) = Some st ∧ batch files now rc st = Some st)
  ∧ ((∃ f, f ∈ files ∧ inNodeModules f = false) →
       ∃ st', batch files now rc st = Some st'
         ∧ requestsOf "html-js" (trace st') = (requestsOf "html-js" (trace st) + 1)%nat
         ∧ pendingPrune st' = pendingPrune st
         ∧ pendingInstall st' = pendingInstall st).
Proof.
  intros Hb Hlive. unfold batch. rewrite (step_update sid) by done. split.
  - intros Hall. rewrite onUpdate_noise by done. by rewrite Nat.eqb_refl.
  - intros Hout.
    destruct (0 <? length (List.filter isPackageJson files))%nat eqn:Hpkg.
    + (* a package.json among the files *)
      apply filter_some in Hpkg. rewrite (onUpdate_manifest files now st sid) by done.
      set (l := [Txt Yellow "package.json change detected, running npm prune"]).
      destruct (manifest_state l sid st) as (_ & _ & Hp & Hi & Hr).
      set (st1 := execPrune _) in *. clearbody st1.
      replace (pendingPrune st1 =? pendingPrune st)%nat with false
        by (symmetry; apply Nat.eqb_neq; lia).
      destruct rc as [e out now1|out now1 ierr iout now2]; cbn [callbacks].
      * change (run st1 [EvPruneDone (Some e) out now1])
          with (match step st1 (EvPruneDone (Some e) out now1) with
                | Some st' => Some st' | None => None end).
        rewrite (step_pruneDone (pendingPrune st)) by done.
        eexists. split; [done|]. unfold onPruneDone.
        rewrite requestsOf_rebundleJs, (requestsOf_log options).
        destruct (pending_rebundleJs now1 (gutil_log options
          [Txt Red "Error running npm prune:"; Txt Plain e]
          (set_pending (pendingPrune st) (pendingInstall st1) st1))) as [-> ->].
        destruct (pending_log [Txt Red "Error running npm prune:"; Txt Plain e]
          (set_pending (pendingPrune st) (pendingInstall st1) st1)) as [-> ->].
        cbn [trace pendingPrune pendingInstall set_pending]. rewrite Hr, Hi. done.
      * change (run st1 [EvPruneDone None out now1; EvInstallDone ierr iout now2])
          with (match step st1 (EvPruneDone None out now1) with
                | Some st' =>
                    match step st' (EvInstallDone ierr iout now2) with
                    | Some st'' => Some st'' | None => None end
                | None => None end).
        rewrite (step_pruneDone (pendingPrune st)) by done.
        set (st2 := onPruneDone options paths None out now1 _).
        assert (pendingPrune st2 = pendingPrune st
                ∧ pendingInstall st2 = S (pendingInstall st)
                ∧ requestsOf "html-js" (trace st2) = requestsOf "html-js" (trace st))
          as (Hp2 & Hi2 & Hr2).
        { subst st2. unfold onPruneDone, execInstall.
          set (st0 := set_pending (pendingPrune st) (pendingInstall st1) st1).
          set (sto := if nonempty out then stdoutToLog options out st0 else st0).
          assert (pendingPrune sto = pendingPrune st ∧ pendingInstall sto = pendingInstall st
                  ∧ requestsOf "html-js" (trace sto) = requestsOf "html-js" (trace st))
            as (Hpo & Hio & Hro).
          { subst sto. destruct (nonempty out).
            - destruct (pending_stdoutToLog out st0) as (-> & -> & ->). by cbn.
            - by cbn. }
          destruct (pending_log [Txt Yellow "running npm install"] sto) as [Hpl Hil].
          cbn [pendingPrune pendingInstall set_pending emit trace].
          rewrite Hpl, Hil, Hpo, Hio, requestsOf_app, (requestsOf_log options), Hro.
          cbn. split; [done|]. split; [done|]. lia. }
        clearbody st2.
        rewrite (step_installDone (pendingInstall st)) by done.
        eexists. split; [done|].
        destruct (onInstallDone_requests ierr iout now2
                    (set_pending (pendingPrune st2) (pendingInstall st) st2))
          as (-> & -> & ->).
        cbn [trace pendingPrune pendingInstall set_pending]. by rewrite Hr2, Hp2.
    + (* no package.json among the files *)
      rewrite onUpdate_script by done.
      set (st0 := gutil_log options [Txt Yellow "Javascript changed detected"] st).
      destruct (pending_rebundleJs now st0) as [Hp Hi].
      destruct (pending_log [Txt Yellow "Javascript changed detected"] st) as [Hp0 Hi0].
      fold st0 in Hp0, Hi0. rewrite Hp, Hp0, Nat.eqb_refl.
      eexists. split; [reflexivity|]. split; [|split; congruence].
      rewrite requestsOf_rebundleJs. subst st0. by rewrite (requestsOf_log options).
Qed.

(** C5, as the code has it: the handler takes the manifest way, releasing
    the bundler and spawning [npm prune], exactly when some file of the
    batch is outside [/node_modules/] and some file of the whole batch,
    inside or outside, passes the test of [packageJsonChanges]; every path
    that ends in [/package.json] passes it. *)
Theorem manifest_detection (st : State) (sid : nat) (files : list string) (now : Z) :
  bundlerInstance st = Some sid →
  liveWatchify sid st = true →
  (∃ st', step st (EvUpdate files now) = Some st'
     ∧ ((pendingPrune st' = S (pendingPrune st) ∧ bundlerInstance st' = None)
        ↔ ((∃ f, f ∈ files ∧ inNodeModules f = false)
           ∧ (∃ f, f ∈ files ∧ isPackageJson f = true))))
  ∧ (∀ dir, isPackageJson (dir +:+ "/package.json") = true).
Proof.
  intros Hb Hlive. split; [|apply isPackageJson_named].
  rewrite (step_update sid) by done.
  destruct (length (List.filter inNodeModules files) =? length files)%nat eqn:Hall.
  { pose proof (proj1 (filter_all _ _) Hall) as Hin. rewrite onUpdate_noise by done.
    eexists. split; [done|]. split; [lia|].
    intros [(f & Hf & Hout) _]. rewrite (Hin f Hf) in Hout. done. }
  apply filter_not_all in Hall.
  destruct (0 <? length (List.filter isPackageJson files))%nat eqn:Hpkg.
  - apply filter_some in Hpkg. rewrite (onUpdate_manifest files now st sid) by done.
    eexists. split; [done|].
    destruct (manifest_state [Txt Yellow "package.json change detected, running npm prune"]
                sid st) as (Hnone & _ & Hp & _).
    split; [done|]. intros _. split; [exact Hp|exact Hnone].
  - rewrite onUpdate_script by done. eexists. split; [done|].
    set (st0 := gutil_log options [Txt Yellow "Javascript changed detected"] st).
    destruct (pending_rebundleJs now st0) as [Hp _].
    destruct (pending_log [Txt Yellow "Javascript changed detected"] st) as [Hp0 _].
    fold st0 in Hp0. split.
    + rewrite Hp, Hp0. lia.
    + intros [_ Hsome]. apply filter_some in Hsome. congruence.
Qed.

(** ** Release of the bundler on a manifest change *)

(** C6, as the code has it: the handler of a manifest change calls [reset]
    and [close] on the current instance and clears [bundlerInstance] before
    it returns, so before any rebuild can be requested; it makes no other
    instance, which is left to the next call of [bundler].  Whatever the
    event loop runs afterwards, every [bundle()] is called on an instance
    that [bundler] made after the release: never on the released one,
    whose identity differs from that of every instance used later. *)
Theorem rebuild_observes_new_session (evs : list Event) (st : State) (sid : nat)
    (files : list string) (now : Z) (st1 : State) (evs' : list Event) (st2 : State) :
  run initial evs = Some st →
  bundlerInstance st = Some sid →
  (∃ f, f ∈ files ∧ inNodeModules f = false) →
  (∃ f, f ∈ files ∧ isPackageJson f = true) →
  step st (EvUpdate files now) = Some st1 →
  run st1 evs' = Some st2 →
  bundlerInstance st1 = None
  ∧ ses_closed <$> sessions st1 !! sid = Some true
  ∧ length (sessions st1) = length (sessions st)
  ∧ bundlerInstance st2 ≠ Some sid
  ∧ ∃ tl, trace st2 = trace st1 ++ tl
      ∧ Forall (fun s => (length (sessions st) ≤ s)%nat ∧ s ≠ sid) (bundles tl).
Proof.
  intros Hrun Hb Hout Hpkg Hstep Hrun'.
  assert (sid < length (sessions st))%nat as Hlt.
  { eapply (bundlerBound_run evs initial st); [apply bundlerBound_initial|done|done]. }
  simpl in Hstep. rewrite Hb in Hstep. destruct (liveWatchify sid st); [|done].
  rewrite (onUpdate_manifest files now st sid) in Hstep by done. injection Hstep as <-.
  set (l := [Txt Yellow "package.json change detected, running npm prune"]) in *.
  destruct (manifest_state l sid st) as (Hnone & Hs & _).
  set (st1 := execPrune _) in *. clearbody st1.
  assert (length (sessions st1) = length (sessions st)) as Hlen.
  { by rewrite Hs, length_sessions_closeSession. }
  assert (madeAfter (length (sessions st)) st1) as Hm.
  { split; [lia|]. intros s. by rewrite Hnone. }
  destruct (madeAfter_run _ evs' st1 st2 Hm Hrun') as ([_ Hcur] & tl & Ht & Hall).
  split; [exact Hnone|]. split.
  { rewrite Hs. unfold closeSession.
    destruct (lookup_lt_is_Some_2 (sessions st) sid Hlt) as [s Hsid]. rewrite Hsid.
    cbn [sessions set_sessions]. by rewrite list_lookup_insert_eq. }
  split; [exact Hlen|]. split.
  { intros Hsid. apply Hcur in Hsid. lia. }
  exists tl. split; [exact Ht|].
  eapply Forall_impl; [exact Hall|]. intros s Hs'. cbn in Hs'. split; lia.
Qed.

(** ** One-shot builds *)

Lemma taskJs_again sid n : ∀ st,
  bundlerInstance st = Some sid →
  ∃ st', run st (replicate n EvTaskJs) = Some st'
    ∧ bundlerInstance st' = Some sid
    ∧ sessions st' = sessions st
    ∧ watchJs st' = watchJs st
    ∧ trace st' = trace st ++ replicate n (EBundle sid).
Proof.
  induction n as [|n IH]; intros st Hb.
  - exists st. by rewrite app_nil_r.
  - assert (taskJs st = emit (EBundle sid) st) as Hjs.
    { unfold taskJs, bundler. by rewrite Hb. }
    destruct (IH (emit (EBundle sid) st) Hb) as (st' & Hrun & Hb' & Hs & Hw & Ht).
    exists st'. cbn [replicate]. simpl. rewrite Hjs.
    split; [exact Hrun|]. split; [done|]. split; [done|]. split; [done|].
    rewrite Ht. cbn. by rewrite <- app_assoc.
Qed.

(** C9, as the code has it: without the [watch] task the first [bundle()]
    of the process is called on a plain browserify instance that [bundler]
    makes then, with no watchify around it, and every later [bundle()] of
    the process is called on that same instance, so on the same [cache] and
    [packageCache] objects; no other instance is ever made. *)
Theorem one_shot_bundler_is_shared (n : nat) :
  ∃ st, run initial (replicate (S n) EvTaskJs) = Some st
    ∧ watchJs st = false
    ∧ bundlerInstance st = Some 0%nat
    ∧ sessions st
      = [{| ses_watchify := false; ses_transforms := transforms options;
            ses_entry := (paths_base paths, paths_js paths); ses_closed := false |}]
    ∧ bundles (trace st) = replicate (S n) 0%nat.
Proof.
  destruct (taskJs_again 0 n (taskJs initial) eq_refl) as (st & Hrun & Hb & Hs & Hw & Ht).
  exists st. split; [exact Hrun|]. split; [by rewrite Hw|]. split; [exact Hb|].
  split; [by rewrite Hs|]. rewrite Ht, bundles_app. cbn.
  f_equal. clear. induction n as [|n IH]; [done|]. cbn. by rewrite IH.
Qed.

End Bundler.

(** *** Concrete batches *)

Example batch_noise :
  let st := taskWatch noOptions (defaultPaths "/proj") initial in
  step noOptions (defaultPaths "/proj") st
    (EvUpdate ["/proj/node_modules/a/index.js"; "/proj/node_modules/b/package.json"] 7)
  = Some st.
Proof. vm_compute. reflexivity. Qed.

Example batch_script :
  let st := taskWatch noOptions (defaultPaths "/proj") initial in
  trace <$> step noOptions (defaultPaths "/proj") st
    (EvUpdate ["/proj/app/main.jsx"; "/proj/node_modules/a/index.js"] 7)
  = Some [EStart "build";
          ELog [Txt Yellow "Javascript changed detected"];
          ELog [Txt Yellow "Rebundling javascript"];
          ERequest "html-js"; EStart "html-js"; EBundle 0].
Proof. vm_compute. reflexivity. Qed.

(** A manifest change and the rebuild at its end: session 0 is released
    and the rebuild bundles on session 1. *)
Example batch_manifest :
  let st := taskWatch noOptions (defaultPaths "/proj") initial in
  (fun st' => (bundles (trace st'), ses_closed <$> sessions st', bundlerInstance st'))
    <$> batch noOptions (defaultPaths "/proj") ["/proj/package.json"] 7
          (PruneDone "" 8 None "added 1 package" 9) st
  = Some ([1%nat], [true; false], Some 1%nat).
Proof. vm_compute. reflexivity. Qed.

(** C5, refuted as stated: the only file of the batch outside
    [/node_modules/] is a script, the package.json lies inside, and the
    handler takes the manifest way. *)
Lemma manifest_inside_node_modules_triggers :
  let files := ["/proj/app/main.jsx"; "/proj/node_modules/dep/package.json"] in
  let st := taskWatch noOptions (defaultPaths "/proj") initial in
  List.filter isPackageJson (List.filter (fun f => negb (inNodeModules f)) files) = []
  ∧ ∃ st', step noOptions (defaultPaths "/proj") st (EvUpdate files 7) = Some st'
      ∧ bundlerInstance st' = None
      ∧ pendingPrune st' = 1%nat
      ∧ trace st'
        = [EStart "build"; EReset 0; EClose 0;
           ELog [Txt Yellow "package.json change detected, running npm prune"];
           EExec "npm prune"].
Proof. vm_compute. split; [reflexivity|]. eexists. repeat split. Qed.

(** C6, refuted as stated: the session is not replaced before the rebuild
    is requested.  A change of a script starts [html-js]; during that run
    the manifest changes, and the handler releases the session and makes
    no other.  When [npm prune] and [npm install] are over the rebuild is
    requested, as the last thing that happens, and there is still no
    session but the closed one: the request only sets the flag of
    [html-js], and an instance will be made by the [js] task of the run
    that serves it. *)
Lemma rebuild_is_requested_without_session :
  let opts := noOptions in
  let dp := defaultPaths "/proj" in
  ∃ st1 st2,
    run opts dp initial
      [EvTaskWatch; EvUpdate ["/proj/app/main.jsx"] 1; EvUpdate ["/proj/package.json"] 2]
    = Some st1
    ∧ bundlerInstance st1 = None
    ∧ ses_closed <$> sessions st1 = [true]
    ∧ run opts dp st1 [EvPruneDone None "" 3; EvInstallDone None "" 4] = Some st2
    ∧ requestsOf "html-js" (trace st2) = S (requestsOf "html-js" (trace st1))
    ∧ last (trace st2) = Some (ERequest "html-js")
    ∧ runningTasks st2 !! "html-js" = Some true
    ∧ bundlerInstance st2 = None
    ∧ ses_closed <$> sessions st2 = [true].
Proof.
  intros opts dp. eexists _, _.
  split; [vm_compute; reflexivity|].
  do 2 (split; [vm_compute; reflexivity|]).
  split; [vm_compute; reflexivity|].
  vm_compute. repeat split.
Qed.

(** C9, refuted as stated: in a process that never ran the [watch] task the
    second [bundle()] is called on the instance of the first, the only
    one there is. *)
Lemma one_shot_second_bundle_reuses_session :
  ∃ st, run noOptions (defaultPaths "/proj") initial [EvTaskJs; EvTaskJs] = Some st
    ∧ watchJs st = false
    ∧ bundles (trace st) = [0%nat; 0%nat]
    ∧ length (sessions st) = 1%nat.
Proof. vm_compute. eexists. repeat split. Qed.

Example globLite_ex1 : globLite "app/assets/**/*" "app/assets/img/logo.png" = true.
Proof. reflexivity. Qed.

Example globLite_ex2 : globLite "app/assets/**/*" "app/assets/util.js" = true.
Proof. reflexivity. Qed.

Example globLite_ex3 : globLite "app/**/*.less" "app/assets/theme.less" = true.
Proof. reflexivity. Qed.

Example globLite_ex4 : globLite "app/index.html" "app/assets/util.js" = false.
Proof. reflexivity. Qed.

Example globLite_ex5 : globLite "app/**/*.less" "app/main.jsx" = false.
Proof. reflexivity. Qed.

Section Watch.

Variable options : Options.
Variable paths : Paths.
Variable globMatch : string → string → bool.
Variable inBundle : string → bool.

Abbreviation step := (step options paths).
Abbreviation fsChange := (fsChange paths globMatch inBundle).

(** C8, as the code has it: there is no classification.  On a change of a
    file every watcher whose pattern matches it calls back, and so does the
    bundler when the file is a module of the bundle; each callback of a
    watcher requests the task of that watcher.  A file that is both a
    module and an asset therefore sets off the bundler's handler and the
    asset watcher. *)
Theorem watchers_fire_independently (p : string) (now : Z) (w : Watcher) (st : State) :
  (EvWatch w now ∈ fsChange p now ↔ globMatch (watcherPattern paths w) p = true)
  ∧ (EvUpdate [p] now ∈ fsChange p now ↔ inBundle p = true)
  ∧ ∃ st', step st (EvWatch w now) = Some st'
      ∧ requestsOf (watcherTask w) (trace st')
        = S (requestsOf (watcherTask w) (trace st)).
Proof.
  split; [|split].
  - unfold fsChange, watchers. cbn [List.flat_map watcherPattern].
    destruct w; cbn [watcherPattern];
      destruct (inBundle p), (globMatch (paths_allLess paths) p),
        (globMatch (paths_assets paths) p), (globMatch (paths_html paths) p);
      cbn; rewrite ?elem_of_cons, ?elem_of_nil;
      (split; [intros H; first [reflexivity|intuition discriminate]
              |intros H; first [discriminate H|auto 10]]).
  - unfold fsChange, watchers. cbn [List.flat_map watcherPattern].
    destruct (inBundle p), (globMatch (paths_allLess paths) p),
      (globMatch (paths_assets paths) p), (globMatch (paths_html paths) p);
      cbn; rewrite ?elem_of_cons, ?elem_of_nil;
      (split; [intros H; first [reflexivity|intuition discriminate]
              |intros H; first [discriminate H|auto 10]]).
  - eexists. split; [reflexivity|]. unfold onWatch.
    rewrite trace_runOrQueue, requestsOf_app, requestsOf_requestEffects,
      (requestsOf_log options). lia.
Qed.

End Watch.

(** C8, refuted as stated: [app/assets/util.js] is a module of the bundle
    and matches the asset pattern.  Its change sets off both the bundler's
    handler and the asset watcher, and both a script rebuild and an asset
    copy are requested. *)
Lemma script_under_assets_triggers_both :
  let p := "/proj/app/assets/util.js" in
  let evs := fsChange (defaultPaths "/proj") (globFrom "/proj") (String.eqb p) p 7 in
  evs = [EvUpdate [p] 7; EvWatch WAssets 7]
  ∧ ∃ st', run noOptions (defaultPaths "/proj")
             (taskWatch noOptions (defaultPaths "/proj") initial) evs = Some st'
      ∧ requestsOf "html-js" (trace st') = 1%nat
      ∧ requestsOf "html-assets" (trace st') = 1%nat.
Proof. vm_compute. split; [reflexivity|]. eexists. repeat split. Qed.

(** ** The port of the serve task *)

(** C10, as the code has it: with neither [options.port] nor the port of
    the command line set the server listens on 4040, not on the 4000 of
    the documentation; an [options.port] that is truthy is taken whatever
    the command line says, and one that is falsy, such as 0, is passed
    over for the port of the command line or 4040. *)
Theorem serve_port_choice (options : Options) (envPort : value) :
  (opt_port options = VUndefined → envPort = VUndefined →
     servePort options envPort = VNum 4040 ∧ servePort options envPort ≠ VNum 4000)
  ∧ (truthy (opt_port options) = true → servePort options envPort = opt_port options)
  ∧ (truthy (opt_port options) = false →
       servePort options envPort = js_or envPort (VNum 4040)).
Proof.
  unfold servePort. split; [|split].
  - intros -> ->. by cbn.
  - intros Hp. unfold js_or. by rewrite Hp, Hp.
  - intros Hp. unfold js_or at 2. by rewrite Hp.
Qed.

(** C10, refuted as stated: [options.port] is given as 0, the command line
    asks for 8080, and the server listens on 8080. *)
Lemma port_zero_is_passed_over :
  servePort {| opt_silent := VUndefined; opt_port := VNum 0;
               opt_enableStringify := VUndefined; opt_disableBabel := VUndefined |}
    (VNum 8080)
  = VNum 8080.
Proof. reflexivity. Qed.

(** ** The theorems at concrete inputs *)



Lemma spurious_changes_filtered_witness :
  let opts := noOptions in
  let dp := defaultPaths "/proj" in
  let st := taskWatch opts dp initial in
  let noise := ["/proj/node_modules/a/index.js"] in
  let mixed := ["/proj/node_modules/a/index.js"; "/proj/app/main.jsx"] in
  let rc := PruneFailed "" "" 0 in
  bundlerInstance st = Some 0%nat
  ∧ liveWatchify 0 st = true
  ∧ (∀ f, f ∈ noise → inNodeModules f = true)
  ∧ (∃ f, f ∈ mixed ∧ inNodeModules f = false)
  ∧ batch opts dp noise 7 rc st = Some st
  ∧ ∃ st', batch opts dp mixed 7 rc st = Some st'
      ∧ requestsOf "html-js" (trace st') = (requestsOf "html-js" (trace st) + 1)%nat.
Proof.
  intros opts dp st noise mixed rc.
  assert (bundlerInstance st = Some 0%nat) as Hb by reflexivity.
  assert (liveWatchify 0 st = true) as Hl by reflexivity.
  assert (∀ f, f ∈ noise → inNodeModules f = true) as Hnoise.
  { intros f Hf. apply list_elem_of_singleton in Hf. subst f. reflexivity. }
  assert (∃ f, f ∈ mixed ∧ inNodeModules f = false) as Hmixed.
  { exists "/proj/app/main.jsx". split; [|reflexivity]. right. left. }
  split; [exact Hb|]. split; [exact Hl|]. split; [exact Hnoise|]. split; [exact Hmixed|].
  split.
  - exact (proj2 (proj1 (spurious_changes_filtered opts dp st 0 noise 7 rc Hb Hl) Hnoise)).
  - destruct (proj2 (spurious_changes_filtered opts dp st 0 mixed 7 rc Hb Hl) Hmixed)
      as (st' & Hbatch & Hreq & _).
    exists st'. split; [exact Hbatch|exact Hreq].
Defined.

Lemma manifest_detection_witness :
  let opts := noOptions in
  let dp := defaultPaths "/proj" in
  let st := taskWatch opts dp initial in
  let files := ["/proj/package.json"] in
  bundlerInstance st = Some 0%nat
  ∧ liveWatchify 0 st = true
  ∧ ∃ st', step opts dp st (EvUpdate files 7) = Some st'
      ∧ ((pendingPrune st' = S (pendingPrune st) ∧ bundlerInstance st' = None)
         ↔ ((∃ f, f ∈ files ∧ inNodeModules f = false)
            ∧ (∃ f, f ∈ files ∧ isPackageJson f = true))).
Proof.
  intros opts dp st files.
  assert (bundlerInstance st = Some 0%nat) as Hb by reflexivity.
  assert (liveWatchify 0 st = true) as Hl by reflexivity.
  split; [exact Hb|]. split; [exact Hl|].
  exact (proj1 (manifest_detection opts dp st 0 files 7 Hb Hl)).
Defined.

Lemma rebuild_observes_new_session_witness :
  let opts := noOptions in
  let dp := defaultPaths "/proj" in
  let files := ["/proj/package.json"] in
  let evs' := [EvPruneDone None "" 8; EvInstallDone None "" 9] in
  ∃ st st1 st2,
    run opts dp initial [EvTaskWatch] = Some st
    ∧ bundlerInstance st = Some 0%nat
    ∧ (∃ f, f ∈ files ∧ inNodeModules f = false)
    ∧ (∃ f, f ∈ files ∧ isPackageJson f = true)
    ∧ step opts dp st (EvUpdate files 7) = Some st1
    ∧ run opts dp st1 evs' = Some st2
    ∧ bundlerInstance st1 = None
    ∧ bundlerInstance st2 ≠ Some 0%nat
    ∧ bundles (trace st2) = [1%nat].
Proof.
  intros opts dp files evs'.
  set (st := taskWatch opts dp initial).
  destruct (step opts dp st (EvUpdate files 7)) as [st1|] eqn:Hstep;
    [|vm_compute in Hstep; discriminate Hstep].
  destruct (run opts dp st1 evs') as [st2|] eqn:Hrun';
    [|vm_compute in Hstep; injection Hstep as <-; vm_compute in Hrun'; discriminate Hrun'].
  assert (run opts dp initial [EvTaskWatch] = Some st) as Hrun by reflexivity.
  assert (bundlerInstance st = Some 0%nat) as Hb by reflexivity.
  assert (∃ f, f ∈ files ∧ inNodeModules f = false) as Hout.
  { exists "/proj/package.json". split; [left|reflexivity]. }
  assert (∃ f, f ∈ files ∧ isPackageJson f = true) as Hpkg.
  { exists "/proj/package.json". split; [left|reflexivity]. }
  destruct (rebuild_observes_new_session opts dp [EvTaskWatch] st 0 files 7 st1 evs' st2
              Hrun Hb Hout Hpkg Hstep Hrun') as (Hnone & _ & _ & Hneq & _).
  exists st, st1, st2. repeat (split; [assumption|]).
  vm_compute in Hstep. injection Hstep as <-. vm_compute in Hrun'. injection Hrun' as <-.
  reflexivity.
Defined.

Lemma serve_port_choice_witness :
  let given := {| opt_silent := VUndefined; opt_port := VNum 8000;
                  opt_enableStringify := VUndefined; opt_disableBabel := VUndefined |} in
  opt_port noOptions = VUndefined
  ∧ truthy (opt_port given) = true
  ∧ servePort noOptions VUndefined = VNum 4040
  ∧ servePort given (VNum 8080) = VNum 8000.
Proof.
  intros given. split; [reflexivity|]. split; [reflexivity|]. split.
  - exact (proj1 (proj1 (serve_port_choice noOptions VUndefined) eq_refl eq_refl)).
  - exact (proj1 (proj2 (serve_port_choice given (VNum 8080))) eq_refl).
Defined.

(** * Further properties *)

(** ** Characters and parts *)

Lemma contains_char c s : contains (String c "") s = hasChar c s.
Proof.
  unfold contains. induction s as [|a s IH]; [done|].
  cbn [String.index String.prefix hasChar]. destruct (ascii_dec c a) as [->|Hne].
  - rewrite Ascii.eqb_refl. by replace (String.prefix "" s) with true by (by destruct s).
  - destruct (Ascii.eqb_spec a c) as [->|_]; [done|]. cbn [orb]. rewrite <- IH.
    by destruct (String.index 0 (String c "") s).
Qed.

Lemma split_on_parts_hasChar c s part : part ∈ split_on c s → hasChar c part = false.
Proof.
  revert part. induction s as [|a s IH]; intros part; cbn [split_on].
  - by intros ->%list_elem_of_singleton.
  - destruct (Ascii.eqb a c) eqn:Hac.
    + intros [->|Hin]%elem_of_cons; [done|by apply IH].
    + destruct (split_on_cons c s) as (h & t & Hs). rewrite Hs in IH |- *.
      intros [->|Hin]%elem_of_cons.
      * cbn [hasChar]. rewrite Hac. apply IH. by left.
      * apply IH. by right.
Qed.

Lemma split_on_hasChar_false c s : hasChar c s = false → split_on c s = [s].
Proof.
  induction s as [|a s IH]; [done|]. cbn [hasChar split_on].
  intros [Hac Hs]%orb_false_iff. by rewrite Hac, IH.
Qed.

Lemma filter_elem_of {A} (f : A → bool) (l : list A) x :
  x ∈ List.filter f l ↔ x ∈ l ∧ f x = true.
Proof. rewrite !list_elem_of_In. apply List.filter_In. Qed.

Lemma filter_nil_iff {A} (f : A → bool) (l : list A) :
  List.filter f l = [] ↔ ∀ x, x ∈ l → f x = false.
Proof.
  induction l as [|a l IH]; simpl.
  - split; [by intros _ x ?%elem_of_nil|done].
  - destruct (f a) eqn:Ha.
    + split; [done|]. intros Hall. specialize (Hall a). rewrite Ha in Hall.
      discriminate Hall. by left.
    + rewrite IH. split.
      * intros Hall x [->|Hx]%elem_of_cons; [done|by apply Hall].
      * intros Hall x Hx. apply Hall. by right.
Qed.

(** ** topDirectory *)

(** [topDirectory] returns one of the parts of the path, and one that holds
    neither a [*] nor a separator; it returns [undefined] exactly when every
    part of the path holds a [*]. *)
Theorem topDirectory_result (p : string) :
  (∀ d, topDirectory p = Some d →
     d ∈ split_on "/" p ∧ hasStar d = false ∧ hasChar "/" d = false)
  ∧ (topDirectory p = None ↔ ∀ part, part ∈ split_on "/" p → hasStar part = true).
Proof.
  unfold topDirectory. split.
  - intros d [l' Hl]%last_Some.
    assert (d ∈ List.filter (fun part => negb (hasStar part)) (split_on "/" p)) as Hd.
    { rewrite Hl. apply elem_of_app. right. by left. }
    apply filter_elem_of in Hd as [Hin Hstar]. split; [done|]. split.
    + by apply negb_true_iff.
    + by eapply split_on_parts_hasChar.
  - rewrite last_None, filter_nil_iff. split; intros Hall part Hin.
    + specialize (Hall part Hin). by apply negb_false_iff.
    + apply negb_false_iff. by apply Hall.
Qed.

(** A tail of wildcard parts does not count: behind a directory, a glob
    whose parts all hold a [*] is passed over, and the answer is that of the
    directory alone. *)
Theorem topDirectory_glob_tail (dir g : string) :
  (∀ part, part ∈ split_on "/" g → hasStar part = true) →
  topDirectory (dir +:+ "/" +:+ g) = topDirectory dir.
Proof.
  intros Hall. unfold topDirectory.
  change (dir +:+ "/" +:+ g) with (dir +:+ String "/" g).
  rewrite split_on_app_sep, List.filter_app.
  replace (List.filter (fun part => negb (hasStar part)) (split_on "/" g)) with (@nil string).
  - by rewrite app_nil_r.
  - symmetry. apply filter_nil_iff. intros part Hin. apply negb_false_iff. by apply Hall.
Qed.

(** A path that ends with the separator has an empty last part, and that is
    the answer: the empty string, not the name of the directory. *)
Theorem topDirectory_trailing_separator (dir : string) :
  topDirectory (dir +:+ "/") = Some "".
Proof.
  unfold topDirectory. change (dir +:+ "/") with (dir +:+ String "/" "").
  rewrite split_on_app_sep, List.filter_app. cbn. apply last_snoc.
Qed.

Example topDirectory_ex1 : topDirectory "/foo/bar/asdf" = Some "asdf".
Proof. reflexivity. Qed.

Example topDirectory_ex2 : topDirectory "app/assets/**/*" = Some "assets".
Proof. reflexivity. Qed.

Example topDirectory_ex3 : topDirectory "*/*.png" = None.
Proof. reflexivity. Qed.

(** ** The file name of the bundle *)

Lemma string_length_app (s t : string) :
  String.length (s +:+ t) = (String.length s + String.length t)%nat.
Proof. induction s as [|a s IH]; [done|]. rewrite append_cons. cbn. by rewrite IH. Qed.

Lemma replaceJsx_suffix stem : replaceJsx (stem +:+ ".jsx") = (stem +:+ ".js")%string.
Proof.
  induction stem as [|a stem IH]; [done|]. rewrite !append_cons. cbn [replaceJsx].
  destruct (String.eqb_spec (String a (stem +:+ ".jsx")) ".jsx") as [Heq|_].
  - apply (f_equal String.length) in Heq. cbn in Heq. rewrite string_length_app in Heq.
    cbn in Heq. lia.
  - by rewrite IH.
Qed.

Lemma endsWith_inv suffix s :
  endsWith suffix s = true → ∃ stem, s = (stem +:+ suffix)%string.
Proof.
  induction s as [|a s IH]; cbn [endsWith].
  - intros [Heq%String.eqb_eq|?]%orb_true_iff; [|done]. exists "". by rewrite <- Heq.
  - intros [Heq%String.eqb_eq|Hs]%orb_true_iff.
    + exists "". by rewrite <- Heq.
    + destruct (IH Hs) as [stem ->]. by exists (String a stem).
Qed.

Lemma replaceJsx_other s : endsWith ".jsx" s = false → replaceJsx s = s.
Proof.
  induction s as [|a s IH]; [done|]. cbn [endsWith replaceJsx].
  intros [Heq Hs]%orb_false_iff. rewrite Heq. by rewrite IH.
Qed.

Lemma endsWith_js_not_jsx stem : endsWith ".jsx" (stem +:+ ".js") = false.
Proof.
  induction stem as [|a stem IH]; [done|]. rewrite append_cons. cbn [endsWith].
  rewrite IH, orb_false_r.
  destruct (String.eqb_spec (String a (stem +:+ ".js")) ".jsx") as [Heq|_]; [|done].
  injection Heq as _ Heq. destruct stem as [|b stem]; [done|].
  apply (f_equal String.length) in Heq. rewrite append_cons in Heq. cbn in Heq.
  rewrite string_length_app in Heq. cbn in Heq. lia.
Qed.

Lemma endsWith_replaceJsx s : endsWith ".jsx" (replaceJsx s) = false.
Proof.
  destruct (endsWith ".jsx" s) eqn:Hs.
  - destruct (endsWith_inv _ _ Hs) as [stem ->].
    rewrite replaceJsx_suffix. apply endsWith_js_not_jsx.
  - by rewrite replaceJsx_other.
Qed.

Lemma hasChar_app c (s t : string) :
  hasChar c (s +:+ t) = (hasChar c s || hasChar c t)%bool.
Proof.
  induction s as [|a s IH]; [done|]. rewrite append_cons. cbn [hasChar].
  by rewrite IH, orb_assoc.
Qed.

Lemma hasChar_replaceJsx s : hasChar "/" s = false → hasChar "/" (replaceJsx s) = false.
Proof.
  intros Hs. destruct (endsWith ".jsx" s) eqn:He.
  - destruct (endsWith_inv _ _ He) as [stem ->]. rewrite replaceJsx_suffix.
    rewrite hasChar_app in Hs |- *. apply orb_false_iff in Hs as [-> _]. done.
  - by rewrite replaceJsx_other.
Qed.

Lemma hasChar_basename p : hasChar "/" (basename p) = false.
Proof.
  unfold basename.
  destruct (List.filter nonempty (split_on "/" p)) as [|x l] eqn:Hf; [done|].
  assert (List.last (x :: l) "" ∈ List.filter nonempty (split_on "/" p)) as Hin.
  { rewrite Hf. apply list_elem_of_In.
    destruct (@exists_last _ (x :: l)) as (l' & y & Hl); [done|].
    rewrite Hl, List.last_last. apply in_or_app. right. by left. }
  apply filter_elem_of in Hin as [Hin _]. by eapply split_on_parts_hasChar.
Qed.

Lemma basename_last dir x :
  hasChar "/" x = false → x ≠ "" → basename (dir +:+ "/" +:+ x) = x.
Proof.
  intros Hx Hne. unfold basename. change (dir +:+ "/" +:+ x) with (dir +:+ String "/" x).
  rewrite split_on_app_sep, (split_on_hasChar_false "/" x), List.filter_app by done.
  cbn [List.filter]. replace (nonempty x) with true.
  - apply List.last_last.
  - symmetry. unfold nonempty. apply negb_true_iff. by apply String.eqb_neq.
Qed.

(** The bundle is named by [options.jsOut] when that is truthy.  Otherwise,
    an empty [jsOut] included, it is named after the entry point: the name
    has no directory part and never ends in [.jsx]. *)
Theorem jsFileName_choice (jsOut : value) (paths : Paths) :
  (truthy jsOut = true → jsFileName jsOut paths = jsOut)
  ∧ (truthy jsOut = false →
       ∃ fn, jsFileName jsOut paths = VStr fn
         ∧ endsWith ".jsx" fn = false
         ∧ hasChar "/" fn = false).
Proof.
  unfold jsFileName, js_or. split; intros ->; [done|].
  eexists. split; [done|]. split; [apply endsWith_replaceJsx|].
  apply hasChar_replaceJsx, hasChar_basename.
Qed.

(** An entry point [stem.jsx] in any directory gives the bundle [stem.js],
    and an entry point that does not end in [.jsx] keeps its name. *)
Theorem jsFileName_of_entry (jsOut : value) (paths : Paths) (dir name : string) :
  truthy jsOut = false →
  hasChar "/" name = false →
  name ≠ "" →
  paths_js paths = (dir +:+ "/" +:+ name)%string →
  (∀ stem, name = (stem +:+ ".jsx")%string →
     jsFileName jsOut paths = VStr (stem +:+ ".js"))
  ∧ (endsWith ".jsx" name = false → jsFileName jsOut paths = VStr name).
Proof.
  intros Hf Hname Hne Hjs. unfold jsFileName, js_or. rewrite Hf, Hjs, basename_last by done.
  split.
  - intros stem ->. by rewrite replaceJsx_suffix.
  - intros He. by rewrite replaceJsx_other.
Qed.

(** ** The output of a child process *)

Lemma length_pos_nonempty s : (0 <? String.length s)%nat = nonempty s.
Proof. by destruct s. Qed.

Lemma stripPrefix_Some p : ∀ l r, stripPrefix p l = Some r → l = p ++ r.
Proof.
  induction p as [|a p IH]; intros l r; cbn.
  - by intros [= ->].
  - destruct l as [|b l]; [done|]. destruct (Ascii.eqb_spec a b) as [->|_]; [|done].
    intros H. by rewrite (IH _ _ H).
Qed.

Lemma stripPrefix_app p r : stripPrefix p (p ++ r) = Some r.
Proof. induction p as [|a p IH]; cbn; [done|]. by rewrite Ascii.eqb_refl. Qed.

Lemma stripAny_Some ps l r : stripAny ps l = Some r → ∃ p, p ∈ ps ∧ l = p ++ r.
Proof.
  induction ps as [|p ps IH]; cbn; [done|].
  destruct (stripPrefix p l) as [r'|] eqn:Hp.
  - intros [= ->]. exists p. split; [by left|by apply stripPrefix_Some].
  - intros H. destruct (IH H) as (q & Hq & Hl). exists q. split; [by right|done].
Qed.

Lemma stripAny_None ps l p r : stripAny ps l = None → p ∈ ps → l ≠ p ++ r.
Proof.
  induction ps as [|q ps IH]; cbn; [by intros _ ?%elem_of_nil|].
  destruct (stripPrefix q l) as [r'|] eqn:Hq; [done|].
  intros Hn [->|Hp]%elem_of_cons; [|by apply IH].
  intros ->. by rewrite stripPrefix_app in Hq.
Qed.

Lemma stripAny_prefix ps l x : stripAny ps (l ++ x) = None → stripAny ps l = None.
Proof.
  intros Hn. destruct (stripAny ps l) as [r|] eqn:Hl; [|done].
  destruct (stripAny_Some _ _ _ Hl) as (p & Hp & ->).
  destruct (stripAny_None ps ((p ++ r) ++ x) p (r ++ x) Hn Hp). by rewrite app_assoc.
Qed.

Lemma stripAll_fixed ps n l : stripAny ps l = None → stripAll ps n l = l.
Proof. intros Hn. destruct n; cbn; [done|]. by rewrite Hn. Qed.

Lemma stripAll_spec ps :
  Forall (fun p => p ≠ []) ps →
  ∀ fuel l, (length l ≤ fuel)%nat →
    ∃ w, l = w ++ stripAll ps fuel l ∧ stripAny ps (stripAll ps fuel l) = None.
Proof.
  intros Hps. induction fuel as [|n IH]; intros l Hlen; cbn.
  - destruct l; [|cbn in Hlen; lia]. exists []. split; [done|].
    destruct (stripAny ps []) as [r|] eqn:Hr; [|done].
    destruct (stripAny_Some _ _ _ Hr) as (p & Hp & Heq).
    rewrite Forall_forall in Hps. destruct (Hps p Hp).
    symmetry in Heq. by apply app_eq_nil in Heq as [-> _].
  - destruct (stripAny ps l) as [r|] eqn:Hr.
    + destruct (stripAny_Some _ _ _ Hr) as (p & Hp & ->).
      rewrite Forall_forall in Hps. pose proof (Hps p Hp) as Hne.
      destruct (IH r) as (w & Hw & Hn).
      { rewrite length_app in Hlen. destruct p; [done|]. cbn in Hlen. lia. }
      exists (p ++ w). split; [|done]. rewrite <- app_assoc. by rewrite <- Hw.
    + exists []. by split.
Qed.

Lemma whiteSpace_nonempty : Forall (fun p : list ascii => p ≠ []) whiteSpace.
Proof. vm_compute. repeat constructor; discriminate. Qed.

Lemma whiteSpace_rev_nonempty :
  Forall (fun p : list ascii => p ≠ []) (List.map (@rev ascii) whiteSpace).
Proof. vm_compute. repeat constructor; discriminate. Qed.

Lemma trim_left_spec l :
  ∃ w, l = w ++ trim_left l ∧ stripAny whiteSpace (trim_left l) = None.
Proof. apply stripAll_spec; [apply whiteSpace_nonempty|done]. Qed.

Lemma trim_right_spec l :
  ∃ w, l = trim_right l ++ w
       ∧ stripAny (List.map (@rev ascii) whiteSpace) (rev (trim_right l)) = None.
Proof.
  unfold trim_right.
  destruct (stripAll_spec _ whiteSpace_rev_nonempty (length l) (rev l)) as (w & Hw & Hn).
  { by rewrite length_rev. }
  exists (rev w). rewrite rev_involutive. split; [|done].
  rewrite <- rev_app_distr, <- Hw. by rewrite rev_involutive.
Qed.

Lemma trim_left_fixed l : stripAny whiteSpace l = None → trim_left l = l.
Proof. apply stripAll_fixed. Qed.

Lemma trim_right_fixed l :
  stripAny (List.map (@rev ascii) whiteSpace) (rev l) = None → trim_right l = l.
Proof. intros Hn. unfold trim_right. rewrite stripAll_fixed by done. apply rev_involutive. Qed.

Lemma trim_list_idem l :
  let t := trim_right (trim_left l) in trim_right (trim_left t) = t.
Proof.
  intros t. destruct (trim_left_spec l) as (w & _ & Hl).
  destruct (trim_right_spec (trim_left l)) as (x & Hx & Hr). fold t in Hx, Hr.
  rewrite Hx in Hl. apply stripAny_prefix in Hl.
  rewrite (trim_left_fixed t Hl). by apply trim_right_fixed.
Qed.

Lemma trim_idem s : trim (trim s) = trim s.
Proof.
  unfold trim. rewrite list_ascii_of_string_of_list_ascii. f_equal. apply trim_list_idem.
Qed.

Lemma hasChar_list c s : hasChar c s = false ↔ c ∉ list_ascii_of_string s.
Proof.
  induction s as [|a s IH]; cbn.
  - split; [by intros _ ?%elem_of_nil|done].
  - rewrite orb_false_iff, not_elem_of_cons, IH.
    destruct (Ascii.eqb_spec a c); split; intros [? ?]; split; congruence.
Qed.

Lemma hasChar_trim c s : hasChar c s = false → hasChar c (trim s) = false.
Proof.
  rewrite !hasChar_list. unfold trim. rewrite list_ascii_of_string_of_list_ascii.
  intros Hc Hin. apply Hc.
  destruct (trim_left_spec (list_ascii_of_string s)) as (w & Hw & _).
  destruct (trim_right_spec (trim_left (list_ascii_of_string s))) as (x & Hx & _).
  rewrite Hw, Hx, !elem_of_app. auto.
Qed.

Lemma muted_log options l st :
  muted options (gutil_log options l st) = muted options st.
Proof. unfold gutil_log. by destruct (muted options st) eqn:Hm. Qed.

Lemma stdoutToLog_parts options parts : ∀ st,
  trace (fold_left
           (fun st o =>
              let trimmed := trim o in
              if (0 <? String.length trimmed)%nat
              then gutil_log options [Txt Plain (trim o)] st else st)
           parts st)
  = trace st
    ++ (if muted options st then []
        else (fun l => ELog [Txt Plain l]) <$> List.filter nonempty (trim <$> parts)).
Proof.
  induction parts as [|o parts IH]; intros st; cbn [fold_left fmap list_fmap List.filter].
  - destruct (muted _ _); by rewrite app_nil_r.
  - rewrite IH. cbn zeta. rewrite length_pos_nonempty.
    destruct (nonempty (trim o)); [|done].
    rewrite muted_log, (trace_log options).
    destruct (muted _ _); [by rewrite app_nil_r|]. by rewrite <- app_assoc.
Qed.

Lemma gulp_log options l st :
  doneCallback (gutil_log options l st) = doneCallback st
  ∧ building (gutil_log options l st) = building st
  ∧ logMuted (gutil_log options l st) = logMuted st.
Proof. unfold gutil_log. by destruct (muted _ _). Qed.

Lemma gulp_stdoutToLog options out st :
  doneCallback (stdoutToLog options out st) = doneCallback st
  ∧ building (stdoutToLog options out st) = building st
  ∧ logMuted (stdoutToLog options out st) = logMuted st.
Proof.
  unfold stdoutToLog. generalize (split_on newline out) as parts.
  intros parts. revert st. induction parts as [|o parts IH]; intros st; simpl; [done|].
  destruct (0 <? String.length (trim o))%nat; [|apply IH].
  destruct (IH (gutil_log options [Txt Plain (trim o)] st)) as (-> & -> & ->).
  apply gulp_log.
Qed.

(** [stdoutToLog] writes one line for each line of the output that is not
    blank, in order and trimmed, and changes nothing else; what it writes is
    never empty, never begins or ends with white space and never holds a
    line break.  Blank output, and any output while the log is muted,
    writes nothing. *)
Theorem stdoutToLog_writes_trimmed_lines (options : Options) (stdout : string)
    (st : State) :
  let lines := List.filter nonempty (trim <$> split_on newline stdout) in
  let st' := stdoutToLog options stdout st in
  trace st'
  = trace st
    ++ (if muted options st then []
        else (fun l => ELog [Txt Plain l]) <$> lines)
  ∧ runningTasks st' = runningTasks st
  ∧ inflight st' = inflight st
  ∧ doneCallback st' = doneCallback st
  ∧ building st' = building st
  ∧ bundlerInstance st' = bundlerInstance st
  ∧ sessions st' = sessions st
  ∧ pendingPrune st' = pendingPrune st
  ∧ pendingInstall st' = pendingInstall st
  ∧ logMuted st' = logMuted st
  ∧ Forall (fun l => l ≠ "" ∧ trim l = l ∧ hasChar newline l = false) lines.
Proof.
  intros lines st'. subst st'.
  destruct (sameTasks_stdoutToLog options stdout st) as [Hrt Hin].
  destruct (quiet_stdoutToLog options stdout st) as (Hb & Hs & _).
  destruct (pending_stdoutToLog options stdout st) as (Hp & Hi & _).
  destruct (gulp_stdoutToLog options stdout st) as (Hd & Hbu & Hm).
  split; [apply stdoutToLog_parts|]. repeat (split; [assumption|]).
  apply Forall_forall. intros l Hl. subst lines.
  apply filter_elem_of in Hl as [Hl Hne]. apply list_elem_of_fmap in Hl as (o & -> & Ho).
  split; [|split].
  - intros Heq. rewrite Heq in Hne. done.
  - apply trim_idem.
  - apply hasChar_trim. by eapply split_on_parts_hasChar.
Qed.

(** A line of no-break spaces, U+00A0, is blank. *)
Example trim_ex2 :
  let nbsp := String (ascii_of_nat 194) (String (ascii_of_nat 160) "") in
  trim (nbsp +:+ " a" +:+ nbsp) = "a" ∧ trim (nbsp +:+ nbsp) = "".
Proof. vm_compute. by split. Qed.

Example stdoutToLog_ex :
  logs (trace (stdoutToLog noOptions
                 (String newline ("  added 3 packages  " +:+ String newline
                    ("   " +:+ String newline "done")))
                 initial))
  = [[Txt Plain "added 3 packages"]; [Txt Plain "done"]].
Proof. vm_compute. reflexivity. Qed.

Section Requests.

Variable options : Options.
Variable paths : Paths.

Abbreviation runOrQueue := (runOrQueue options paths).
Abbreviation onTaskDone := (onTaskDone options paths).
Abbreviation step := (step options paths).
Abbreviation run := (run options paths).

(** ** The table and the executing runs *)

(** In every state the event loop can reach, a task that has a run in the
    orchestration has an entry in [runningTasks]: without an entry no run
    of the task is in the orchestration, with an entry at most one is.  An
    entry does not tell that a run is there: it stays when gulp never calls
    the callback that would remove it. *)
Theorem entry_covers_running (evs : list Event) (st : State) (name : string) :
  run initial evs = Some st →
  (activeRuns name st
   ≤ match runningTasks st !! name with Some _ => 1 | None => 0 end)%nat.
Proof.
  intros Hrun.
  assert (coherent st) as Hc.
  { eapply coherent_run; [apply coherent_initial|exact Hrun]. }
  destruct (runningTasks st !! name) as [b|] eqn:Hl.
  - by apply activeRuns_coherent.
  - unfold activeRuns. rewrite filter_name_absent; [done|].
    intros Hin. apply Hc in Hin. rewrite Hl in Hin. by destruct Hin.
Qed.


(** ** No request is lost *)

Lemma unserved_app name tr tl :
  unserved name (tr ++ tl) = fold_left (servedStep name) tl (unserved name tr).
Proof. unfold unserved. apply fold_left_app. Qed.

Lemma servedStep_internal name tl : ∀ b,
  forallb internal tl = true → fold_left (servedStep name) tl b = b.
Proof.
  induction tl as [|e tl IH]; intros b; [done|]. cbn [forallb fold_left].
  intros [He Htl]%andb_true_iff. rewrite IH by done. by destruct e.
Qed.

Lemma neutral_refl st : neutral st st.
Proof. split; [done|]. split; [done|]. exists []. by rewrite app_nil_r. Qed.

Lemma neutral_trans st1 st2 st3 : neutral st1 st2 → neutral st2 st3 → neutral st1 st3.
Proof.
  intros (Hr1 & Hi1 & tl1 & Ht1 & Hn1) (Hr2 & Hi2 & tl2 & Ht2 & Hn2).
  split; [congruence|]. split; [congruence|]. exists (tl1 ++ tl2).
  split; [by rewrite Ht2, Ht1, app_assoc|]. by rewrite forallb_app, Hn1, Hn2.
Qed.

Lemma neutral_emit e st : internal e = true → neutral st (emit e st).
Proof.
  intros He. split; [done|]. split; [done|]. exists [e]. split; [done|].
  cbn. by rewrite He.
Qed.

Lemma neutral_same st st' :
  runningTasks st' = runningTasks st → inflight st' = inflight st →
  trace st' = trace st → neutral st st'.
Proof.
  intros Hr Hi Ht. split; [done|]. split; [done|]. exists []. by rewrite app_nil_r.
Qed.

Lemma neutral_log l st : neutral st (gutil_log options l st).
Proof.
  unfold gutil_log. destruct (muted _ _); [apply neutral_refl|by apply neutral_emit].
Qed.

Lemma neutral_stdoutToLog out st : neutral st (stdoutToLog options out st).
Proof.
  unfold stdoutToLog. generalize (split_on newline out) as parts.
  intros parts. revert st. induction parts as [|o parts IH]; intros st; simpl.
  - apply neutral_refl.
  - eapply neutral_trans; [|apply IH].
    destruct (0 <? String.length (trim o))%nat; [apply neutral_log|apply neutral_refl].
Qed.

Lemma neutral_taskJs st : neutral st (taskJs options paths st).
Proof.
  unfold taskJs, bundler. destruct (bundlerInstance st) as [sid|].
  - by apply neutral_emit.
  - eapply neutral_trans; [|by apply neutral_emit]. by apply neutral_same.
Qed.

Lemma neutral_closeSession sid st : neutral st (closeSession sid st).
Proof. unfold closeSession. destruct (sessions st !! sid); by apply neutral_same. Qed.

Lemma kept_neutral name st st' : neutral st st' → kept name st → kept name st'.
Proof.
  intros (Hr & _ & tl & Ht & Hn) Hk. unfold kept.
  rewrite Ht, unserved_app, servedStep_internal, Hr by done. exact Hk.
Qed.

Lemma kept_start name n st : kept name st → kept name (emit (EStart n) st).
Proof.
  intros Hk. unfold kept. cbn [trace emit runningTasks]. rewrite unserved_app.
  cbn. destruct (String.eqb n name); [done|exact Hk].
Qed.

Lemma kept_runOrQueue name n now st : kept name st → kept name (runOrQueue n now st).
Proof.
  intros Hk. unfold kept. rewrite trace_runOrQueue, unserved_app.
  destruct (String.eqb_spec n name) as [->|Hne].
  - unfold requestEffects. destruct (runningTasks st !! name) as [b|] eqn:Hl.
    + intros _. rewrite runOrQueue_running by eauto. cbn. apply lookup_insert_eq.
    + destruct (runsJs name); cbn; by rewrite String.eqb_refl.
  - rewrite runOrQueue_other by done.
    assert (fold_left (servedStep name) (requestEffects options paths n st)
              (unserved name (trace st)) = unserved name (trace st)) as ->; [|exact Hk].
    apply String.eqb_neq in Hne. unfold requestEffects.
    destruct (runningTasks st !! n); [|destruct (runsJs n)]; cbn; by rewrite Hne.
Qed.

Lemma kept_onTaskDone name r err now now2 st :
  kept name st → kept name (onTaskDone r err now now2 st).
Proof.
  intros Hk. unfold onTaskDone, outputBuildCompleteMessage.
  set (st1 := gutil_log options _ st).
  assert (kept name st1) as Hk1 by (eapply kept_neutral; [apply neutral_log|done]).
  assert (runningTasks st1 = runningTasks st) as Hr by apply (sameTasks_log options).
  set (st2 := set_runningTasks (delete (run_name r) (runningTasks st1)) st1).
  destruct (String.eqb_spec (run_name r) name) as [Heq|Hne].
  - destruct (runningTasks st1 !! run_name r) as [[|]|] eqn:Hflag.
    + unfold kept. rewrite trace_runOrQueue, unserved_app. unfold requestEffects.
      assert (runningTasks st2 !! run_name r = None) as -> by apply lookup_delete_eq.
      rewrite Heq. destruct (runsJs name); cbn; by rewrite String.eqb_refl.
    + unfold kept. change (trace st2) with (trace st1). intros Hu.
      specialize (Hk1 Hu). rewrite <- Heq in Hk1. congruence.
    + unfold kept. change (trace st2) with (trace st1). intros Hu.
      specialize (Hk1 Hu). rewrite <- Heq in Hk1. congruence.
  - assert (kept name st2) as Hk2.
    { unfold kept. change (trace st2) with (trace st1). intros Hu.
      subst st2. cbn [runningTasks set_runningTasks].
      rewrite lookup_delete_ne by done. by apply Hk1. }
    destruct (runningTasks st1 !! run_name r) as [[|]|]; [|done..].
    by apply kept_runOrQueue.
Qed.

Lemma kept_gulpGoOn name err now now2 st :
  kept name st → kept name (gulpGoOn options paths err now now2 st).
Proof.
  intros Hk. unfold gulpGoOn, gulpStop. destruct err as [e|].
  - cbn [doneCallback set_building set_inflight].
    destruct (doneCallback st) as [[|r]|]; [exact Hk| |exact Hk].
    apply kept_onTaskDone. exact Hk.
  - destruct (orchestrationOver st); [|exact Hk].
    destruct (doneCallback st) as [[|r]|]; [exact Hk| |exact Hk].
    by apply kept_onTaskDone.
Qed.

Lemma kept_rebundleJs name now st : kept name st → kept name (rebundleJs options paths now st).
Proof.
  intros Hk. apply kept_runOrQueue. eapply kept_neutral; [apply neutral_log|done].
Qed.

Lemma kept_step name st ev st' : kept name st → step st ev = Some st' → kept name st'.
Proof.
  intros Hk Hstep. destruct ev; simpl in Hstep.
  - injection Hstep as <-. eapply kept_neutral; [apply neutral_taskJs|done].
  - injection Hstep as <-. unfold taskWatch, bundler. cbn [bundlerInstance set_watchJs].
    destruct (bundlerInstance st); apply kept_start;
      (eapply kept_neutral; [|exact Hk]); by apply neutral_same.
  - injection Hstep as <-. apply kept_runOrQueue.
    eapply kept_neutral; [apply neutral_log|done].
  - destruct (bundlerInstance st) as [sid|] eqn:Hb; [|done].
    destruct (liveWatchify sid st); [|done].
    unfold onUpdate in Hstep. rewrite Hb in Hstep.
    destruct (_ =? _)%nat; [by injection Hstep as <-|].
    destruct (0 <? _)%nat; injection Hstep as <-.
    + eapply kept_neutral; [|exact Hk]. unfold execPrune.
      eapply neutral_trans; [|by apply neutral_same].
      eapply neutral_trans; [|by apply (neutral_emit (EExec "npm prune"))].
      eapply neutral_trans; [|apply neutral_log].
      eapply neutral_trans; [|by apply neutral_same].
      eapply neutral_trans; [|apply neutral_closeSession].
      eapply neutral_trans; by apply neutral_emit.
    + apply kept_rebundleJs. eapply kept_neutral; [apply neutral_log|done].
  - destruct (pendingPrune st) as [|n]; [done|]. injection Hstep as <-.
    set (st0 := set_pending n (pendingInstall st) st).
    assert (kept name st0) as Hk0 by (eapply kept_neutral; [|exact Hk]; by apply neutral_same).
    unfold onPruneDone. destruct err as [e|].
    + apply kept_rebundleJs. eapply kept_neutral; [apply neutral_log|done].
    + eapply kept_neutral; [|exact Hk0]. unfold execInstall.
      eapply neutral_trans; [|by apply neutral_same].
      eapply neutral_trans; [|by apply (neutral_emit (EExec "npm install"))].
      eapply neutral_trans; [|apply neutral_log].
      destruct (nonempty stdout); [apply neutral_stdoutToLog|apply neutral_refl].
  - destruct (pendingInstall st) as [|n]; [done|]. injection Hstep as <-.
    set (st0 := set_pending (pendingPrune st) n st).
    assert (kept name st0) as Hk0 by (eapply kept_neutral; [|exact Hk]; by apply neutral_same).
    unfold onInstallDone. destruct err as [e|]; apply kept_rebundleJs.
    + eapply kept_neutral; [apply neutral_log|done].
    + eapply kept_neutral; [apply neutral_log|].
      eapply kept_neutral; [|exact Hk0].
      destruct (nonempty stdout); [apply neutral_stdoutToLog|apply neutral_refl].
  - destruct (inflight st !! i) as [r|]; [|done]. injection Hstep as <-.
    apply kept_gulpGoOn. exact Hk.
  - destruct (building st); [|done]. injection Hstep as <-.
    apply kept_gulpGoOn. exact Hk.
  - injection Hstep as <-. exact Hk.
Qed.

Lemma kept_run name evs : ∀ st st', kept name st → run st evs = Some st' → kept name st'.
Proof.
  induction evs as [|ev evs IH]; intros st st' Hk Hrun; simpl in Hrun.
  - by injection Hrun as <-.
  - destruct (step st ev) as [st1|] eqn:Hstep; [|done].
    eapply IH; [|exact Hrun]. by eapply kept_step.
Qed.

(** ** A task whose callback gulp dropped *)

Lemma settled_refl st : settled st st.
Proof. by split. Qed.

Lemma settled_trans st1 st2 st3 : settled st1 st2 → settled st2 st3 → settled st1 st3.
Proof.
  intros (Hr1 & Hd1 & Hs1) (Hr2 & Hd2 & Hs2).
  split; [congruence|]. split; [congruence|]. intros name. by rewrite Hs2.
Qed.

Lemma settled_same st st' :
  runningTasks st' = runningTasks st → doneCallback st' = doneCallback st →
  trace st' = trace st → settled st st'.
Proof. intros Hr Hd Ht. split; [done|]. split; [done|]. intros name. by rewrite Ht. Qed.

Lemma settled_emit e st : internal e = true → settled st (emit e st).
Proof.
  intros He. split; [done|]. split; [done|]. intros name.
  cbn [trace emit]. rewrite starts_app. destruct e; cbn in *; (done || lia).
Qed.

Lemma settled_log l st : settled st (gutil_log options l st).
Proof.
  unfold gutil_log. destruct (muted _ _); [apply settled_refl|by apply settled_emit].
Qed.

Lemma settled_stdoutToLog out st : settled st (stdoutToLog options out st).
Proof.
  unfold stdoutToLog. generalize (split_on newline out) as parts.
  intros parts. revert st. induction parts as [|o parts IH]; intros st; simpl.
  - apply settled_refl.
  - eapply settled_trans; [|apply IH].
    destruct (0 <? String.length (trim o))%nat; [apply settled_log|apply settled_refl].
Qed.

Lemma settled_closeSession sid st : settled st (closeSession sid st).
Proof. unfold closeSession. destruct (sessions st !! sid); by apply settled_same. Qed.

Lemma orphaned_settled name st st' :
  settled st st' → orphaned name st →
  orphaned name st' ∧ starts name (trace st') = starts name (trace st).
Proof.
  intros (Hr & Hd & Hs) [Hsome Hcb]. unfold orphaned. rewrite Hr, Hd. by repeat split.
Qed.

Lemma starts_requestEffects_other name n st :
  n ≠ name → starts name (requestEffects options paths n st) = 0%nat.
Proof.
  intros Hne%String.eqb_neq. unfold requestEffects, starts.
  destruct (runningTasks st !! n); [|destruct (runsJs n)]; cbn; by rewrite ?Hne.
Qed.

Lemma orphaned_runOrQueue name n now st :
  orphaned name st →
  orphaned name (runOrQueue n now st)
  ∧ starts name (trace (runOrQueue n now st)) = starts name (trace st).
Proof.
  intros [Hsome Hcb]. rewrite trace_runOrQueue, starts_app.
  destruct (String.eqb_spec n name) as [->|Hne].
  - rewrite starts_requestEffects. destruct Hsome as [b Hb]. rewrite Hb.
    rewrite runOrQueue_running by eauto. split; [|lia]. split.
    + cbn. rewrite lookup_insert_eq. eauto.
    + exact Hcb.
  - rewrite starts_requestEffects_other by done. split; [|lia]. split.
    + by rewrite runOrQueue_other.
    + intros r [Hr|Hr]%doneCallback_runOrQueue; [by apply Hcb|congruence].
Qed.

Lemma orphaned_onTaskDone name r err now now2 st :
  run_name r ≠ name → orphaned name st →
  orphaned name (onTaskDone r err now now2 st)
  ∧ starts name (trace (onTaskDone r err now now2 st)) = starts name (trace st).
Proof.
  intros Hne Ho. unfold onTaskDone, outputBuildCompleteMessage.
  set (st1 := gutil_log options _ st).
  destruct (orphaned_settled name st st1 (settled_log _ st) Ho) as [[Hsome1 Hcb1] Hs1].
  set (st2 := set_runningTasks (delete (run_name r) (runningTasks st1)) st1).
  assert (orphaned name st2) as Ho2.
  { split; [|exact Hcb1]. subst st2. cbn. by rewrite lookup_delete_ne. }
  assert (starts name (trace st2) = starts name (trace st)) as Hs2 by exact Hs1.
  destruct (runningTasks st1 !! run_name r) as [[|]|]; [|done..].
  destruct (orphaned_runOrQueue name (run_name r) now2 st2 Ho2) as [Ho3 Hs3].
  split; [exact Ho3|congruence].
Qed.

Lemma orphaned_gulpGoOn name err now now2 st :
  orphaned name st →
  orphaned name (gulpGoOn options paths err now now2 st)
  ∧ starts name (trace (gulpGoOn options paths err now now2 st)) = starts name (trace st).
Proof.
  intros Ho.
  assert (∀ st0, orphaned name st0 →
            orphaned name (gulpStop options paths err now now2 st0)
            ∧ starts name (trace (gulpStop options paths err now now2 st0))
              = starts name (trace st0)) as Hstop.
  { intros st0 Ho0. unfold gulpStop.
    destruct (doneCallback st0) as [[|r]|] eqn:Hcb0; [done| |done].
    apply orphaned_onTaskDone; [|done]. by apply Ho0. }
  unfold gulpGoOn. destruct err as [e|].
  - by apply (Hstop (set_building false (set_inflight [] st))).
  - destruct (orchestrationOver st); [by apply Hstop|done].
Qed.

Lemma orphaned_rebundleJs name now st :
  orphaned name st →
  orphaned name (rebundleJs options paths now st)
  ∧ starts name (trace (rebundleJs options paths now st)) = starts name (trace st).
Proof.
  intros Ho. unfold rebundleJs.
  destruct (orphaned_settled name st _ (settled_log [Txt Yellow "Rebundling javascript"] st)
              Ho) as [Ho1 Hs1].
  destruct (orphaned_runOrQueue name "html-js" now _ Ho1) as [Ho2 Hs2].
  split; [exact Ho2|congruence].
Qed.

Lemma orphaned_step name st ev st' :
  name ≠ "build" → orphaned name st → step st ev = Some st' →
  orphaned name st' ∧ starts name (trace st') = starts name (trace st).
Proof.
  intros Hnb Ho Hstep. destruct ev; simpl in Hstep.
  - injection Hstep as <-. apply orphaned_settled; [|done].
    unfold taskJs, bundler. destruct (bundlerInstance st) as [sid|].
    + by apply settled_emit.
    + eapply settled_trans; [|by apply settled_emit]. by apply settled_same.
  - injection Hstep as <-. destruct Ho as [Hsome Hcb].
    apply String.eqb_neq in Hnb. rewrite String.eqb_sym in Hnb.
    unfold taskWatch, bundler. cbn [bundlerInstance set_watchJs].
    destruct (bundlerInstance st); (split; [split; [exact Hsome|done]|]);
      cbn [trace emit set_building set_doneCallback set_bundlerInstance set_sessions
           set_watchJs];
      rewrite starts_app; unfold starts at 2; cbn [List.filter isStart];
      rewrite Hnb; cbn [length]; lia.
  - injection Hstep as <-. unfold onWatch.
    destruct (orphaned_settled name st _ (settled_log [Txt Yellow (watcherMessage w)] st)
                Ho) as [Ho1 Hs1].
    destruct (orphaned_runOrQueue name (watcherTask w) now _ Ho1) as [Ho2 Hs2].
    split; [exact Ho2|congruence].
  - destruct (bundlerInstance st) as [sid|] eqn:Hb; [|done].
    destruct (liveWatchify sid st); [|done].
    unfold onUpdate in Hstep. rewrite Hb in Hstep.
    destruct (_ =? _)%nat; [by injection Hstep as <-|].
    destruct (0 <? _)%nat; injection Hstep as <-.
    + apply orphaned_settled; [|done]. unfold execPrune.
      eapply settled_trans; [|by apply settled_same].
      eapply settled_trans; [|by apply (settled_emit (EExec "npm prune"))].
      eapply settled_trans; [|apply settled_log].
      eapply settled_trans; [|by apply settled_same].
      eapply settled_trans; [|apply settled_closeSession].
      eapply settled_trans; by apply settled_emit.
    + destruct (orphaned_settled name st _
                  (settled_log [Txt Yellow "Javascript changed detected"] st) Ho)
        as [Ho1 Hs1].
      destruct (orphaned_rebundleJs name now _ Ho1) as [Ho2 Hs2].
      split; [exact Ho2|congruence].
  - destruct (pendingPrune st) as [|n]; [done|]. injection Hstep as <-.
    set (st0 := set_pending n (pendingInstall st) st).
    assert (orphaned name st0) as Ho0 by exact Ho.
    change (starts name (trace st)) with (starts name (trace st0)). clearbody st0.
    unfold onPruneDone. destruct err as [e|].
    + destruct (orphaned_settled name st0 _
                  (settled_log [Txt Red "Error running npm prune:"; Txt Plain e] st0) Ho0)
        as [Ho1 Hs1].
      destruct (orphaned_rebundleJs name now _ Ho1) as [Ho2 Hs2].
      split; [exact Ho2|congruence].
    + apply orphaned_settled; [|done]. unfold execInstall.
      eapply settled_trans; [|by apply settled_same].
      eapply settled_trans; [|by apply (settled_emit (EExec "npm install"))].
      eapply settled_trans; [|apply settled_log].
      destruct (nonempty stdout); [apply settled_stdoutToLog|apply settled_refl].
  - destruct (pendingInstall st) as [|n]; [done|]. injection Hstep as <-.
    set (st0 := set_pending (pendingPrune st) n st).
    assert (orphaned name st0) as Ho0 by exact Ho.
    change (starts name (trace st)) with (starts name (trace st0)). clearbody st0.
    unfold onInstallDone.
    assert (∀ st1, settled st0 st1 →
              orphaned name (rebundleJs options paths now st1)
              ∧ starts name (trace (rebundleJs options paths now st1))
                = starts name (trace st0)) as Hgo.
    { intros st1 Hst. destruct (orphaned_settled name st0 st1 Hst Ho0) as [Ho1 Hs1].
      destruct (orphaned_rebundleJs name now _ Ho1) as [Ho2 Hs2].
      split; [exact Ho2|congruence]. }
    destruct err as [e|]; apply Hgo; [apply settled_log|].
    eapply settled_trans; [|apply settled_log].
    destruct (nonempty stdout); [apply settled_stdoutToLog|apply settled_refl].
  - destruct (inflight st !! i) as [r|]; [|done]. injection Hstep as <-.
    by apply (orphaned_gulpGoOn name err now now2 (set_inflight (delete i (inflight st)) st)).
  - destruct (building st); [|done]. injection Hstep as <-.
    by apply (orphaned_gulpGoOn name err now now2 (set_building false st)).
  - by injection Hstep as <-.
Qed.

(** Once gulp holds the callback of another [gulp.start] while a task has
    its entry, the task is stuck for good: whatever the event loop runs
    afterwards, gulp never calls the callback that would remove the entry,
    and no request of the task starts a run again. *)
Theorem dropped_callback_blocks_task (name : string) (evs : list Event)
    (st st' : State) :
  name ≠ "build" →
  orphaned name st →
  run st evs = Some st' →
  is_Some (runningTasks st' !! name)
  ∧ starts name (trace st') = starts name (trace st).
Proof.
  intros Hnb. revert st. induction evs as [|ev evs IH]; intros st Ho Hrun; simpl in Hrun.
  - injection Hrun as <-. split; [apply Ho|done].
  - destruct (step st ev) as [st1|] eqn:Hstep; [|done].
    destruct (orphaned_step name st ev st1 Hnb Ho Hstep) as [Ho1 Hs1].
    destruct (IH st1 Ho1 Hrun) as [Hsome Hs]. split; [exact Hsome|congruence].
Qed.


(** Whatever the event loop has run, a request that was not followed by a
    start of its task has left its mark: the flag of the task is set.
    Whether the request is served is up to gulp, which has to call the
    callback of that task for it. *)
Theorem waiting_request_is_flagged (evs : list Event) (st : State) (name : string) :
  run initial evs = Some st →
  unserved name (trace st) = true →
  runningTasks st !! name = Some true.
Proof.
  intros Hrun Hu.
  eapply (kept_run name evs initial st); [done|exact Hrun|exact Hu].
Qed.

End Requests.

Section Sessions.

Variable options : Options.
Variable paths : Paths.

Abbreviation runOrQueue := (runOrQueue options paths).
Abbreviation step := (step options paths).
Abbreviation run := (run options paths).

(** ** Open sessions *)

Lemma bundlerMove_quiet st st' : quiet st st' → bundlerMove st st'.
Proof. intros (Hb & Hs & _). by left. Qed.

Lemma sessions_closeSession_ext sid st st' :
  sessions st' = sessions st → sessions (closeSession sid st') = sessions (closeSession sid st).
Proof.
  intros Hs. unfold closeSession. rewrite Hs.
  destruct (sessions st !! sid); cbn; by rewrite ?Hs.
Qed.

Lemma bundlerMove_quiet_l st st1 st2 : quiet st st1 → bundlerMove st1 st2 → bundlerMove st st2.
Proof.
  intros (Hb & Hs & _) [[Hb2 Hs2]|[(Hn & Hb2 & b & Hc & Hs2)|(sid & Hb1 & Hb2 & Hs2)]].
  - left. split; congruence.
  - right. left. rewrite <- Hb, <- Hs. split; [done|]. split; [done|]. by exists b.
  - right. right. exists sid. split; [congruence|]. split; [done|].
    rewrite Hs2. by apply sessions_closeSession_ext.
Qed.

Lemma bundlerMove_quiet_r st st1 st2 : bundlerMove st st1 → quiet st1 st2 → bundlerMove st st2.
Proof.
  intros Hm (Hb & Hs & _). unfold bundlerMove. rewrite Hb, Hs. exact Hm.
Qed.

Lemma bundlerMove_taskJs st : bundlerMove st (taskJs options paths st).
Proof.
  unfold taskJs, bundler. destruct (bundlerInstance st) as [sid|] eqn:Hb.
  - by left.
  - right. left. split; [done|]. split; [done|].
    eexists. split; [|reflexivity]. reflexivity.
Qed.

Lemma bundlerMove_runOrQueue name now st : bundlerMove st (runOrQueue name now st).
Proof.
  unfold runOrQueue. cbn [runningTasks emit].
  destruct (runningTasks st !! name); [by left|].
  unfold gulpStart. set (st0 := set_doneCallback _ _).
  assert (bundlerMove st st0) as H0 by (by left).
  destruct (runsJs name); [|exact H0].
  destruct (bundlerMove_taskJs st0) as [[Hb Hs]|[(Hn & Hb & b & Hc & Hs)|(sid & Hb & Hb' & Hs)]].
  - left. cbn [bundlerInstance sessions set_inflight]. by rewrite Hb, Hs.
  - right. left. cbn [bundlerInstance sessions set_inflight]. rewrite Hb, Hs.
    split; [exact Hn|]. split; [done|]. by exists b.
  - right. right. exists sid. cbn [bundlerInstance sessions set_inflight].
    rewrite Hb', Hs. split; [exact Hb|]. split; [done|].
    by apply sessions_closeSession_ext.
Qed.

Lemma bundlerMove_rebundleJs now st : bundlerMove st (rebundleJs options paths now st).
Proof.
  eapply bundlerMove_quiet_l; [apply (quiet_log options)|apply bundlerMove_runOrQueue].
Qed.

Lemma bundlerMove_refl st : bundlerMove st st.
Proof. by left. Qed.

Lemma bundlerMove_onTaskDone r err now now2 st :
  bundlerMove st (onTaskDone options paths r err now now2 st).
Proof.
  unfold onTaskDone, outputBuildCompleteMessage. set (st1 := gutil_log _ _ st).
  assert (quiet st (set_runningTasks (delete (run_name r) (runningTasks st1)) st1)) as Hq.
  { eapply quiet_trans; [apply (quiet_log options)|]. by apply quiet_same. }
  destruct (runningTasks st1 !! run_name r) as [[|]|].
  - eapply bundlerMove_quiet_l; [exact Hq|]. apply bundlerMove_runOrQueue.
  - by apply bundlerMove_quiet.
  - by apply bundlerMove_quiet.
Qed.

Lemma bundlerMove_gulpGoOn err now now2 st :
  bundlerMove st (gulpGoOn options paths err now now2 st).
Proof.
  unfold gulpGoOn, gulpStop. destruct err as [e|].
  - cbn [doneCallback set_building set_inflight].
    destruct (doneCallback st) as [[|r]|]; [by left| |by left].
    eapply bundlerMove_quiet_l; [|apply bundlerMove_onTaskDone]. by apply quiet_same.
  - destruct (orchestrationOver st); [|apply bundlerMove_refl].
    destruct (doneCallback st) as [[|r]|];
      [apply bundlerMove_refl|apply bundlerMove_onTaskDone|apply bundlerMove_refl].
Qed.

Lemma bundlerMove_step st ev st' : step st ev = Some st' → bundlerMove st st'.
Proof.
  destruct ev; simpl.
  - intros [= <-]. apply bundlerMove_taskJs.
  - intros [= <-]. unfold taskWatch, bundler. cbn [bundlerInstance set_watchJs].
    destruct (bundlerInstance st) as [sid|] eqn:Hb.
    + by left.
    + right. left. split; [done|]. split; [done|].
      eexists. split; [|reflexivity]. reflexivity.
  - intros [= <-]. eapply bundlerMove_quiet_l; [apply (quiet_log options)|].
    apply bundlerMove_runOrQueue.
  - destruct (bundlerInstance st) as [sid|] eqn:Hb; [|done].
    destruct (liveWatchify sid st); [|done].
    unfold onUpdate. rewrite Hb. destruct (_ =? _)%nat; [intros [= <-]; by left|].
    destruct (0 <? _)%nat; intros [= <-].
    + set (st3 := set_bundlerInstance None _).
      assert (bundlerMove st st3) as H3.
      { right. right. exists sid. split; [done|]. split; [done|].
        subst st3. cbn [sessions set_bundlerInstance]. by apply sessions_closeSession_ext. }
      eapply bundlerMove_quiet_r; [exact H3|].
      eapply quiet_trans; [apply (quiet_log options)|].
      unfold execPrune. eapply quiet_trans; [by apply (quiet_emit (EExec "npm prune"))|].
      by apply quiet_same.
    + eapply bundlerMove_quiet_l; [apply (quiet_log options)|].
      apply bundlerMove_rebundleJs.
  - destruct (pendingPrune st) as [|n]; [done|]. intros [= <-].
    eapply bundlerMove_quiet_l;
      [by apply (quiet_same st (set_pending n (pendingInstall st) st))|].
    unfold onPruneDone. destruct err as [e|].
    + eapply bundlerMove_quiet_l; [apply (quiet_log options)|]. apply bundlerMove_rebundleJs.
    + apply bundlerMove_quiet. unfold execInstall.
      set (st0 := set_pending n (pendingInstall st) st).
      set (st1 := if nonempty stdout then stdoutToLog options stdout st0 else st0).
      assert (quiet st0 st1) as Hq.
      { subst st1. destruct (nonempty stdout);
          [apply (quiet_stdoutToLog options)|apply quiet_refl]. }
      eapply quiet_trans; [exact Hq|]. eapply quiet_trans; [apply (quiet_log options)|].
      eapply quiet_trans; [by apply (quiet_emit (EExec "npm install"))|].
      by apply quiet_same.
  - destruct (pendingInstall st) as [|n]; [done|]. intros [= <-].
    eapply bundlerMove_quiet_l;
      [by apply (quiet_same st (set_pending (pendingPrune st) n st))|].
    unfold onInstallDone. destruct err as [e|].
    + eapply bundlerMove_quiet_l; [apply (quiet_log options)|]. apply bundlerMove_rebundleJs.
    + eapply bundlerMove_quiet_l; [|apply bundlerMove_rebundleJs].
      eapply quiet_trans; [|apply (quiet_log options)].
      destruct (nonempty stdout); [apply (quiet_stdoutToLog options)|apply quiet_refl].
  - destruct (inflight st !! i) as [r|]; [|done]. intros [= <-].
    eapply bundlerMove_quiet_l; [|apply bundlerMove_gulpGoOn]. by apply quiet_same.
  - destruct (building st); [|done]. intros [= <-].
    eapply bundlerMove_quiet_l; [|apply bundlerMove_gulpGoOn]. by apply quiet_same.
  - intros [= <-]. by left.
Qed.

Lemma openIsCurrent_move st st' : openIsCurrent st → bundlerMove st st' → openIsCurrent st'.
Proof.
  intros [Hopen Hcur] [[Hb Hs]|[(Hn & Hb & b & Hc & Hs)|(sid & Hb & Hb' & Hs)]].
  - unfold openIsCurrent. by rewrite Hb, Hs.
  - split.
    + intros i s Hi Ho. rewrite Hs in Hi. rewrite Hb.
      destruct (decide (i < length (sessions st))%nat) as [Hlt|Hge].
      * rewrite lookup_app_l in Hi by done. specialize (Hopen i s Hi Ho). congruence.
      * apply lookup_lt_Some in Hi as Hlen. rewrite length_app in Hlen. cbn in Hlen.
        f_equal. lia.
    + intros i Hi. rewrite Hb in Hi. injection Hi as <-. exists b. split; [|done].
      rewrite Hs. by apply list_lookup_middle.
  - split; [|intros i Hi; congruence].
    intros i s Hi Ho. exfalso. rewrite Hs in Hi. unfold closeSession in Hi.
    destruct (Hcur sid Hb) as (s0 & Hs0 & Ho0). rewrite Hs0 in Hi.
    cbn [sessions set_sessions] in Hi.
    destruct (decide (i = sid)) as [->|Hne].
    + rewrite list_lookup_insert_eq in Hi by (by eapply lookup_lt_Some).
      injection Hi as <-. done.
    + rewrite list_lookup_insert_ne in Hi by done.
      specialize (Hopen i s Hi Ho). congruence.
Qed.

Lemma openIsCurrent_run evs : ∀ st st',
  openIsCurrent st → run st evs = Some st' → openIsCurrent st'.
Proof.
  induction evs as [|ev evs IH]; intros st st' Ho Hrun; simpl in Hrun.
  - by injection Hrun as <-.
  - destruct (step st ev) as [st1|] eqn:Hstep; [|done].
    eapply IH; [|exact Hrun].
    eapply openIsCurrent_move; [exact Ho|by eapply bundlerMove_step].
Qed.

(** Whatever the event loop has run, a session is open exactly when it is
    the one [bundlerInstance] holds: at most one session is open, a closed
    one is never used again, and the handler of a manifest change leaves no
    open watchify behind. *)
Theorem open_session_is_current (evs : list Event) (st : State) (i : nat) (s : Session) :
  run initial evs = Some st →
  sessions st !! i = Some s →
  (ses_closed s = false ↔ bundlerInstance st = Some i).
Proof.
  intros Hrun Hi.
  assert (openIsCurrent st) as [Hopen Hcur].
  { eapply (openIsCurrent_run evs initial st); [|exact Hrun].
    split; [intros j s0 Hj; cbn in Hj; by rewrite lookup_nil in Hj|done]. }
  split; [by apply Hopen|].
  intros Hb. destruct (Hcur i Hb) as (s' & Hs' & Ho). congruence.
Qed.

End Sessions.

Section Scripts.

Variable options : Options.
Variable paths : Paths.

Abbreviation runOrQueue := (runOrQueue options paths).
Abbreviation step := (step options paths).
Abbreviation run := (run options paths).
Abbreviation plainBundler := (plainBundler options paths).

(** ** Tasks that do not bundle *)

Lemma runOrQueue_noJs name now st :
  runsJs name = false →
  bundlerInstance (runOrQueue name now st) = bundlerInstance st
  ∧ sessions (runOrQueue name now st) = sessions st
  ∧ pendingPrune (runOrQueue name now st) = pendingPrune st
  ∧ pendingInstall (runOrQueue name now st) = pendingInstall st
  ∧ bundles (trace (runOrQueue name now st)) = bundles (trace st).
Proof.
  intros Hjs. unfold runOrQueue. cbn [runningTasks emit].
  destruct (runningTasks st !! name).
  - cbn. by rewrite bundles_app, app_nil_r.
  - unfold gulpStart. rewrite Hjs. cbn. by rewrite !bundles_app, !app_nil_r.
Qed.

Lemma runsJs_watcherTask w : runsJs (watcherTask w) = false.
Proof. by destruct w. Qed.

Lemma requestsOf_requestEffects_other name n st :
  n ≠ name → requestsOf name (requestEffects options paths n st) = 0%nat.
Proof.
  intros Hne%String.eqb_neq. unfold requestEffects, requestsOf.
  destruct (runningTasks st !! n); [|destruct (runsJs n)]; cbn; by rewrite Hne.
Qed.

(** A change of a stylesheet, an asset or the markup never touches the
    bundler: the callback of each of the three watchers makes, uses and
    releases no session, spawns no child process and requests no rebuild of
    the scripts, in whatever state it runs. *)
Theorem watcher_leaves_bundler_alone (w : Watcher) (now : Z) (st : State) :
  ∃ st', step st (EvWatch w now) = Some st'
    ∧ bundlerInstance st' = bundlerInstance st
    ∧ sessions st' = sessions st
    ∧ pendingPrune st' = pendingPrune st
    ∧ pendingInstall st' = pendingInstall st
    ∧ bundles (trace st') = bundles (trace st)
    ∧ requestsOf "html-js" (trace st') = requestsOf "html-js" (trace st)
    ∧ requestsOf (watcherTask w) (trace st') = S (requestsOf (watcherTask w) (trace st)).
Proof.
  eexists. split; [reflexivity|]. unfold onWatch.
  set (st0 := gutil_log options [Txt Yellow (watcherMessage w)] st).
  destruct (runOrQueue_noJs (watcherTask w) now st0 (runsJs_watcherTask w))
    as (-> & -> & -> & -> & ->).
  destruct (quiet_log options [Txt Yellow (watcherMessage w)] st)
    as (Hb & Hs & tl & Ht & Hn).
  destruct (pending_log options [Txt Yellow (watcherMessage w)] st) as [Hp Hi].
  fold st0 in Hb, Hs, Ht, Hp, Hi.
  split; [exact Hb|]. split; [exact Hs|]. split; [exact Hp|]. split; [exact Hi|].
  split; [by rewrite Ht, bundles_app, Hn, app_nil_r|].
  rewrite !trace_runOrQueue, !requestsOf_app, requestsOf_requestEffects.
  subst st0. rewrite !(requestsOf_log options). split; [|lia].
  rewrite requestsOf_requestEffects_other; [lia|by destruct w].
Qed.

(** ** A bundler made before the watch task *)

Lemma watcherTasks_facts n : n ∈ watcherTasks → runsJs n = false ∧ n ≠ "html-js".
Proof.
  unfold watcherTasks. rewrite !elem_of_cons, elem_of_nil.
  intros [->|[->|[->|[]]]]; by split.
Qed.

Lemma plain_log l st : plainBundler st → plainBundler (gutil_log options l st).
Proof.
  intros (Hb & Hs & Hp & Hi & Hr & Hin & Hcb).
  destruct (quiet_log options l st) as (Hb' & Hs' & _).
  destruct (pending_log options l st) as [Hp' Hi'].
  destruct (sameTasks_log options l st) as [_ Hin'].
  destruct (gulp_log options l st) as (Hcb' & _).
  unfold plainBundler.
  rewrite Hb', Hs', Hp', Hi', Hin', Hcb', (requestsOf_log options).
  done.
Qed.

Lemma plain_runOrQueue n now st :
  n ∈ watcherTasks → plainBundler st → plainBundler (runOrQueue n now st).
Proof.
  intros Hn (Hb & Hs & Hp & Hi & Hr & Hin & Hcb).
  destruct (watcherTasks_facts n Hn) as [Hjs Hne].
  destruct (runOrQueue_noJs n now st Hjs) as (Hb' & Hs' & Hp' & Hi' & _).
  unfold plainBundler. rewrite Hb', Hs', Hp', Hi'.
  rewrite trace_runOrQueue, requestsOf_app, requestsOf_requestEffects_other, Hr by done.
  repeat (split; [done|]). split.
  - intros r. destruct (runningTasks st !! n) as [b|] eqn:Hl.
    + rewrite runOrQueue_running by eauto. cbn. apply Hin.
    + destruct (runOrQueue_idle options paths n now st Hl) as [_ ->].
      intros [Hr'|Hr']%elem_of_app; [by apply Hin|].
      apply list_elem_of_singleton in Hr'. by subst r.
  - intros r [Hr'|Hr']%doneCallback_runOrQueue; [by apply Hcb|by rewrite Hr'].
Qed.

Lemma plain_gulpGoOn err now now2 st :
  plainBundler st → plainBundler (gulpGoOn options paths err now now2 st).
Proof.
  intros Hpl.
  assert (∀ st0, plainBundler st0 → plainBundler (gulpStop options paths err now now2 st0))
    as Hstop.
  { intros st0 Hpl0. unfold gulpStop.
    destruct (doneCallback st0) as [[|r]|] eqn:Hcb0; [done| |done].
    assert (run_name r ∈ watcherTasks) as Hn by (by apply Hpl0).
    unfold onTaskDone, outputBuildCompleteMessage.
    set (st1 := gutil_log options _ st0).
    assert (plainBundler st1) as Hpl1 by (by apply plain_log).
    assert (plainBundler (set_runningTasks (delete (run_name r) (runningTasks st1)) st1))
      as Hpl2 by exact Hpl1.
    destruct (runningTasks st1 !! run_name r) as [[|]|]; [|done..].
    by apply plain_runOrQueue. }
  unfold gulpGoOn. destruct err as [e|].
  - apply Hstop. destruct Hpl as (Hb & Hs & Hp & Hi & Hr & Hin & Hcb).
    unfold plainBundler. cbn. repeat (split; [done|]). split; [|done].
    by intros r ?%elem_of_nil.
  - destruct (orchestrationOver st); [by apply Hstop|done].
Qed.

Lemma plain_step st ev st' : plainBundler st → step st ev = Some st' → plainBundler st'.
Proof.
  intros Hpl Hstep. pose proof Hpl as (Hb & Hs & Hp & Hi & Hr & Hin & Hcb).
  destruct ev; simpl in Hstep.
  - injection Hstep as <-. unfold taskJs, bundler. rewrite Hb.
    unfold plainBundler.
    cbn [bundlerInstance sessions pendingPrune pendingInstall trace inflight emit
         doneCallback set_watchJs].
    rewrite requestsOf_app, Hr. done.
  - injection Hstep as <-. unfold taskWatch, bundler.
    cbn [bundlerInstance set_watchJs]. rewrite Hb.
    unfold plainBundler.
    cbn [bundlerInstance sessions pendingPrune pendingInstall trace inflight emit
         doneCallback set_watchJs set_building set_doneCallback].
    rewrite requestsOf_app, Hr. done.
  - injection Hstep as <-. apply plain_runOrQueue; [|by apply plain_log].
    unfold watcherTasks. destruct w; cbn; rewrite !elem_of_cons; auto.
  - rewrite Hb in Hstep. unfold liveWatchify in Hstep. rewrite Hs in Hstep.
    cbn in Hstep. done.
  - by rewrite Hp in Hstep.
  - by rewrite Hi in Hstep.
  - destruct (inflight st !! i) as [r|] eqn:Hri; [|done]. injection Hstep as <-.
    apply plain_gulpGoOn.
    unfold plainBundler. cbn. repeat (split; [done|]). split; [|done].
    intros r' Hr'. apply Hin. by eapply list_elem_of_delete_inv.
  - destruct (building st); [|done]. injection Hstep as <-.
    by apply plain_gulpGoOn.
  - by injection Hstep as <-.
Qed.

Lemma plain_run evs : ∀ st st', plainBundler st → run st evs = Some st' → plainBundler st'.
Proof.
  induction evs as [|ev evs IH]; intros st st' Hpl Hrun; simpl in Hrun.
  - by injection Hrun as <-.
  - destruct (step st ev) as [st1|] eqn:Hstep; [|done].
    eapply IH; [|exact Hrun]. by eapply plain_step.
Qed.

(** When the [js] task is the first thing a process runs, before the
    [watch] task set [watchJs], the bundler it makes is a plain browserify
    instance and stays the only instance for good: the [watch] task does
    not wrap or replace it.  Whatever happens afterwards, the current
    instance is not a watchify and no rebuild of the scripts is ever
    requested. *)
Theorem bundler_made_before_watch_stays_plain (evs : list Event) (st : State) :
  run initial (EvTaskJs :: evs) = Some st →
  bundlerInstance st = Some 0%nat
  ∧ length (sessions st) = 1%nat
  ∧ liveWatchify 0 st = false
  ∧ pendingPrune st = 0%nat
  ∧ requestsOf "html-js" (trace st) = 0%nat.
Proof.
  intros Hrun. change (run (taskJs options paths initial) evs = Some st) in Hrun.
  assert (plainBundler st) as (Hb & Hs & Hp & Hi & Hr & Hin & Hcb).
  { eapply plain_run; [|exact Hrun]. unfold plainBundler. cbn.
    repeat (split; [done|]). split; [by intros r ?%elem_of_nil|done]. }
  split; [exact Hb|]. split; [by rewrite Hs|]. split; [|done].
  unfold liveWatchify. by rewrite Hs.
Qed.

(** ** The child processes of a manifest change *)

Lemma count_app q tr1 tr2 : count q (tr1 ++ tr2) = (count q tr1 + count q tr2)%nat.
Proof. unfold count. by rewrite List.filter_app, length_app. Qed.

Lemma count_log q l st :
  (∀ l, q (ELog l) = false) →
  count q (trace (gutil_log options l st)) = count q (trace st).
Proof.
  intros Hq. rewrite (trace_log options), count_app.
  destruct (muted _ _); unfold count; cbn; rewrite ?Hq; cbn; lia.
Qed.

Lemma count_stdoutToLog q out st :
  (∀ l, q (ELog l) = false) →
  count q (trace (stdoutToLog options out st)) = count q (trace st).
Proof.
  intros Hq. unfold stdoutToLog. rewrite stdoutToLog_parts, count_app.
  destruct (muted _ _); [unfold count; cbn; lia|].
  assert (count q ((fun l => ELog [Txt Plain l])
                     <$> List.filter nonempty (trim <$> split_on newline out)) = 0%nat)
    as ->; [|lia].
  induction (List.filter nonempty (trim <$> split_on newline out)) as [|x l IH]; [done|].
  unfold count in *. cbn. by rewrite Hq.
Qed.

Lemma count_runOrQueue q name now st :
  (∀ n, q (ERequest n) = false) → (∀ n, q (EStart n) = false) →
  (∀ sid, q (EBundle sid) = false) →
  count q (trace (runOrQueue name now st)) = count q (trace st).
Proof.
  intros Hq1 Hq2 Hq3. rewrite trace_runOrQueue, count_app. unfold requestEffects, count.
  destruct (runningTasks st !! name); [|destruct (runsJs name)];
    cbn; rewrite ?Hq1, ?Hq2, ?Hq3; cbn; lia.
Qed.

Lemma execs_rebundleJs cmd now st :
  execs cmd (trace (rebundleJs options paths now st)) = execs cmd (trace st).
Proof.
  unfold rebundleJs, execs. rewrite count_runOrQueue by done. by apply count_log.
Qed.

Lemma execs_log cmd l st : execs cmd (trace (gutil_log options l st)) = execs cmd (trace st).
Proof. by apply count_log. Qed.

Lemma execs_installDone cmd err out now st :
  execs cmd (trace (onInstallDone options paths err out now st)) = execs cmd (trace st).
Proof.
  unfold onInstallDone. destruct err as [e|]; rewrite execs_rebundleJs, execs_log; [done|].
  destruct (nonempty out); [|done]. by apply count_stdoutToLog.
Qed.

Lemma execs_pruneDone cmd err out now st :
  execs cmd (trace (onPruneDone options paths err out now st))
  = (execs cmd (trace st)
     + match err with
       | Some _ => 0
       | None => if String.eqb "npm install" cmd then 1 else 0
       end)%nat.
Proof.
  unfold onPruneDone. destruct err as [e|].
  - rewrite execs_rebundleJs, execs_log. lia.
  - unfold execInstall. cbn [trace set_pending emit]. unfold execs.
    rewrite count_app, count_log by done.
    assert (count (isExec cmd)
              (trace (if nonempty out then stdoutToLog options out st else st))
            = count (isExec cmd) (trace st)) as ->.
    { destruct (nonempty out); [|done]. by apply count_stdoutToLog. }
    unfold count. cbn [List.filter isExec].
    destruct (String.eqb "npm install" cmd); cbn [length]; lia.
Qed.

Lemma pending_pruneDone_ok out now st :
  pendingPrune (onPruneDone options paths None out now st) = pendingPrune st
  ∧ pendingInstall (onPruneDone options paths None out now st) = S (pendingInstall st).
Proof.
  unfold onPruneDone, execInstall. cbn [pendingPrune pendingInstall set_pending emit].
  destruct (pending_log options [Txt Yellow "running npm install"]
              (if nonempty out then stdoutToLog options out st else st)) as [-> ->].
  destruct (nonempty out); [|done].
  by destruct (pending_stdoutToLog options out st) as (-> & -> & _).
Qed.

(** A batch with a file outside [/node_modules/] and a package.json runs
    [npm prune] exactly once; [npm install] is run once, and only after
    [npm prune] ended without an error: a failed prune skips the install.
    A batch without a package.json runs neither. *)
Theorem manifest_runs_prune_then_install (st : State) (sid : nat) (files : list string)
    (now : Z) (rc : Reconcile) :
  bundlerInstance st = Some sid →
  liveWatchify sid st = true →
  (∃ f, f ∈ files ∧ inNodeModules f = false) →
  ∃ st', batch options paths files now rc st = Some st'
    ∧ ((∃ f, f ∈ files ∧ isPackageJson f = true) →
         execs "npm prune" (trace st') = S (execs "npm prune" (trace st))
         ∧ execs "npm install" (trace st')
           = (execs "npm install" (trace st)
              + match rc with PruneFailed _ _ _ => 0 | PruneDone _ _ _ _ _ => 1 end)%nat)
    ∧ ((∀ f, f ∈ files → isPackageJson f = false) →
         ∀ cmd, execs cmd (trace st') = execs cmd (trace st)).
Proof.
  intros Hb Hlive Hout. unfold batch. rewrite (step_update options paths sid) by done.
  destruct (0 <? length (List.filter isPackageJson files))%nat eqn:Hpkg.
  - apply filter_some in Hpkg. rewrite (onUpdate_manifest options paths files now st sid) by done.
    set (l := [Txt Yellow "package.json change detected, running npm prune"]).
    destruct (manifest_state options l sid st) as (_ & _ & Hp & Hi & _).
    assert (∀ cmd, execs cmd (trace (execPrune (gutil_log options l
                     (set_bundlerInstance None
                        (closeSession sid (emit (EClose sid) (emit (EReset sid) st)))))))
                   = (execs cmd (trace st)
                      + if String.eqb "npm prune" cmd then 1 else 0)%nat) as Hex.
    { intros cmd. unfold execPrune. cbn [trace set_pending emit]. unfold execs.
      rewrite count_app, count_log by done.
      cbn [trace set_bundlerInstance]. rewrite trace_closeSession.
      cbn [trace emit]. rewrite !count_app. unfold count. cbn [List.filter isExec].
      destruct (String.eqb "npm prune" cmd); cbn [length]; lia. }
    set (st1 := execPrune _) in *. clearbody st1.
    replace (pendingPrune st1 =? pendingPrune st)%nat with false
      by (symmetry; apply Nat.eqb_neq; lia).
    destruct rc as [e out now1|out now1 ierr iout now2]; cbn [callbacks].
    + change (run st1 [EvPruneDone (Some e) out now1])
        with (match step st1 (EvPruneDone (Some e) out now1) with
              | Some st' => Some st' | None => None end).
      rewrite (step_pruneDone options paths (pendingPrune st)) by done.
      eexists. split; [done|]. split.
      * intros _. rewrite !execs_pruneDone. cbn [trace set_pending].
        rewrite !Hex. cbn. lia.
      * intros Hnone. destruct Hpkg as (f & Hf & Hpf). rewrite (Hnone f Hf) in Hpf. done.
    + change (run st1 [EvPruneDone None out now1; EvInstallDone ierr iout now2])
        with (match step st1 (EvPruneDone None out now1) with
              | Some st' =>
                  match step st' (EvInstallDone ierr iout now2) with
                  | Some st'' => Some st'' | None => None end
              | None => None end).
      rewrite (step_pruneDone options paths (pendingPrune st)) by done.
      set (st0 := set_pending (pendingPrune st) (pendingInstall st1) st1).
      destruct (pending_pruneDone_ok out now1 st0) as [Hp2 Hi2].
      pose proof (fun cmd => execs_pruneDone cmd None out now1 st0) as Hex2.
      set (st2 := onPruneDone options paths None out now1 st0) in *. clearbody st2.
      rewrite (step_installDone options paths (pendingInstall st1)) by done.
      eexists. split; [done|]. split.
      * intros _. rewrite !execs_installDone. cbn [trace set_pending].
        rewrite !Hex2. subst st0. cbn [trace set_pending]. rewrite !Hex. cbn. lia.
      * intros Hnone. destruct Hpkg as (f & Hf & Hpf). rewrite (Hnone f Hf) in Hpf. done.
  - rewrite (onUpdate_script options paths) by done.
    set (st0 := gutil_log options [Txt Yellow "Javascript changed detected"] st).
    destruct (pending_rebundleJs options paths now st0) as [Hp _].
    destruct (pending_log options [Txt Yellow "Javascript changed detected"] st) as [Hp0 _].
    fold st0 in Hp0. rewrite Hp, Hp0, Nat.eqb_refl.
    eexists. split; [reflexivity|]. split.
    + intros Hsome. apply filter_some in Hsome. congruence.
    + intros _ cmd. rewrite execs_rebundleJs. subst st0. apply execs_log.
Qed.

End Scripts.

(** ** The test for a package.json, read as a suffix *)

Lemma split_on_single c s l : split_on c s = [l] → s = l.
Proof.
  revert l. induction s as [|a s IH]; intros l; cbn [split_on].
  - by intros [= <-].
  - destruct (split_on_cons c s) as (h & t & Hs). rewrite Hs in IH |- *.
    destruct (Ascii.eqb a c); [done|]. intros [= <- ->]. f_equal. by apply IH.
Qed.

Lemma split_on_snoc_inv c s : ∀ init x l,
  split_on c s = init ++ [x; l] →
  ∃ pre, s = (pre +:+ String c l)%string ∧ split_on c pre = init ++ [x].
Proof.
  induction s as [|a s IH]; intros init x l; cbn [split_on].
  - intros Heq. apply (f_equal length) in Heq. rewrite length_app in Heq.
    cbn in Heq. lia.
  - destruct (Ascii.eqb_spec a c) as [->|Hne].
    + destruct init as [|i0 init]; cbn [app].
      * intros [= <- Hs]. apply split_on_single in Hs as ->. by exists "".
      * intros [= <- Hs]. destruct (IH _ _ _ Hs) as (pre & -> & Hpre).
        exists (String c pre). split; [done|]. cbn [split_on].
        by rewrite Ascii.eqb_refl, Hpre.
    + destruct (split_on_cons c s) as (h & t & Hs). rewrite Hs.
      apply Ascii.eqb_neq in Hne.
      destruct init as [|i0 init]; cbn [app].
      * intros [= <- ->]. destruct (IH [] h l Hs) as (pre & -> & Hpre).
        exists (String a pre). split; [done|]. cbn [split_on]. by rewrite Hne, Hpre.
      * intros [= <- ->]. destruct (IH (h :: init) x l Hs) as (pre & -> & Hpre).
        exists (String a pre). split; [done|]. cbn [split_on]. by rewrite Hne, Hpre.
Qed.

Lemma isPackageJson_parts init x l :
  (if (1 <? length (init ++ [x; l]))%nat
   then (String.eqb (basename (part (length (init ++ [x; l]) - 2) (init ++ [x; l])))
           "package"
         && String.eqb (part (length (init ++ [x; l]) - 1) (init ++ [x; l])) "json")%bool
   else false)
  = (String.eqb (basename x) "package" && String.eqb l "json")%bool.
Proof.
  assert (length (init ++ [x; l]) = S (S (length init))) as Hlen.
  { rewrite length_app. cbn. lia. }
  rewrite Hlen.
  replace (S (S (length init)) - 2)%nat with (length init) by lia.
  replace (S (S (length init)) - 1)%nat with (S (length init)) by lia.
  unfold part. rewrite !app_nth2 by lia.
  rewrite Nat.sub_diag. replace (S (length init) - length init)%nat with 1%nat by lia.
  done.
Qed.

(** The test of [packageJsonChanges] read on the path itself: a path passes
    exactly when it ends in [.json] and what stands before that, from its
    last dot on, has the base name [package].  A path without a dot, or
    with another extension, never passes. *)
Theorem isPackageJson_iff (f : string) :
  isPackageJson f = true
  ↔ ∃ pre, f = (pre +:+ ".json")%string
      ∧ basename (List.last (split_on "." pre) "") = "package".
Proof.
  unfold isPackageJson. split.
  - intros Htest.
    destruct (split_on "." f) as [|p0 parts] eqn:Hsplit; [done|].
    destruct parts as [|p1 parts]; [done|].
    destruct (@exists_last _ (p1 :: parts)) as (mid & l & Hl); [done|].
    destruct (@exists_last _ (p0 :: mid)) as (init & x & Hx); [done|].
    assert (p0 :: p1 :: parts = init ++ [x; l]) as Hparts.
    { rewrite Hl. change (p0 :: mid ++ [l]) with ((p0 :: mid) ++ [l]).
      rewrite Hx, <- app_assoc. done. }
    rewrite Hparts in Htest, Hsplit. rewrite isPackageJson_parts in Htest.
    apply andb_true_iff in Htest as [Hbase%String.eqb_eq Hjson%String.eqb_eq].
    subst l. destruct (split_on_snoc_inv "." f init x "json" Hsplit) as (pre & -> & Hpre).
    exists pre. split; [done|]. by rewrite Hpre, List.last_last.
  - intros (pre & -> & Hbase).
    change (pre +:+ ".json") with (pre +:+ String "." "json").
    rewrite split_on_app_sep. change (split_on "." "json") with ["json"].
    destruct (split_on_cons "." pre) as (h & t & Hs).
    destruct (@exists_last _ (h :: t)) as (init & x & Hx); [done|].
    rewrite Hs, Hx in Hbase |- *. rewrite List.last_last in Hbase.
    rewrite <- app_assoc. cbn [app]. rewrite isPackageJson_parts, Hbase. done.
Qed.

(** ** The head of init *)

Lemma initCheck_muted muted gulp options merged :
  (initCheck muted gulp options merged).1
  = (muted || reachesSilence (gulp, options, merged))%bool.
Proof.
  unfold initCheck, reachesSilence. destruct merged as [m|]; cbn [snd fst];
    [|by rewrite orb_false_r].
  destruct options as [[| |b|n| |s]|props|props]; cbn;
    rewrite ?orb_false_r; try done;
    destruct (gulpValid gulp), (pathsValid m); done.
Qed.

(** [init] never turns the log back on.  After any number of calls the log
    is muted exactly when it was muted before or one of the calls was given
    an options object whose [silent] is [true] and got as far as looking at
    it, that is, its [merge] did not throw; this holds whether that call
    went on to register its tasks or threw for its gulp instance or its
    paths. *)
Theorem init_mutes_for_good (calls : list (jsArg * jsArg * option jsArg)) (muted : bool) :
  initAll calls muted = (muted || existsb reachesSilence calls)%bool.
Proof.
  unfold initAll. revert muted. induction calls as [|c calls IH]; intros muted; cbn.
  - by rewrite orb_false_r.
  - rewrite IH. destruct c as [[gulp options] merged]. cbn [fst snd].
    rewrite initCheck_muted. by rewrite orb_assoc.
Qed.

(** When [merge] throws, [init] ends there: nothing is muted and nothing is
    checked.  When [merge] returns, [init] throws a TypeError for options
    that are [null], valid gulp instance or not, and treats every value
    that is not an object as no options at all; with other options it
    registers its tasks exactly when the gulp instance has a function
    [task] and what [merge] returned is an object, and complains about the
    gulp instance before the paths. *)
Theorem init_outcome (muted : bool) (gulp options : jsArg) (merged : option jsArg) :
  (merged = None → initCheck muted gulp options merged = (muted, Thrown MergeError))
  ∧ ∀ m, merged = Some m →
      (options = APrim VNull →
         initCheck muted gulp options merged = (muted, Thrown TypeError))
      ∧ (typeOf options ≠ "object" →
           initCheck muted gulp options merged
           = initCheck muted gulp (AObject PNil) merged)
      ∧ (options ≠ APrim VNull →
           (initCheck muted gulp options merged).2
           = if negb (gulpValid gulp) then Thrown InvalidGulp
             else if negb (pathsValid m) then Thrown InvalidPaths
             else Registered).
Proof.
  split; [by intros ->|]. intros m ->.
  split; [by intros ->|]. split.
  - intros Hty. unfold initCheck. apply String.eqb_neq in Hty. by rewrite Hty.
  - intros Hnull. unfold initCheck.
    destruct options as [[| |b|n| |s]|props|props]; cbn; try done;
      destruct (gulpValid gulp), (pathsValid m); done.
Qed.

Example init_ex1 :
  initCheck false (AObject (PCons "task" (AFunction PNil) PNil)) (APrim VUndefined)
    (Some (AObject PNil))
  = (false, Registered).
Proof. reflexivity. Qed.

Example init_ex2 :
  initCheck false (APrim VUndefined)
    (AObject (PCons "silent" (APrim (VBool true)) PNil)) (Some (AObject PNil))
  = (true, Thrown InvalidGulp).
Proof. reflexivity. Qed.

(** A call whose [merge] throws leaves the log as it is, whatever its
    options ask for. *)
Example init_ex3 :
  initCheck false (AObject (PCons "task" (AFunction PNil) PNil))
    (AObject (PCons "silent" (APrim (VBool true)) PNil)) None
  = (false, Thrown MergeError).
Proof. reflexivity. Qed.

(** ** The further theorems at concrete inputs *)

Lemma topDirectory_result_witness :
  topDirectory "app/assets/**/*" = Some "assets"
  ∧ "assets" ∈ split_on "/" "app/assets/**/*"
  ∧ hasStar "assets" = false
  ∧ hasChar "/" "assets" = false.
Proof.
  assert (topDirectory "app/assets/**/*" = Some "assets") as Htop by reflexivity.
  split; [exact Htop|].
  exact (proj1 (topDirectory_result "app/assets/**/*") "assets" Htop).
Defined.

Lemma topDirectory_glob_tail_witness :
  (∀ part, part ∈ split_on "/" "**/*" → hasStar part = true)
  ∧ topDirectory ("app/assets" +:+ "/" +:+ "**/*") = topDirectory "app/assets".
Proof.
  assert (∀ part, part ∈ split_on "/" "**/*" → hasStar part = true) as Hall.
  { intros part Hin. cbn in Hin. rewrite !elem_of_cons, elem_of_nil in Hin.
    destruct Hin as [->|[->|[]]]; reflexivity. }
  split; [exact Hall|]. exact (topDirectory_glob_tail "app/assets" "**/*" Hall).
Defined.

Lemma jsFileName_choice_witness :
  truthy (VStr "bundle.js") = true
  ∧ truthy (VStr "") = false
  ∧ jsFileName (VStr "bundle.js") (defaultPaths "/proj") = VStr "bundle.js"
  ∧ ∃ fn, jsFileName (VStr "") (defaultPaths "/proj") = VStr fn
      ∧ endsWith ".jsx" fn = false
      ∧ hasChar "/" fn = false.
Proof.
  split; [reflexivity|]. split; [reflexivity|]. split.
  - exact (proj1 (jsFileName_choice (VStr "bundle.js") (defaultPaths "/proj")) eq_refl).
  - exact (proj2 (jsFileName_choice (VStr "") (defaultPaths "/proj")) eq_refl).
Defined.

Lemma jsFileName_of_entry_witness :
  truthy VUndefined = false
  ∧ hasChar "/" "main.jsx" = false
  ∧ "main.jsx" ≠ ""
  ∧ paths_js (defaultPaths "/proj") = ("app" +:+ "/" +:+ "main.jsx")%string
  ∧ jsFileName VUndefined (defaultPaths "/proj") = VStr "main.js".
Proof.
  assert ("main.jsx" ≠ "") as Hne by discriminate.
  split; [reflexivity|]. split; [reflexivity|]. split; [exact Hne|]. split; [reflexivity|].
  exact (proj1 (jsFileName_of_entry VUndefined (defaultPaths "/proj") "app" "main.jsx"
                  eq_refl eq_refl Hne eq_refl) "main" eq_refl).
Defined.

Lemma entry_covers_running_witness :
  let opts := noOptions in
  let dp := defaultPaths "/proj" in
  let st := onWatch opts dp WLess 0 initial in
  run opts dp initial [EvWatch WLess 0] = Some st
  ∧ (activeRuns "html-assets" st
     ≤ match runningTasks st !! "html-assets" with Some _ => 1 | None => 0 end)%nat
  ∧ runningTasks st !! "html-assets" = None.
Proof.
  intros opts dp st.
  assert (run opts dp initial [EvWatch WLess 0] = Some st) as Hrun by reflexivity.
  split; [exact Hrun|]. split; [|vm_compute; reflexivity].
  exact (entry_covers_running opts dp [EvWatch WLess 0] st "html-assets" Hrun).
Defined.

Lemma solitary_run_coalesces_witness :
  let opts := noOptions in
  let dp := defaultPaths "/proj" in
  let st := onWatch opts dp WLess 0 initial in
  let r := {| run_name := "html-less"; run_start := 0 |} in
  let nows := [1; 2; 3; 4; 5] in
  let st1 := burst opts dp "html-less" nows st in
  run opts dp initial [EvWatch WLess 0] = Some st
  ∧ inflight st = [r]
  ∧ building st = false
  ∧ doneCallback st = Some (CbRun r)
  ∧ nows ≠ []
  ∧ starts "html-less" (trace st1) = starts "html-less" (trace st)
  ∧ ∃ st2, step opts dp st1 (EvTaskDone 0 None 100 101) = Some st2
      ∧ starts "html-less" (trace st2) = (starts "html-less" (trace st1) + 1)%nat
      ∧ inflight st2 = [{| run_name := "html-less"; run_start := 101 |}].
Proof.
  intros opts dp st r nows st1.
  assert (run opts dp initial [EvWatch WLess 0] = Some st) as Hrun by reflexivity.
  assert (inflight st = [r]) as Hin by (vm_compute; reflexivity).
  assert (building st = false) as Hbu by (vm_compute; reflexivity).
  assert (doneCallback st = Some (CbRun r)) as Hcb by (vm_compute; reflexivity).
  assert (nows ≠ []) as Hne by discriminate.
  destruct (solitary_run_coalesces opts dp [EvWatch WLess 0] st r nows
              None None 100 101 200 201 Hrun Hin Hbu Hcb Hne)
    as (_ & Hs & _ & _ & st2 & Hstep & Hs2 & _ & Hin2 & _).
  split; [exact Hrun|]. split; [exact Hin|]. split; [exact Hbu|]. split; [exact Hcb|].
  split; [exact Hne|]. split; [exact Hs|].
  exists st2. split; [exact Hstep|]. split; [exact Hs2|exact Hin2].
Defined.


Lemma waiting_request_is_flagged_witness :
  let opts := noOptions in
  let dp := defaultPaths "/proj" in
  let st := onWatch opts dp WLess 1 (onWatch opts dp WLess 0 initial) in
  run opts dp initial [EvWatch WLess 0; EvWatch WLess 1] = Some st
  ∧ unserved "html-less" (trace st) = true
  ∧ runningTasks st !! "html-less" = Some true.
Proof.
  intros opts dp st.
  assert (run opts dp initial [EvWatch WLess 0; EvWatch WLess 1] = Some st) as Hrun
    by reflexivity.
  assert (unserved "html-less" (trace st) = true) as Hu by (vm_compute; reflexivity).
  split; [exact Hrun|]. split; [exact Hu|].
  exact (waiting_request_is_flagged opts dp [EvWatch WLess 0; EvWatch WLess 1] st
           "html-less" Hrun Hu).
Defined.

Lemma open_session_is_current_witness :
  let opts := noOptions in
  let dp := defaultPaths "/proj" in
  let evs := [EvTaskWatch; EvUpdate ["/proj/package.json"] 7] in
  ∃ st s,
    run opts dp initial evs = Some st
    ∧ sessions st !! 0%nat = Some s
    ∧ (ses_closed s = false ↔ bundlerInstance st = Some 0%nat)
    ∧ ses_closed s = true.
Proof.
  intros opts dp evs.
  destruct (run opts dp initial evs) as [st|] eqn:Hrun;
    [|vm_compute in Hrun; discriminate Hrun].
  destruct (sessions st !! 0%nat) as [s|] eqn:Hs;
    [|vm_compute in Hrun; injection Hrun as <-; vm_compute in Hs; discriminate Hs].
  exists st, s. split; [reflexivity|]. split; [exact Hs|]. split.
  - exact (open_session_is_current opts dp evs st 0 s Hrun Hs).
  - vm_compute in Hrun. injection Hrun as <-. vm_compute in Hs. injection Hs as <-.
    reflexivity.
Defined.

Lemma bundler_made_before_watch_stays_plain_witness :
  let opts := noOptions in
  let dp := defaultPaths "/proj" in
  let evs := [EvTaskWatch; EvWatch WLess 3] in
  ∃ st,
    run opts dp initial (EvTaskJs :: evs) = Some st
    ∧ bundlerInstance st = Some 0%nat
    ∧ length (sessions st) = 1%nat
    ∧ liveWatchify 0 st = false
    ∧ pendingPrune st = 0%nat
    ∧ requestsOf "html-js" (trace st) = 0%nat.
Proof.
  intros opts dp evs.
  destruct (run opts dp initial (EvTaskJs :: evs)) as [st|] eqn:Hrun;
    [|vm_compute in Hrun; discriminate Hrun].
  exists st. split; [reflexivity|].
  exact (bundler_made_before_watch_stays_plain opts dp evs st Hrun).
Defined.

Lemma manifest_runs_prune_then_install_witness :
  let opts := noOptions in
  let dp := defaultPaths "/proj" in
  let st := taskWatch opts dp initial in
  let files := ["/proj/package.json"] in
  let rc := PruneFailed "Error: EACCES" "" 9 in
  bundlerInstance st = Some 0%nat
  ∧ liveWatchify 0 st = true
  ∧ (∃ f, f ∈ files ∧ inNodeModules f = false)
  ∧ (∃ f, f ∈ files ∧ isPackageJson f = true)
  ∧ ∃ st', batch opts dp files 7 rc st = Some st'
      ∧ execs "npm prune" (trace st') = S (execs "npm prune" (trace st))
      ∧ execs "npm install" (trace st') = (execs "npm install" (trace st) + 0)%nat.
Proof.
  intros opts dp st files rc.
  assert (bundlerInstance st = Some 0%nat) as Hb by reflexivity.
  assert (liveWatchify 0 st = true) as Hl by reflexivity.
  assert (∃ f, f ∈ files ∧ inNodeModules f = false) as Hout.
  { exists "/proj/package.json". split; [left|reflexivity]. }
  assert (∃ f, f ∈ files ∧ isPackageJson f = true) as Hpkg.
  { exists "/proj/package.json". split; [left|reflexivity]. }
  split; [exact Hb|]. split; [exact Hl|]. split; [exact Hout|]. split; [exact Hpkg|].
  destruct (manifest_runs_prune_then_install opts dp st 0 files 7 rc Hb Hl Hout)
    as (st' & Hbatch & Hman & _).
  exists st'. split; [exact Hbatch|]. exact (Hman Hpkg).
Defined.

Lemma dropped_callback_blocks_task_witness :
  let opts := noOptions in
  let dp := defaultPaths "/proj" in
  let st := onWatch opts dp WAssets 1 (onWatch opts dp WLess 0 initial) in
  let evs := [EvWatch WLess 2; EvTaskDone 0 None 10 10; EvTaskDone 0 None 20 20;
              EvWatch WLess 30] in
  ∃ st',
    "html-less" ≠ "build"
    ∧ orphaned "html-less" st
    ∧ run opts dp st evs = Some st'
    ∧ is_Some (runningTasks st' !! "html-less")
    ∧ starts "html-less" (trace st') = starts "html-less" (trace st)
    ∧ requestsOf "html-less" (trace st') = 3%nat
    ∧ inflight st' = [].
Proof.
  intros opts dp st evs.
  assert ("html-less" ≠ "build") as Hnb by discriminate.
  assert (orphaned "html-less" st) as Ho.
  { split; [exists false; vm_compute; reflexivity|].
    intros r Hr. vm_compute in Hr. injection Hr as <-. discriminate. }
  destruct (run opts dp st evs) as [st'|] eqn:Hrun;
    [|vm_compute in Hrun; discriminate Hrun].
  exists st'. split; [exact Hnb|]. split; [exact Ho|]. split; [reflexivity|].
  destruct (dropped_callback_blocks_task opts dp "html-less" evs st st' Hnb Ho Hrun)
    as [Hsome Hs].
  split; [exact Hsome|]. split; [exact Hs|].
  vm_compute in Hrun. injection Hrun as <-. split; vm_compute; reflexivity.
Defined.

Lemma init_outcome_witness :
  let gulp := AObject (PCons "task" (AFunction PNil) PNil) in
  let silent := AObject (PCons "silent" (APrim (VBool true)) PNil) in
  let merged := AObject (PCons "base" (APrim (VStr "/proj")) PNil) in
  initCheck false gulp silent None = (false, Thrown MergeError)
  ∧ initCheck false gulp (APrim VNull) (Some merged) = (false, Thrown TypeError)
  ∧ typeOf (APrim (VStr "silent")) ≠ "object"
  ∧ initCheck false gulp (APrim (VStr "silent")) (Some merged)
    = initCheck false gulp (AObject PNil) (Some merged)
  ∧ (initCheck false gulp silent (Some merged)).2 = Registered.
Proof.
  intros gulp silent merged.
  assert (typeOf (APrim (VStr "silent")) ≠ "object") as Hty by discriminate.
  assert (silent ≠ APrim VNull) as Hnn by discriminate.
  split.
  - exact (proj1 (init_outcome false gulp silent None) eq_refl).
  - split.
    + exact (proj1 (proj2 (init_outcome false gulp (APrim VNull) (Some merged))
                      merged eq_refl) eq_refl).
    + split; [exact Hty|]. split.
      * exact (proj1 (proj2 (proj2 (init_outcome false gulp (APrim (VStr "silent"))
                                      (Some merged)) merged eq_refl)) Hty).
      * exact (proj2 (proj2 (proj2 (init_outcome false gulp silent (Some merged))
                                      merged eq_refl)) Hnn).
Defined.
